(** * Swapchain: the atomic cross-chain swap orchestrator (src/pkg/accs/accs.ts)

    A shallow embedding of the [ACCS] class: [parseUserInput], the four
    role-by-direction flows and [run].  The chain adapters (Blockstream REST
    API, Bitshares WebSocket API, the two HTLC engines) are external to the
    orchestrator; every call to one of them is answered by an oracle that may
    depend on the whole history of earlier calls, and is recorded, together
    with its answer, in a trace.

    Conventions.
    - JavaScript numbers that hold block counts, seconds and satoshi are
      integers ([Z]), and [Math.round] and [/] are exact on them.  The
      amounts typed by the user are binary64 numbers ([spec_float], the
      IEEE 754 specification of the Standard Library) and are multiplied as
      IEEE 754 prescribes.  An amount whose product with its unit is [NaN]
      or infinite is outside the model: the code would carry it on as it
      is, where the config of the model holds integers.
    - [console.log] output is not part of the model.
    - A rejected promise and a [throw] are the same thing ([Throw]).
    - [while] loops consume fuel; a flow that needs more iterations than the
      fuel it was given ends in [OutOfFuel]. *)

From Stdlib Require Import ZArith QArith Qround Qabs Qpower String Ascii List Bool.
From Stdlib Require Import Lia Lqa DecimalString SpecFloat.
Import ListNotations.

Local Open Scope string_scope.
Local Open Scope Z_scope.

(** ** JavaScript values *)

Module JS.

(** [Math.round]: nearest integer, ties towards plus infinity. *)
Definition Math_round (x : Q) : Z := Qfloor (x + (1 # 2))%Q.

(** Number division [a / b] of two integer-valued numbers, exact. The flows
    divide by 2 and by [checkAPIInterval], which is 4 in every parsed config;
    for these divisors the binary64 quotient of an integer below [2 ^ 53] is
    the exact one. A zero divisor, [Infinity] or [NaN] in JavaScript, is
    outside the model: what is stated about the countdown of
    [proposeBTCForBTS] assumes the interval 4. *)
Definition div (a b : Z) : Q := (inject_Z a / inject_Z b)%Q.

(** A number that need not be an integer: an IEEE 754 binary64 value. The
    numbers of JavaScript are the values with a canonical mantissa
    ([valid_binary 53 1024]); nothing below depends on that. *)
Definition Number : Type := spec_float.

(** [x * y] *)
Definition mul (x y : Number) : Number := SFmul 53 1024 x y.

(** The number that holds the integer [z], exactly up to [2 ^ 53]. *)
Definition of_Z (z : Z) : Number := binary_normalize 53 1024 z 0 false.

(** The literals [10e7] and [10e4]: mantissa 10, decimal exponent 7 and 4. *)
Definition lit_10e7 : Number := Eval vm_compute in of_Z (10 * 10 ^ 7).
Definition lit_10e4 : Number := Eval vm_compute in of_Z (10 * 10 ^ 4).

(** [Number.isFinite(x)] *)
Definition isFinite (x : Number) : bool :=
  match x with
  | S754_zero _ | S754_finite _ _ _ => true
  | S754_infinity _ | S754_nan => false
  end.

(** [m] with the sign [s]. *)
Definition signed (s : bool) (m : Z) : Z := if s then - m else m.

(** [Math.round(x)] for a finite [x], on its mantissa and exponent: an
    integer as it is, and [m / 2 ^ k] as the floor of
    [(2 * m + 2 ^ k) / 2 ^ (k + 1)]. [Math.round] of [NaN] or of an infinity
    is not an integer; these are outside the model. *)
Definition Math_round_number (x : Number) : Z :=
  match x with
  | S754_finite s m (Zneg k) =>
      (2 * signed s (Zpos m) + 2 ^ Zpos k) / 2 ^ (Zpos k + 1)
  | S754_finite s m e => signed s (Zpos m) * 2 ^ e
  | _ => 0
  end.

(** The real number that a finite [x] stands for. *)
Definition value (x : Number) : Q :=
  match x with
  | S754_finite s m e => inject_Z (signed s (Zpos m)) * 2 ^ e
  | _ => 0
  end%Q.

(** [`${n}`] for an integer-valued number. *)
Definition string_of_number (n : Z) : string :=
  NilZero.string_of_int (Z.to_int n).

(** [`${v}`] for [number | null]. *)
Definition string_of_nullable (v : option Z) : string :=
  match v with
  | Some n => string_of_number n
  | None => "null"
  end.

(** [undefined + n] is [NaN]; [NaN] is [None]. *)
Definition add_undefined (a : option Z) (b : Z) : option Z :=
  match a with
  | Some x => Some (x + b)
  | None => None
  end.

(** [a < b] where [b] may be [NaN]: every comparison with [NaN] is false. *)
Definition lt_nan (a : Z) (b : option Z) : bool :=
  match b with
  | Some y => a <? y
  | None => false
  end.

(** [v < b] where [v : number | null]; [null] converts to [0]. *)
Definition nullable_lt (v : option Z) (b : Z) : bool :=
  match v with
  | Some x => x <? b
  | None => 0 <? b
  end.

(** Truthiness of a string: [!s] holds exactly for the empty string. *)
Definition falsy (s : string) : bool := String.eqb s "".

Definition hex_digit (n : N) : ascii :=
  match n with
  | 0%N => "0" | 1%N => "1" | 2%N => "2" | 3%N => "3"
  | 4%N => "4" | 5%N => "5" | 6%N => "6" | 7%N => "7"
  | 8%N => "8" | 9%N => "9" | 10%N => "a" | 11%N => "b"
  | 12%N => "c" | 13%N => "d" | 14%N => "e" | _ => "f"
  end%char.

(** [Buffer.toString("hex")]: two lowercase hex digits per byte. *)
Fixpoint toString_hex (b : string) : string :=
  match b with
  | EmptyString => EmptyString
  | String c rest =>
      let n := N_of_ascii c in
      String (hex_digit (n / 16)) (String (hex_digit (n mod 16)) (toString_hex rest))
  end.

End JS.

(** [new Error(message)], and whatever an adapter rejects with. *)
Inductive Error : Type :=
| JsError (message : string).

(** A settled promise of an adapter. *)
Inductive Result (A : Type) : Type :=
| Ok (a : A)
| Err (e : Error).
Arguments Ok {A} a.
Arguments Err {A} e.

(** ** Data model *)

Module Secret.
(** [hash] is the SHA-256 digest as a buffer; [preimage] is absent
    ([None]) in the accepter's hash-only secret. *)
Record t : Type := mk {
  preimage : option string;
  hash : string
}.

(** [secret.preimage = p] *)
Definition set_preimage (s : t) (p : string) : t :=
  {| preimage := Some p; hash := hash s |}.
End Secret.

(** [bitcoin.networks.bitcoin] and [bitcoin.networks.testnet]. *)
Inductive Network : Type :=
| networks_bitcoin
| networks_testnet.

Module ECPair.
(** A compressed secp256k1 key pair; the counterparty's has no private key. *)
Record t : Type := mk {
  privateKey : option string;
  publicKey : string
}.
End ECPair.

(** ** The Bitcoin HTLC engine, as far as the orchestrator sees it *)

Module Script.
(** The opcodes of the redeem script. [push_hash160 k] is the push of
    [HASH160(k)], kept symbolic. *)
Inductive Op : Type :=
| OP_IF | OP_ELSE | OP_ENDIF
| OP_SHA256 | OP_HASH160 | OP_DUP | OP_DROP
| OP_EQUALVERIFY | OP_CHECKSEQUENCEVERIFY | OP_CHECKSIG
| push_bytes (b : string)
| push_hash160 (pubkey : string)
| push_number (n : Z).

Definition t : Type := list Op.
End Script.

Module Payment.
(** [OP_0 <SHA256(redeemScript)>], kept symbolic. *)
Inductive Output : Type :=
| P2WSH_output (redeemScript : Script.t).

(** The segwit address of the witness program on the named network. *)
Inductive Address : Type :=
| P2WSH_address (network : string) (redeemScript : Script.t).

Record t : Type := mk {
  output : Output;
  address : Address
}.
End Payment.

Module HTLCConfigBTC.
Record t : Type := mk {
  transactionID : string;
  amount : Z;
  sequence : Z;
  hash : string
}.
End HTLCConfigBTC.

Module Fee.
Record t : Type := mk {
  max : Z;
  want : Z
}.
End Fee.

Module BitcoinHTLC.
Import Script.

(** The members the orchestrator depends on. [fundingTxBlockHeight] is
    [undefined] ([None]) until [create] records it. *)
Record t : Type := mk {
  network : string;
  sender : ECPair.t;
  receiver : ECPair.t;
  priority : Z;
  fundingTxBlockHeight : option Z
}.

(** [new BitcoinHTLC(network, sender, receiver, priority, BlockStream)] *)
Definition new (network : string) (sender receiver : ECPair.t) (priority : Z) : t :=
  {| network := network; sender := sender; receiver := receiver;
     priority := priority; fundingTxBlockHeight := None |}.

Definition getFundingTxBlockHeight (h : t) : option Z := fundingTxBlockHeight h.

Definition set_fundingTxBlockHeight (h : t) (height : option Z) : t :=
  {| network := network h; sender := sender h; receiver := receiver h;
     priority := priority h; fundingTxBlockHeight := height |}.

(** Modelled from the spec: the private method [redeemScript] of
    pkg/bitcoin/htlc/btcHTLC.ts is not among the sources. The script is the
    one of the data model: the hash lock pays the receiver, the relative
    timelock pays the sender. *)
Definition redeemScript (h : t) (hash : string) (sequence : Z) : Script.t :=
  [ OP_IF;
      OP_SHA256; push_bytes hash; OP_EQUALVERIFY;
      OP_DUP; OP_HASH160; push_hash160 (ECPair.publicKey (receiver h));
    OP_ELSE;
      push_number sequence; OP_CHECKSEQUENCEVERIFY; OP_DROP;
      OP_DUP; OP_HASH160; push_hash160 (ECPair.publicKey (sender h));
    OP_ENDIF;
    OP_EQUALVERIFY; OP_CHECKSIG ].

(** Modelled from the spec: [getP2WSH] of pkg/bitcoin/htlc/btcHTLC.ts is not
    among the sources. It is pure: the payment (script and address) of the
    redeem script built from the hash, the sequence and the two public keys
    of the instance. *)
Definition getP2WSH (h : t) (hash : string) (sequence : Z) : Payment.t :=
  let script := redeemScript h hash sequence in
  {| Payment.output := Payment.P2WSH_output script;
     Payment.address := Payment.P2WSH_address (network h) script |}.

(** Modelled from the spec: the P2WSH that [create(config)] funds is the one
    of steps 1 and 2 of [create], built from [config.hash] and
    [config.sequence]. *)
Definition fundedP2WSH (h : t) (config : HTLCConfigBTC.t) : Payment.t :=
  getP2WSH h (HTLCConfigBTC.hash config) (HTLCConfigBTC.sequence config).
End BitcoinHTLC.

(** ** The Bitshares HTLC engine *)

Module HTLCConfigBTS.
Record t : Type := mk {
  amount : Z;
  asset : string;
  time : Z;
  hash : string;
  privateKey : string
}.
End HTLCConfigBTS.

Module BitsharesHTLC.
Record t : Type := mk {
  node : string;
  sender : string;
  receiver : string
}.

(** [new BitsharesHTLC(node, sender, receiver)] *)
Definition new (node sender receiver : string) : t :=
  {| node := node; sender := sender; receiver := receiver |}.
End BitsharesHTLC.

(** ** Adapter calls and their answers *)

(** One constructor per adapter operation the orchestrator uses; the last
    argument is the answer the call received. *)
Inductive Event : Type :=
| BitsharesAPI_getInstance (node : string) (r : Result unit)
| websocket_toAccountID (privateKey network : string) (r : Result string)
| websocket_getAccountID (accountName : string) (r : Result string)
| websocket_getID (sender receiver : string) (amount : Z) (hash : string) (time : Z)
    (r : Result string)
| websocket_getPreimageFromHTLC (sender receiver hashHex : string) (r : Result string)
| timer_toBTS (network : string) (r : Result Z)
| BitcoinHTLC_create (h : BitcoinHTLC.t) (config : HTLCConfigBTC.t)
    (r : Result (string * option Z))
| BitcoinHTLC_redeem (h : BitcoinHTLC.t) (p2wsh : Payment.t) (amount : Z)
    (secret : Secret.t) (r : Result unit)
| BitcoinHTLC_calculateFee (h : BitcoinHTLC.t) (r : Result Fee.t)
| bitcoinAPI_getLastBlock (network : string) (r : Result Z)
| bitcoinAPI_getValueFromLastTransaction (network : string) (address : Payment.Address)
    (r : Result (string * Z))
| bitcoinAPI_getPreimageFromLastTransaction (network : string) (address : Payment.Address)
    (r : Result (option string))
| bitcoinAPI_pushTX (network : string) (hex : string) (r : Result string)
| BitsharesHTLC_create (h : BitsharesHTLC.t) (config : HTLCConfigBTS.t) (r : Result unit)
| BitsharesHTLC_redeem (h : BitsharesHTLC.t) (amount : Z) (privateKey : string)
    (secret : Secret.t) (r : Result bool)
| setTimeout (ms : Z).

Definition Trace : Type := list Event.

(** The world outside the orchestrator. Each chain operation answers from the
    history of all earlier calls and its own arguments. The three [ECPair]
    functions are the pure key helpers of bitcoinjs-lib, which throw on
    malformed keys. *)
Module Env.
Record t : Type := mk {
  getInstance : Trace -> string -> Result unit;
  toAccountID : Trace -> string -> string -> Result string;
  getAccountID : Trace -> string -> Result string;
  getID : Trace -> string -> string -> Z -> string -> Z -> Result string;
  getPreimageFromHTLC : Trace -> string -> string -> string -> Result string;
  toBTS : Trace -> string -> Result Z;
  btcCreate : Trace -> BitcoinHTLC.t -> HTLCConfigBTC.t -> Result (string * option Z);
  btcRedeem : Trace -> BitcoinHTLC.t -> Payment.t -> Z -> Secret.t -> Result unit;
  calculateFee : Trace -> BitcoinHTLC.t -> Result Fee.t;
  getLastBlock : Trace -> string -> Result Z;
  getValueFromLastTransaction : Trace -> string -> Payment.Address -> Result (string * Z);
  getPreimageFromLastTransaction :
    Trace -> string -> Payment.Address -> Result (option string);
  pushTX : Trace -> string -> string -> Result string;
  btsCreate : Trace -> BitsharesHTLC.t -> HTLCConfigBTS.t -> Result unit;
  btsRedeem : Trace -> BitsharesHTLC.t -> Z -> string -> Secret.t -> Result bool;
  ECPair_fromWIF : string -> Network -> Result ECPair.t;
  ECPair_fromPrivateKey : option string -> Result ECPair.t;
  ECPair_fromPublicKey : string -> Result ECPair.t
}.
End Env.

(** ** Asynchronous code as a state-and-exception monad *)

(** How a computation ends. *)
Inductive Outcome (A : Type) : Type :=
| Return (a : A)
| Throw (e : Error)
| OutOfFuel.
Arguments Return {A} a.
Arguments Throw {A} e.
Arguments OutOfFuel {A}.

(** States that carry the trace of adapter calls. *)
Class Traced (S : Type) : Type := {
  get_trace : S -> Trace;
  log_event : Event -> S -> S
}.

#[export] Instance Traced_Trace : Traced Trace := {
  get_trace := fun t => t;
  log_event := fun e t => (t ++ [e])%list
}.

Definition M (S A : Type) : Type := S -> Outcome A * S.

Definition ret {S A : Type} (a : A) : M S A := fun s => (Return a, s).

Definition throw {S A : Type} (e : Error) : M S A := fun s => (Throw e, s).

Definition bind {S A B : Type} (m : M S A) (k : A -> M S B) : M S B :=
  fun s =>
    match m s with
    | (Return a, s') => k a s'
    | (Throw e, s') => (Throw e, s')
    | (OutOfFuel, s') => (OutOfFuel, s')
    end.

Declare Scope accs_scope.
Delimit Scope accs_scope with accs.
Notation "x <- m ;; k" := (bind m (fun x => k))
  (at level 61, m at next level, right associativity) : accs_scope.
Notation "' pat <- m ;; k" := (bind m (fun x => match x with pat => k end))
  (at level 61, pat pattern, m at next level, right associativity) : accs_scope.
Notation "m ;; k" := (bind m (fun _ => k))
  (at level 61, right associativity) : accs_scope.
Local Open Scope accs_scope.

(** [await adapter.op(args)]: ask the oracle, record call and answer, and
    resume with the value or rethrow the rejection. *)
Definition await {S A : Type} `{Traced S}
    (answer : Trace -> Result A) (event : Result A -> Event) : M S A :=
  fun s =>
    let r := answer (get_trace s) in
    (match r with Ok a => Return a | Err e => Throw e end, log_event (event r) s).

(** [promise.then(...).catch((err) => {})]: a rejection becomes a value. *)
Definition settle {S A : Type} (m : M S A) : M S (Result A) :=
  fun s =>
    match m s with
    | (Return a, s') => (Return (Ok a), s')
    | (Throw e, s') => (Return (Err e), s')
    | (OutOfFuel, s') => (OutOfFuel, s')
    end.

(** A pure helper that may throw. *)
Definition lift {S A : Type} (r : Result A) : M S A :=
  match r with
  | Ok a => ret a
  | Err e => throw e
  end.

(** [await new Promise((resolve) => setTimeout(resolve, ms))] *)
Definition sleep {S : Type} `{Traced S} (ms : Z) : M S unit :=
  fun s => (Return tt, log_event (setTimeout ms) s).

(** [while (cond) { body }] over the loop's local variables [L]. *)
Fixpoint while {S L : Type} (fuel : nat) (cond : L -> bool) (body : L -> M S L)
    (l : L) (s : S) {struct fuel} : Outcome L * S :=
  if cond l then
    match fuel with
    | O => (OutOfFuel, s)
    | Datatypes.S fuel' =>
        match body l s with
        | (Return l', s') => while fuel' cond body l' s'
        | (Throw e, s') => (Throw e, s')
        | (OutOfFuel, s') => (OutOfFuel, s')
        end
    end
  else (Return l, s).

(** ** The adapter operations *)

Section Adapters.
Context (env : Env.t) {S : Type} `{Traced S}.

Definition getInstance (node : string) : M S unit :=
  await (fun t => Env.getInstance env t node) (BitsharesAPI_getInstance node).

Definition toAccountID (privateKey network : string) : M S string :=
  await (fun t => Env.toAccountID env t privateKey network)
        (websocket_toAccountID privateKey network).

Definition getAccountID (accountName : string) : M S string :=
  await (fun t => Env.getAccountID env t accountName)
        (websocket_getAccountID accountName).

Definition getID (sender receiver : string) (amount : Z) (hash : string) (time : Z)
    : M S string :=
  await (fun t => Env.getID env t sender receiver amount hash time)
        (websocket_getID sender receiver amount hash time).

Definition getPreimageFromHTLC (sender receiver hashHex : string) : M S string :=
  await (fun t => Env.getPreimageFromHTLC env t sender receiver hashHex)
        (websocket_getPreimageFromHTLC sender receiver hashHex).

(** [htlc.create(config)]: returns the refund hex; the instance records the
    block height of the funding transaction. *)
Definition btcCreate (h : BitcoinHTLC.t) (config : HTLCConfigBTC.t)
    : M S (string * BitcoinHTLC.t) :=
  '(refundHex, height) <-
     await (fun t => Env.btcCreate env t h config) (BitcoinHTLC_create h config) ;;
  ret (refundHex, BitcoinHTLC.set_fundingTxBlockHeight h height).

Definition btcRedeem (h : BitcoinHTLC.t) (p2wsh : Payment.t) (amount : Z)
    (secret : Secret.t) : M S unit :=
  await (fun t => Env.btcRedeem env t h p2wsh amount secret)
        (BitcoinHTLC_redeem h p2wsh amount secret).

Definition calculateFee (h : BitcoinHTLC.t) : M S Fee.t :=
  await (fun t => Env.calculateFee env t h) (BitcoinHTLC_calculateFee h).

(** [(await htlc.bitcoinAPI.getLastBlock()).height] *)
Definition getLastBlock_height (h : BitcoinHTLC.t) : M S Z :=
  await (fun t => Env.getLastBlock env t (BitcoinHTLC.network h))
        (bitcoinAPI_getLastBlock (BitcoinHTLC.network h)).

Definition getValueFromLastTransaction (h : BitcoinHTLC.t) (address : Payment.Address)
    : M S (string * Z) :=
  await (fun t => Env.getValueFromLastTransaction env t (BitcoinHTLC.network h) address)
        (bitcoinAPI_getValueFromLastTransaction (BitcoinHTLC.network h) address).

Definition getPreimageFromLastTransaction (h : BitcoinHTLC.t)
    (address : Payment.Address) : M S (option string) :=
  await (fun t => Env.getPreimageFromLastTransaction env t (BitcoinHTLC.network h) address)
        (bitcoinAPI_getPreimageFromLastTransaction (BitcoinHTLC.network h) address).

Definition pushTX (h : BitcoinHTLC.t) (hex : string) : M S string :=
  await (fun t => Env.pushTX env t (BitcoinHTLC.network h) hex)
        (bitcoinAPI_pushTX (BitcoinHTLC.network h) hex).

Definition btsCreate (h : BitsharesHTLC.t) (config : HTLCConfigBTS.t) : M S unit :=
  await (fun t => Env.btsCreate env t h config) (BitsharesHTLC_create h config).

Definition btsRedeem (h : BitsharesHTLC.t) (amount : Z) (privateKey : string)
    (secret : Secret.t) : M S bool :=
  await (fun t => Env.btsRedeem env t h amount privateKey secret)
        (BitsharesHTLC_redeem h amount privateKey secret).
End Adapters.

(** ** Timer *)

Module Timer.
Record t : Type := mk {
  blockSequence : Z;
  network : string
}.

(** [new Timer(blockSequence, network, BlockStream)] *)
Definition new (blockSequence : Z) (network : string) : t :=
  {| blockSequence := blockSequence; network := network |}.

(** Modelled from the spec: pkg/accs/timer.ts is not among the sources.
    [toBTC()] returns the target horizon in blocks. *)
Definition toBTC (timer : t) : Z := blockSequence timer.

(** Modelled from the spec: [toBTS()] queries the Bitcoin chain adapter for
    recent block times and returns a number of seconds, or fails. *)
Definition toBTS (env : Env.t) {S : Type} `{Traced S} (timer : t) : M S Z :=
  await (fun t => Env.toBTS env t (network timer)) (timer_toBTS (network timer)).
End Timer.

(** ** User input and swap configuration *)

Module ACCSFields.
(** Raw user input. [rate] is carried but never read by the orchestrator. *)
Record t : Type := mk {
  mode : string;
  networkToTrade : string;
  currencyToGive : string;
  amountToSend : JS.Number;
  rate : JS.Number;
  amountToReceive : JS.Number;
  bitcoinPrivateKey : string;
  bitsharesPrivateKey : string;
  counterpartyBitcoinPublicKey : string;
  counterpartyBitsharesAccountName : string;
  bitcoinTxID : string;
  priority : Z;
  secret : Secret.t
}.
End ACCSFields.

Module ACCSConfig.
Record t : Type := mk {
  mode : string;
  type : string;
  priority : Z;
  bitsharesAccountID : string;
  bitsharesPrivateKey : string;
  counterpartyBitsharesAccountID : string;
  amountBTSMini : Z;
  amountSatoshi : Z;
  keyPairCompressedBTC : ECPair.t;
  counterpartyKeyPairCompressedBTC : ECPair.t;
  timelockBTC : Z;
  timelockBTS : Z;
  secret : Secret.t;
  bitcoinTxID : string;
  network : Network;
  networkName : string;
  bitsharesAsset : string;
  bitsharesEndpoint : string;
  checkAPIInterval : Z
}.

(** [config.timelockBTC = v] *)
Definition set_timelockBTC (c : t) (v : Z) : t :=
  {| mode := mode c; type := type c; priority := priority c;
     bitsharesAccountID := bitsharesAccountID c;
     bitsharesPrivateKey := bitsharesPrivateKey c;
     counterpartyBitsharesAccountID := counterpartyBitsharesAccountID c;
     amountBTSMini := amountBTSMini c; amountSatoshi := amountSatoshi c;
     keyPairCompressedBTC := keyPairCompressedBTC c;
     counterpartyKeyPairCompressedBTC := counterpartyKeyPairCompressedBTC c;
     timelockBTC := v; timelockBTS := timelockBTS c;
     secret := secret c; bitcoinTxID := bitcoinTxID c; network := network c;
     networkName := networkName c; bitsharesAsset := bitsharesAsset c;
     bitsharesEndpoint := bitsharesEndpoint c;
     checkAPIInterval := checkAPIInterval c |}.

(** [config.timelockBTS = v] *)
Definition set_timelockBTS (c : t) (v : Z) : t :=
  {| mode := mode c; type := type c; priority := priority c;
     bitsharesAccountID := bitsharesAccountID c;
     bitsharesPrivateKey := bitsharesPrivateKey c;
     counterpartyBitsharesAccountID := counterpartyBitsharesAccountID c;
     amountBTSMini := amountBTSMini c; amountSatoshi := amountSatoshi c;
     keyPairCompressedBTC := keyPairCompressedBTC c;
     counterpartyKeyPairCompressedBTC := counterpartyKeyPairCompressedBTC c;
     timelockBTC := timelockBTC c; timelockBTS := v;
     secret := secret c; bitcoinTxID := bitcoinTxID c; network := network c;
     networkName := networkName c; bitsharesAsset := bitsharesAsset c;
     bitsharesEndpoint := bitsharesEndpoint c;
     checkAPIInterval := checkAPIInterval c |}.

(** [config.secret.preimage = p] *)
Definition set_secret_preimage (c : t) (p : string) : t :=
  {| mode := mode c; type := type c; priority := priority c;
     bitsharesAccountID := bitsharesAccountID c;
     bitsharesPrivateKey := bitsharesPrivateKey c;
     counterpartyBitsharesAccountID := counterpartyBitsharesAccountID c;
     amountBTSMini := amountBTSMini c; amountSatoshi := amountSatoshi c;
     keyPairCompressedBTC := keyPairCompressedBTC c;
     counterpartyKeyPairCompressedBTC := counterpartyKeyPairCompressedBTC c;
     timelockBTC := timelockBTC c; timelockBTS := timelockBTS c;
     secret := Secret.set_preimage (secret c) p;
     bitcoinTxID := bitcoinTxID c; network := network c;
     networkName := networkName c; bitsharesAsset := bitsharesAsset c;
     bitsharesEndpoint := bitsharesEndpoint c;
     checkAPIInterval := checkAPIInterval c |}.
End ACCSConfig.

(** The state of a running flow: the config object, which the flow mutates,
    and the trace of adapter calls. *)
Module State.
Record t : Type := mk {
  config : ACCSConfig.t;
  trace : Trace
}.

Definition start (c : ACCSConfig.t) : t := {| config := c; trace := [] |}.
End State.

#[export] Instance Traced_State : Traced State.t := {
  get_trace := State.trace;
  log_event := fun e s =>
    {| State.config := State.config s; State.trace := (State.trace s ++ [e])%list |}
}.

(** Reading the config object, and assigning to its fields. *)
Definition get_config : M State.t ACCSConfig.t :=
  fun s => (Return (State.config s), s).

Definition assign (f : ACCSConfig.t -> ACCSConfig.t) : M State.t unit :=
  fun s => (Return tt, {| State.config := f (State.config s); State.trace := State.trace s |}).

(** ** The orchestrator: class [ACCS] *)

Module ACCS.
Import ACCSConfig.

Definition is_null {A : Type} (v : option A) : bool :=
  match v with
  | Some _ => false
  | None => true
  end.

Section Flows.
Context (env : Env.t).

(** [ACCS.parseUserInput(fields)] *)
Definition parseUserInput (fields : ACCSFields.t) : M Trace ACCSConfig.t :=
  let '(network, bitsharesAsset, bitsharesEndpoint) :=
    if String.eqb (ACCSFields.networkToTrade fields) "mainnet"
    then (networks_bitcoin, "BTS", "wss://api.dex.trading/")
    else (networks_testnet, "TEST", "wss://testnet.dex.trading/") in
  getInstance env bitsharesEndpoint ;;
  let networkName := ACCSFields.networkToTrade fields in
  let mode := ACCSFields.mode fields in
  let type := ACCSFields.currencyToGive fields in
  let priority := ACCSFields.priority fields in
  bitsharesAccountID <-
    toAccountID env (ACCSFields.bitsharesPrivateKey fields)
                (ACCSFields.networkToTrade fields) ;;
  let bitsharesPrivateKey := ACCSFields.bitsharesPrivateKey fields in
  counterpartyBitsharesAccountID <-
    getAccountID env (ACCSFields.counterpartyBitsharesAccountName fields) ;;
  let '(amountBTSMini, amountSatoshi) :=
    if String.eqb type "BTC"
    then (JS.Math_round_number (JS.mul (ACCSFields.amountToReceive fields) JS.lit_10e4),
          JS.Math_round_number (JS.mul (ACCSFields.amountToSend fields) JS.lit_10e7))
    else (JS.Math_round_number (JS.mul (ACCSFields.amountToSend fields) JS.lit_10e4),
          JS.Math_round_number (JS.mul (ACCSFields.amountToReceive fields) JS.lit_10e7)) in
  keyPairBTC <- lift (Env.ECPair_fromWIF env (ACCSFields.bitcoinPrivateKey fields) network) ;;
  keyPairCompressedBTC <-
    lift (Env.ECPair_fromPrivateKey env (ECPair.privateKey keyPairBTC)) ;;
  counterpartyKeyPairCompressedBTC <-
    lift (Env.ECPair_fromPublicKey env (ACCSFields.counterpartyBitcoinPublicKey fields)) ;;
  let bitcoinTxID := ACCSFields.bitcoinTxID fields in
  let timer := Timer.new 6 (ACCSFields.networkToTrade fields) in
  let timelockBTC := Timer.toBTC timer in
  timelockBTS <- Timer.toBTS env timer ;;
  let secret := ACCSFields.secret fields in
  let checkAPIInterval := 4 in
  ret {| mode := mode; type := type; priority := priority;
         bitsharesAccountID := bitsharesAccountID;
         bitsharesPrivateKey := bitsharesPrivateKey;
         counterpartyBitsharesAccountID := counterpartyBitsharesAccountID;
         amountBTSMini := amountBTSMini; amountSatoshi := amountSatoshi;
         keyPairCompressedBTC := keyPairCompressedBTC;
         counterpartyKeyPairCompressedBTC := counterpartyKeyPairCompressedBTC;
         timelockBTC := timelockBTC; timelockBTS := timelockBTS;
         secret := secret; bitcoinTxID := bitcoinTxID; network := network;
         networkName := networkName; bitsharesAsset := bitsharesAsset;
         bitsharesEndpoint := bitsharesEndpoint;
         checkAPIInterval := checkAPIInterval |}.

(** *** Proposer gives BTC: [proposeBTSForBTC] *)

(** [!success && currentBlockHeight < maxBlockHeight] *)
Definition proposeBTSForBTC_cond (maxBlockHeight : option Z) (l : bool * Z) : bool :=
  let '(success, currentBlockHeight) := l in
  negb success && JS.lt_nan currentBlockHeight maxBlockHeight.

Definition proposeBTSForBTC_body (config : ACCSConfig.t)
    (htlcBTCProposer : BitcoinHTLC.t) (htlcBTSProposer : BitsharesHTLC.t)
    (l : bool * Z) : M State.t (bool * Z) :=
  let '(success, _) := l in
  r <- settle (btsRedeem env htlcBTSProposer (amountBTSMini config)
                         (bitsharesPrivateKey config) (secret config)) ;;
  let success := match r with Ok s => s | Err _ => success end in
  currentBlockHeight <- getLastBlock_height env htlcBTCProposer ;;
  sleep (checkAPIInterval config * 1000) ;;
  ret (success, currentBlockHeight).

Definition proposeBTSForBTC_poll (fuel : nat) (config : ACCSConfig.t)
    (htlcBTCProposer : BitcoinHTLC.t) (htlcBTSProposer : BitsharesHTLC.t)
    (maxBlockHeight : option Z) : M State.t (bool * Z) :=
  while fuel (proposeBTSForBTC_cond maxBlockHeight)
        (proposeBTSForBTC_body config htlcBTCProposer htlcBTSProposer)
        (false, 0).

Definition proposeBTSForBTC (fuel : nat) : M State.t unit :=
  assign (fun c => set_timelockBTS c (JS.Math_round (JS.div (timelockBTS c) 2))) ;;
  config <- get_config ;;
  let htlcBTCProposer :=
    BitcoinHTLC.new (networkName config) (keyPairCompressedBTC config)
                    (counterpartyKeyPairCompressedBTC config) (priority config) in
  '(refundHex, htlcBTCProposer) <-
    btcCreate env htlcBTCProposer
      {| HTLCConfigBTC.transactionID := bitcoinTxID config;
         HTLCConfigBTC.amount := amountSatoshi config;
         HTLCConfigBTC.sequence := timelockBTC config;
         HTLCConfigBTC.hash := Secret.hash (secret config) |} ;;
  let htlcBTSProposer :=
    BitsharesHTLC.new (bitsharesEndpoint config)
                      (counterpartyBitsharesAccountID config)
                      (bitsharesAccountID config) in
  let maxBlockHeight :=
    JS.add_undefined (BitcoinHTLC.getFundingTxBlockHeight htlcBTCProposer)
                     (timelockBTC config) in
  '(success, _) <-
    proposeBTSForBTC_poll fuel config htlcBTCProposer htlcBTSProposer maxBlockHeight ;;
  if negb success then
    refundTXId <- pushTX env htlcBTCProposer refundHex ;;
    throw (JsError ("No HTLC found on Bitshares " ++ networkName config
                    ++ ". Your HTLC was refunded with transaction ID "
                    ++ refundTXId ++ "."))
  else ret tt.

(** *** Proposer gives BTS: [proposeBTCForBTS] *)

(** [txID === null && timeToWait > 0] *)
Definition proposeBTCForBTS_cond (l : option string * Z) : bool :=
  let '(txID, timeToWait) := l in
  is_null txID && (0 <? timeToWait).

Definition proposeBTCForBTS_body (config : ACCSConfig.t)
    (htlcBTCProposer : BitcoinHTLC.t) (p2wsh : Payment.t)
    (l : option string * Z) : M State.t (option string * Z) :=
  let '(txID, timeToWait) := l in
  r <- settle (getValueFromLastTransaction env htlcBTCProposer
                 (Payment.address p2wsh)) ;;
  let txID := match r with Ok res => Some (fst res) | Err _ => txID end in
  sleep (checkAPIInterval config * 1000) ;;
  ret (txID, timeToWait - 1).

Definition proposeBTCForBTS_poll (fuel : nat) (config : ACCSConfig.t)
    (htlcBTCProposer : BitcoinHTLC.t) (p2wsh : Payment.t) (timeToWait : Z)
    : M State.t (option string * Z) :=
  while fuel proposeBTCForBTS_cond
        (proposeBTCForBTS_body config htlcBTCProposer p2wsh)
        (None, timeToWait).

Definition proposeBTCForBTS (fuel : nat) : M State.t unit :=
  assign (fun c => set_timelockBTC c (JS.Math_round (JS.div (timelockBTC c) 2))) ;;
  config <- get_config ;;
  let htlcBTSProposer :=
    BitsharesHTLC.new (bitsharesEndpoint config) (bitsharesAccountID config)
                      (counterpartyBitsharesAccountID config) in
  btsCreate env htlcBTSProposer
    {| HTLCConfigBTS.amount := amountBTSMini config;
       HTLCConfigBTS.asset := bitsharesAsset config;
       HTLCConfigBTS.time := timelockBTS config;
       HTLCConfigBTS.hash := Secret.hash (secret config);
       HTLCConfigBTS.privateKey := bitsharesPrivateKey config |} ;;
  let htlcBTCProposer :=
    BitcoinHTLC.new (networkName config) (counterpartyKeyPairCompressedBTC config)
                    (keyPairCompressedBTC config) (priority config) in
  let p2wsh :=
    BitcoinHTLC.getP2WSH htlcBTCProposer (Secret.hash (secret config))
                         (timelockBTC config) in
  let timeToWait :=
    JS.Math_round (JS.div (timelockBTS config) (checkAPIInterval config)) in
  '(txID, _) <- proposeBTCForBTS_poll fuel config htlcBTCProposer p2wsh timeToWait ;;
  if is_null txID then
    throw (JsError ("No HTLC found on Bitcoin " ++ networkName config
                    ++ ". Your HTLC will be automatically refunded."))
  else
    btcRedeem env htlcBTCProposer p2wsh (amountSatoshi config) (secret config).

(** *** Accepter gives BTC: [takeBTSForBTC] *)

(** [!id && timeToWait > 0] *)
Definition takeBTSForBTC_wait_cond (l : string * Z) : bool :=
  let '(id, timeToWait) := l in
  JS.falsy id && (0 <? timeToWait).

Definition takeBTSForBTC_wait_body (config : ACCSConfig.t) (l : string * Z)
    : M State.t (string * Z) :=
  let '(id, timeToWait) := l in
  r <- settle (getID env (counterpartyBitsharesAccountID config)
                     (bitsharesAccountID config) (amountBTSMini config)
                     (Secret.hash (secret config)) (timelockBTS config)) ;;
  let id := match r with Ok res => res | Err _ => id end in
  sleep (checkAPIInterval config * 1000) ;;
  ret (id, timeToWait - checkAPIInterval config).

Definition takeBTSForBTC_wait (fuel : nat) (config : ACCSConfig.t)
    : M State.t (string * Z) :=
  while fuel takeBTSForBTC_wait_cond (takeBTSForBTC_wait_body config) ("", 300).

(** [preimageFromBlockchain === null && currentBlockHeight < maxBlockHeight] *)
Definition takeBTSForBTC_cond (maxBlockHeight : option Z) (l : option string * Z)
    : bool :=
  let '(preimageFromBlockchain, currentBlockHeight) := l in
  is_null preimageFromBlockchain && JS.lt_nan currentBlockHeight maxBlockHeight.

(** The promise of [getPreimageFromLastTransaction] has a [then] and no
    [catch]: its rejection leaves the loop and the flow. *)
Definition takeBTSForBTC_body (config : ACCSConfig.t)
    (htlcBTCAccepter : BitcoinHTLC.t) (p2wsh : Payment.t)
    (l : option string * Z) : M State.t (option string * Z) :=
  currentBlockHeight <- getLastBlock_height env htlcBTCAccepter ;;
  preimage <- getPreimageFromLastTransaction env htlcBTCAccepter
                (Payment.address p2wsh) ;;
  let preimageFromBlockchain := preimage in
  sleep (checkAPIInterval config * 1000) ;;
  ret (preimageFromBlockchain, currentBlockHeight).

Definition takeBTSForBTC_poll (fuel : nat) (config : ACCSConfig.t)
    (htlcBTCAccepter : BitcoinHTLC.t) (p2wsh : Payment.t)
    (maxBlockHeight : option Z) : M State.t (option string * Z) :=
  while fuel (takeBTSForBTC_cond maxBlockHeight)
        (takeBTSForBTC_body config htlcBTCAccepter p2wsh)
        (None, 0).

Definition takeBTSForBTC (fuel : nat) : M State.t unit :=
  config0 <- get_config ;;
  getInstance env (bitsharesEndpoint config0) ;;
  assign (fun c => set_timelockBTC c (JS.Math_round (JS.div (timelockBTC c) 2))) ;;
  config <- get_config ;;
  let htlcBTSAccepter :=
    BitsharesHTLC.new (bitsharesEndpoint config)
                      (counterpartyBitsharesAccountID config)
                      (bitsharesAccountID config) in
  '(id, _) <- takeBTSForBTC_wait fuel config ;;
  if JS.falsy id then
    throw (JsError ("No HTLC found on Bitshares " ++ networkName config
                    ++ ". Please contact proposer."))
  else
    let htlcBTCAccepter :=
      BitcoinHTLC.new (networkName config) (keyPairCompressedBTC config)
                      (counterpartyKeyPairCompressedBTC config) (priority config) in
    '(refundHex, htlcBTCAccepter) <-
      btcCreate env htlcBTCAccepter
        {| HTLCConfigBTC.transactionID := bitcoinTxID config;
           HTLCConfigBTC.amount := amountSatoshi config;
           HTLCConfigBTC.sequence := timelockBTC config;
           HTLCConfigBTC.hash := Secret.hash (secret config) |} ;;
    let p2wsh :=
      BitcoinHTLC.getP2WSH htlcBTCAccepter (Secret.hash (secret config))
                           (timelockBTC config) in
    let maxBlockHeight :=
      JS.add_undefined (BitcoinHTLC.getFundingTxBlockHeight htlcBTCAccepter)
                       (timelockBTC config) in
    '(preimageFromBlockchain, _) <-
      takeBTSForBTC_poll fuel config htlcBTCAccepter p2wsh maxBlockHeight ;;
    match preimageFromBlockchain with
    | None =>
        refundTXId <- pushTX env htlcBTCAccepter refundHex ;;
        if JS.falsy refundTXId then
          throw (JsError ("Could not push refundHex to endpoint. "
                          ++ "Hex for refund transaction: " ++ refundHex))
        else
          throw (JsError ("HTLC was not redeemed in time by the counterparty. "
                          ++ "Your HTLC was refunded with transaction ID "
                          ++ refundTXId ++ "."))
    | Some preimage =>
        assign (fun c => set_secret_preimage c preimage) ;;
        config <- get_config ;;
        success <- btsRedeem env htlcBTSAccepter (amountBTSMini config)
                             (bitsharesPrivateKey config) (secret config) ;;
        if negb success then
          throw (JsError "Could not redeem Bitshares HTLC. Please try manually.")
        else ret tt
    end.

(** *** Accepter gives BTS: [takeBTCForBTS] *)

(** [txID === null && timeToWait > 0] *)
Definition takeBTCForBTS_wait_cond (l : option string * option Z * Z) : bool :=
  let '(txID, _, timeToWait) := l in
  is_null txID && (0 <? timeToWait).

Definition takeBTCForBTS_wait_body (config : ACCSConfig.t)
    (htlcBTCAccepter : BitcoinHTLC.t) (p2wsh : Payment.t)
    (l : option string * option Z * Z) : M State.t (option string * option Z * Z) :=
  let '(txID, value, timeToWait) := l in
  r <- settle (getValueFromLastTransaction env htlcBTCAccepter
                 (Payment.address p2wsh)) ;;
  let '(txID, value) :=
    match r with
    | Ok res => (Some (fst res), Some (snd res))
    | Err _ => (txID, value)
    end in
  sleep (checkAPIInterval config * 1000) ;;
  ret (txID, value, timeToWait - checkAPIInterval config).

Definition takeBTCForBTS_wait (fuel : nat) (config : ACCSConfig.t)
    (htlcBTCAccepter : BitcoinHTLC.t) (p2wsh : Payment.t)
    : M State.t (option string * option Z * Z) :=
  while fuel takeBTCForBTS_wait_cond
        (takeBTCForBTS_wait_body config htlcBTCAccepter p2wsh)
        (None, None, 1800).

(** [!preimage && timeToWait > 0] *)
Definition takeBTCForBTS_cond (l : string * Z) : bool :=
  let '(preimage, timeToWait) := l in
  JS.falsy preimage && (0 <? timeToWait).

Definition takeBTCForBTS_body (config : ACCSConfig.t) (l : string * Z)
    : M State.t (string * Z) :=
  let '(preimage, timeToWait) := l in
  r <- settle (getPreimageFromHTLC env (bitsharesAccountID config)
                 (counterpartyBitsharesAccountID config)
                 (JS.toString_hex (Secret.hash (secret config)))) ;;
  let preimage := match r with Ok s => s | Err _ => preimage end in
  sleep 1000 ;;
  ret (preimage, timeToWait - 1).

Definition takeBTCForBTS_poll (fuel : nat) (config : ACCSConfig.t) (timeToWait : Z)
    : M State.t (string * Z) :=
  while fuel takeBTCForBTS_cond (takeBTCForBTS_body config) ("", timeToWait).

Definition takeBTCForBTS (fuel : nat) : M State.t unit :=
  config0 <- get_config ;;
  getInstance env (bitsharesEndpoint config0) ;;
  assign (fun c => set_timelockBTS c (JS.Math_round (JS.div (timelockBTS c) 2))) ;;
  config <- get_config ;;
  let htlcBTCAccepter :=
    BitcoinHTLC.new (networkName config) (counterpartyKeyPairCompressedBTC config)
                    (keyPairCompressedBTC config) (priority config) in
  let p2wsh :=
    BitcoinHTLC.getP2WSH htlcBTCAccepter (Secret.hash (secret config))
                         (timelockBTC config) in
  '(txID, value, timeToWait) <- takeBTCForBTS_wait fuel config htlcBTCAccepter p2wsh ;;
  if timeToWait =? 0 then
    throw (JsError ("No HTLC found on Bitcoin " ++ networkName config
                    ++ ". Please contact proposer."))
  else
    fees <- calculateFee env htlcBTCAccepter ;;
    if JS.nullable_lt value (amountSatoshi config - Fee.max fees) then
      throw (JsError ("The amount of Satoshi sent (" ++ JS.string_of_nullable value
                      ++ ") is not sufficient. Please contact proposer."))
    else
      let htlcBTSAccepter :=
        BitsharesHTLC.new (bitsharesEndpoint config) (bitsharesAccountID config)
                          (counterpartyBitsharesAccountID config) in
      btsCreate env htlcBTSAccepter
        {| HTLCConfigBTS.amount := amountBTSMini config;
           HTLCConfigBTS.asset := bitsharesAsset config;
           HTLCConfigBTS.time := timelockBTS config;
           HTLCConfigBTS.hash := Secret.hash (secret config);
           HTLCConfigBTS.privateKey := bitsharesPrivateKey config |} ;;
      let timeToWait := timelockBTS config in
      '(preimage, _) <- takeBTCForBTS_poll fuel config timeToWait ;;
      if JS.falsy preimage then
        throw (JsError ("HTLC was not redeemed in time by the counterparty. "
                        ++ "Your HTLC will be automatically refunded."))
      else
        assign (fun c => set_secret_preimage c preimage) ;;
        config <- get_config ;;
        btcRedeem env htlcBTCAccepter p2wsh (amountSatoshi config) (secret config).

(** *** Entry point *)

(** The branch of [run] after parsing. *)
Definition dispatch (fuel : nat) : M State.t unit :=
  config <- get_config ;;
  if String.eqb (type config) "BTC" && String.eqb (mode config) "proposer" then
    proposeBTSForBTC fuel
  else if String.eqb (type config) "BTS" && String.eqb (mode config) "proposer" then
    proposeBTCForBTS fuel
  else if String.eqb (type config) "BTC" && String.eqb (mode config) "accepter" then
    takeBTSForBTC fuel
  else if String.eqb (type config) "BTS" && String.eqb (mode config) "accepter" then
    takeBTCForBTS fuel
  else ret tt.

(** [ACCS.run(fields)]: the outcome, the trace, and the config object as
    the flow left it ([None] when parsing threw). [config.secret] is the
    object the caller passed as [fields.secret], so what a flow assigns to
    it is what the caller sees afterwards. *)
Definition run (fuel : nat) (fields : ACCSFields.t) (t : Trace)
    : Outcome unit * Trace * option ACCSConfig.t :=
  match parseUserInput fields t with
  | (Return config, t') =>
      let '(o, s) := dispatch fuel {| State.config := config; State.trace := t' |} in
      (o, State.trace s, Some (State.config s))
  | (Throw e, t') => (Throw e, t', None)
  | (OutOfFuel, t') => (OutOfFuel, t', None)
  end.
End Flows.
End ACCS.

(** ** Observations on traces *)

(** The events of [after] that were appended to [before]. *)
Definition added (before after : Trace) : Trace := skipn (length before) after.

(** The [sequence] of every Bitcoin HTLC creation, in order. *)
Definition btcCreate_sequences (t : Trace) : list Z :=
  flat_map (fun e => match e with
                     | BitcoinHTLC_create _ config _ => [HTLCConfigBTC.sequence config]
                     | _ => []
                     end) t.

(** The [time] of every Bitshares HTLC creation, in order. *)
Definition btsCreate_times (t : Trace) : list Z :=
  flat_map (fun e => match e with
                     | BitsharesHTLC_create _ config _ => [HTLCConfigBTS.time config]
                     | _ => []
                     end) t.

(** The P2WSH payments funded by the Bitcoin HTLC creations. *)
Definition funded_p2wsh (t : Trace) : list Payment.t :=
  flat_map (fun e => match e with
                     | BitcoinHTLC_create h config _ => [BitcoinHTLC.fundedP2WSH h config]
                     | _ => []
                     end) t.

(** The addresses polled for a funding transaction. *)
Definition watched_addresses (t : Trace) : list Payment.Address :=
  flat_map (fun e => match e with
                     | bitcoinAPI_getValueFromLastTransaction _ address _ => [address]
                     | _ => []
                     end) t.

(** The refund hex returned by each successful Bitcoin HTLC creation. *)
Definition refund_hexes (t : Trace) : list string :=
  flat_map (fun e => match e with
                     | BitcoinHTLC_create _ _ (Ok (refundHex, _)) => [refundHex]
                     | _ => []
                     end) t.

(** The raw transactions handed to [pushTX]. *)
Definition broadcasts (t : Trace) : list string :=
  flat_map (fun e => match e with
                     | bitcoinAPI_pushTX _ hex _ => [hex]
                     | _ => []
                     end) t.

(** A Bitshares redeem succeeded. *)
Definition bts_redeemed (t : Trace) : bool :=
  existsb (fun e => match e with
                    | BitsharesHTLC_redeem _ _ _ _ (Ok true) => true
                    | _ => false
                    end) t.

(** A preimage was extracted from a spend of the P2WSH. *)
Definition preimage_extracted (t : Trace) : bool :=
  existsb (fun e => match e with
                    | bitcoinAPI_getPreimageFromLastTransaction _ _ (Ok (Some _)) => true
                    | _ => false
                    end) t.

(** A Bitcoin chain query of a polling loop was rejected. *)
Definition btc_poll_rejected (t : Trace) : bool :=
  existsb (fun e => match e with
                    | bitcoinAPI_getLastBlock _ (Err _) => true
                    | bitcoinAPI_getPreimageFromLastTransaction _ _ (Err _) => true
                    | _ => false
                    end) t.

(** Milliseconds spent in [setTimeout]. *)
Definition slept_ms (t : Trace) : Z :=
  fold_right (fun e acc => match e with
                           | setTimeout ms => ms + acc
                           | _ => acc
                           end) 0 t.

(** Block heights read from the chain, in order. *)
Definition observed_heights (t : Trace) : list Z :=
  flat_map (fun e => match e with
                     | bitcoinAPI_getLastBlock _ (Ok h) => [h]
                     | _ => []
                     end) t.

Definition is_Throw {A : Type} (o : Outcome A) : bool :=
  match o with
  | Throw _ => true
  | _ => false
  end.

Definition is_OutOfFuel {A : Type} (o : Outcome A) : bool :=
  match o with
  | OutOfFuel => true
  | _ => false
  end.

(** ** Sample inputs *)

Module Sample.
(** The number that the decimal literal [m]e-[k] denotes, for a mantissa [m]
    below [2 ^ 53] and at most 22 decimals: both operands of the division
    are exact then, and the quotient is the binary64 number nearest to the
    decimal. *)
Definition decimal (m k : Z) : JS.Number :=
  SFdiv 53 1024 (JS.of_Z m) (JS.of_Z (10 ^ k)).

Definition secret : Secret.t :=
  {| Secret.preimage := Some "p"; Secret.hash := "h" |}.

Definition secret_hash_only : Secret.t :=
  {| Secret.preimage := None; Secret.hash := "h" |}.

Definition alice : ECPair.t :=
  {| ECPair.privateKey := Some "a"; ECPair.publicKey := "A" |}.
Definition alice_pub : ECPair.t :=
  {| ECPair.privateKey := None; ECPair.publicKey := "A" |}.
Definition bob : ECPair.t :=
  {| ECPair.privateKey := Some "b"; ECPair.publicKey := "B" |}.
Definition bob_pub : ECPair.t :=
  {| ECPair.privateKey := None; ECPair.publicKey := "B" |}.

(** A config as [parseUserInput] builds it on testnet. *)
Definition config (mode type : string) (own counterparty : ECPair.t)
    (secret : Secret.t) (timelockBTS : Z) : ACCSConfig.t :=
  {| ACCSConfig.mode := mode; ACCSConfig.type := type; ACCSConfig.priority := 1;
     ACCSConfig.bitsharesAccountID := "1.2.1";
     ACCSConfig.bitsharesPrivateKey := "k";
     ACCSConfig.counterpartyBitsharesAccountID := "1.2.2";
     ACCSConfig.amountBTSMini := 5000000; ACCSConfig.amountSatoshi := 100000;
     ACCSConfig.keyPairCompressedBTC := own;
     ACCSConfig.counterpartyKeyPairCompressedBTC := counterparty;
     ACCSConfig.timelockBTC := 6; ACCSConfig.timelockBTS := timelockBTS;
     ACCSConfig.secret := secret; ACCSConfig.bitcoinTxID := "tx";
     ACCSConfig.network := networks_testnet; ACCSConfig.networkName := "testnet";
     ACCSConfig.bitsharesAsset := "TEST";
     ACCSConfig.bitsharesEndpoint := "wss://testnet.dex.trading/";
     ACCSConfig.checkAPIInterval := 4 |}.

Definition proposer_BTC : ACCSConfig.t := config "proposer" "BTC" alice bob_pub secret 3600.
Definition accepter_BTC : ACCSConfig.t :=
  config "accepter" "BTC" bob alice_pub secret_hash_only 3600.
Definition accepter_BTS : ACCSConfig.t :=
  config "accepter" "BTS" bob alice_pub secret_hash_only 3600.
(** The same accepters when the chain reported a median block time of 20 s. *)
Definition accepter_BTC_fast : ACCSConfig.t :=
  config "accepter" "BTC" bob alice_pub secret_hash_only 120.
Definition accepter_BTS_fast : ACCSConfig.t :=
  config "accepter" "BTS" bob alice_pub secret_hash_only 120.

(** A world where everything else succeeds, and the six polled operations
    answer as given. *)
Definition env (getID : Trace -> Result string)
    (getValue : Trace -> Result (string * Z))
    (getPreimage : Trace -> Result (option string))
    (getPreimageHTLC : Trace -> Result string)
    (redeem : Trace -> Result bool)
    (height : Trace -> Result Z) : Env.t :=
  {| Env.getInstance := fun _ _ => Ok tt;
     Env.toAccountID := fun _ _ _ => Ok "1.2.1";
     Env.getAccountID := fun _ _ => Ok "1.2.2";
     Env.getID := fun t _ _ _ _ _ => getID t;
     Env.getPreimageFromHTLC := fun t _ _ _ => getPreimageHTLC t;
     Env.toBTS := fun _ _ => Ok 3600;
     Env.btcCreate := fun _ _ _ => Ok ("refund", Some 100);
     Env.btcRedeem := fun _ _ _ _ _ => Ok tt;
     Env.calculateFee := fun _ _ => Ok {| Fee.max := 1000; Fee.want := 500 |};
     Env.getLastBlock := fun t _ => height t;
     Env.getValueFromLastTransaction := fun t _ _ => getValue t;
     Env.getPreimageFromLastTransaction := fun t _ _ => getPreimage t;
     Env.pushTX := fun _ _ _ => Ok "refundtx";
     Env.btsCreate := fun _ _ _ => Ok tt;
     Env.btsRedeem := fun t _ _ _ _ => redeem t;
     Env.ECPair_fromWIF := fun wif _ =>
       Ok {| ECPair.privateKey := Some wif; ECPair.publicKey := "B" |};
     Env.ECPair_fromPrivateKey := fun k =>
       Ok {| ECPair.privateKey := k; ECPair.publicKey := "B" |};
     Env.ECPair_fromPublicKey := fun k =>
       Ok {| ECPair.privateKey := None; ECPair.publicKey := k |} |}.

Definition not_found {A : Type} : Trace -> Result A :=
  fun _ => Err (JsError "NotFound").

(** The counterparty acts at once. *)
Definition env_prompt : Env.t :=
  env (fun _ => Ok "1.16.1") (fun _ => Ok ("funding", 100000))
      (fun _ => Ok (Some "p")) (fun _ => Ok "p") (fun _ => Ok true)
      (fun _ => Ok 101).

(** The counterparty never acts; the chain is at height 101, then 106. *)
Definition env_silent : Env.t :=
  env not_found not_found (fun _ => Ok None) not_found (fun _ => Ok false)
      (fun t => Ok (if (length t <? 5)%nat then 101 else 106)).

(** The proposer's Bitshares HTLC is there, the Bitcoin HTLC is not yet
    spent, and the adapter reports that as [NotFound]. *)
Definition env_unspent : Env.t :=
  env (fun _ => Ok "1.16.1") not_found not_found not_found (fun _ => Ok false)
      (fun _ => Ok 101).

(** The funding transaction shows up at the poll number [n] (from 1), with
    the full amount. Each earlier poll adds two events to the trace after
    the WebSocket connection. *)
Definition env_funded_at (n : nat) : Env.t :=
  env not_found
      (fun t => if (length t <? 2 * n - 1)%nat then Err (JsError "NotFound")
                else Ok ("funding", 100000))
      (fun _ => Ok None) (fun _ => Ok "p") (fun _ => Ok false) (fun _ => Ok 101).

(** Input that names no known network, priority or mode. *)
Definition fields_unvalidated : ACCSFields.t :=
  {| ACCSFields.mode := "observer"; ACCSFields.networkToTrade := "regtest";
     ACCSFields.currencyToGive := "BTC";
     ACCSFields.amountToSend := decimal 5 1; ACCSFields.rate := JS.of_Z 50000;
     ACCSFields.amountToReceive := JS.of_Z 25000;
     ACCSFields.bitcoinPrivateKey := "wif"; ACCSFields.bitsharesPrivateKey := "k";
     ACCSFields.counterpartyBitcoinPublicKey := "A";
     ACCSFields.counterpartyBitsharesAccountName := "alice";
     ACCSFields.bitcoinTxID := "tx"; ACCSFields.priority := 7;
     ACCSFields.secret := secret_hash_only |}.
(** The proposer's Bitshares HTLC is there, but the proposer never redeems
    the accepter's Bitcoin HTLC; the chain is at height 101, then 106. *)
Definition env_unredeemed : Env.t :=
  env (fun _ => Ok "1.16.1") not_found (fun _ => Ok None) not_found (fun _ => Ok false)
      (fun t => Ok (if (length t <? 5)%nat then 101 else 106)).

(** The block height cannot be read. *)
Definition env_height_unavailable : Env.t :=
  env (fun _ => Ok "1.16.1") not_found (fun _ => Ok None) not_found (fun _ => Ok false)
      not_found.

(** The proposer's Bitcoin HTLC, funded at height 100. *)
Definition htlc_funded : BitcoinHTLC.t :=
  BitcoinHTLC.set_fundingTxBlockHeight
    (BitcoinHTLC.new "testnet" alice bob_pub 1) (Some 100).
End Sample.

(** ** What each flow may do *)

(** The objects a flow builds from its config. *)
Module Built.
Import ACCSConfig.

(** [Math.round(x / 2)] *)
Definition half (x : Z) : Z := JS.Math_round (JS.div x 2).

(** The Bitcoin HTLC in which this party is the sender. *)
Definition htlcBTC_own (c : ACCSConfig.t) : BitcoinHTLC.t :=
  BitcoinHTLC.new (networkName c) (keyPairCompressedBTC c)
                  (counterpartyKeyPairCompressedBTC c) (priority c).

(** The Bitcoin HTLC in which the counterparty is the sender. *)
Definition htlcBTC_counterparty (c : ACCSConfig.t) : BitcoinHTLC.t :=
  BitcoinHTLC.new (networkName c) (counterpartyKeyPairCompressedBTC c)
                  (keyPairCompressedBTC c) (priority c).

Definition htlcBTS_own (c : ACCSConfig.t) : BitsharesHTLC.t :=
  BitsharesHTLC.new (bitsharesEndpoint c) (bitsharesAccountID c)
                    (counterpartyBitsharesAccountID c).

Definition htlcBTS_counterparty (c : ACCSConfig.t) : BitsharesHTLC.t :=
  BitsharesHTLC.new (bitsharesEndpoint c) (counterpartyBitsharesAccountID c)
                    (bitsharesAccountID c).

Definition configBTC (c : ACCSConfig.t) : HTLCConfigBTC.t :=
  {| HTLCConfigBTC.transactionID := bitcoinTxID c;
     HTLCConfigBTC.amount := amountSatoshi c;
     HTLCConfigBTC.sequence := timelockBTC c;
     HTLCConfigBTC.hash := Secret.hash (secret c) |}.

Definition configBTS (c : ACCSConfig.t) : HTLCConfigBTS.t :=
  {| HTLCConfigBTS.amount := amountBTSMini c;
     HTLCConfigBTS.asset := bitsharesAsset c;
     HTLCConfigBTS.time := timelockBTS c;
     HTLCConfigBTS.hash := Secret.hash (secret c);
     HTLCConfigBTS.privateKey := bitsharesPrivateKey c |}.

(** The P2WSH the party watches for the counterparty's funding. *)
Definition p2wsh_watched (c : ACCSConfig.t) : Payment.t :=
  BitcoinHTLC.getP2WSH (htlcBTC_counterparty c) (Secret.hash (secret c)) (timelockBTC c).

(** The P2WSH of the party's own Bitcoin HTLC. *)
Definition p2wsh_own (c : ACCSConfig.t) : Payment.t :=
  BitcoinHTLC.getP2WSH (htlcBTC_own c) (Secret.hash (secret c)) (timelockBTC c).
End Built.

(** The adapter calls each flow can make, with their arguments, for the
    config [c] as it stands after the flow's first assignment. *)
Module Alphabet.
Import ACCSConfig Built.

Definition proposeBTSForBTC (c : ACCSConfig.t) (e : Event) : Prop :=
  match e with
  | BitcoinHTLC_create h config _ => h = htlcBTC_own c /\ config = configBTC c
  | BitsharesHTLC_redeem h amount key secret_ _ =>
      h = htlcBTS_counterparty c /\ amount = amountBTSMini c
      /\ key = bitsharesPrivateKey c /\ secret_ = secret c
  | bitcoinAPI_getLastBlock n _ => n = networkName c
  | bitcoinAPI_pushTX n _ _ => n = networkName c
  | setTimeout ms => ms = checkAPIInterval c * 1000
  | _ => False
  end.

Definition proposeBTCForBTS (c : ACCSConfig.t) (e : Event) : Prop :=
  match e with
  | BitsharesHTLC_create h config _ => h = htlcBTS_own c /\ config = configBTS c
  | bitcoinAPI_getValueFromLastTransaction n address _ =>
      n = networkName c /\ address = Payment.address (p2wsh_watched c)
  | BitcoinHTLC_redeem h p2wsh amount secret_ _ =>
      h = htlcBTC_counterparty c /\ p2wsh = p2wsh_watched c
      /\ amount = amountSatoshi c /\ secret_ = secret c
  | setTimeout ms => ms = checkAPIInterval c * 1000
  | _ => False
  end.

Definition takeBTSForBTC (c : ACCSConfig.t) (e : Event) : Prop :=
  match e with
  | BitsharesAPI_getInstance node _ => node = bitsharesEndpoint c
  | websocket_getID sender receiver amount hash time _ =>
      sender = counterpartyBitsharesAccountID c /\ receiver = bitsharesAccountID c
      /\ amount = amountBTSMini c /\ hash = Secret.hash (secret c)
      /\ time = timelockBTS c
  | BitcoinHTLC_create h config _ => h = htlcBTC_own c /\ config = configBTC c
  | bitcoinAPI_getLastBlock n _ => n = networkName c
  | bitcoinAPI_getPreimageFromLastTransaction n address _ =>
      n = networkName c /\ address = Payment.address (p2wsh_own c)
  | bitcoinAPI_pushTX n _ _ => n = networkName c
  | BitsharesHTLC_redeem h amount key secret_ _ =>
      h = htlcBTS_counterparty c /\ amount = amountBTSMini c
      /\ key = bitsharesPrivateKey c
      /\ exists preimage, secret_ = Secret.set_preimage (secret c) preimage
  | setTimeout ms => ms = checkAPIInterval c * 1000
  | _ => False
  end.

Definition takeBTCForBTS (c : ACCSConfig.t) (e : Event) : Prop :=
  match e with
  | BitsharesAPI_getInstance node _ => node = bitsharesEndpoint c
  | bitcoinAPI_getValueFromLastTransaction n address _ =>
      n = networkName c /\ address = Payment.address (p2wsh_watched c)
  | BitcoinHTLC_calculateFee h _ => h = htlcBTC_counterparty c
  | BitsharesHTLC_create h config _ => h = htlcBTS_own c /\ config = configBTS c
  | websocket_getPreimageFromHTLC sender receiver hashHex _ =>
      sender = bitsharesAccountID c /\ receiver = counterpartyBitsharesAccountID c
      /\ hashHex = JS.toString_hex (Secret.hash (secret c))
  | BitcoinHTLC_redeem h p2wsh amount secret_ _ =>
      h = htlcBTC_counterparty c /\ p2wsh = p2wsh_watched c
      /\ amount = amountSatoshi c
      /\ exists preimage, secret_ = Secret.set_preimage (secret c) preimage
  | setTimeout ms => ms = checkAPIInterval c * 1000 \/ ms = 1000
  | _ => False
  end.
End Alphabet.

(** ** Iterations of the two block-height loops *)

Module Iteration.
Import ACCSConfig.

(** One pass of the loop of [proposeBTSForBTC]: the answer to [redeem] and
    the block height read afterwards. *)
Definition proposeBTSForBTC (config : ACCSConfig.t) (htlcBTC : BitcoinHTLC.t)
    (htlcBTS : BitsharesHTLC.t) (it : Result bool * Z) : Trace :=
  [ BitsharesHTLC_redeem htlcBTS (amountBTSMini config) (bitsharesPrivateKey config)
      (secret config) (fst it);
    bitcoinAPI_getLastBlock (BitcoinHTLC.network htlcBTC) (Ok (snd it));
    setTimeout (checkAPIInterval config * 1000) ].

Definition redeem_succeeded (r : Result bool) : bool :=
  match r with
  | Ok true => true
  | _ => false
  end.

(** One pass of the second loop of [takeBTSForBTC]: the block height read
    and the preimage found, if any. *)
Definition takeBTSForBTC (config : ACCSConfig.t) (htlcBTC : BitcoinHTLC.t)
    (p2wsh : Payment.t) (it : Z * option string) : Trace :=
  [ bitcoinAPI_getLastBlock (BitcoinHTLC.network htlcBTC) (Ok (fst it));
    bitcoinAPI_getPreimageFromLastTransaction (BitcoinHTLC.network htlcBTC)
      (Payment.address p2wsh) (Ok (snd it));
    setTimeout (checkAPIInterval config * 1000) ].
End Iteration.

(** The witness script an address commits to. *)
Definition address_script (a : Payment.Address) : Script.t :=
  match a with
  | Payment.P2WSH_address _ script => script
  end.

(** ** Notions used in the statements *)

(** The error an adapter call was rejected with. *)
Definition rejection (ev : Event) : option Error :=
  match ev with
  | BitsharesAPI_getInstance _ (Err e)
  | websocket_toAccountID _ _ (Err e)
  | websocket_getAccountID _ (Err e)
  | websocket_getID _ _ _ _ _ (Err e)
  | websocket_getPreimageFromHTLC _ _ _ (Err e)
  | timer_toBTS _ (Err e)
  | BitcoinHTLC_create _ _ (Err e)
  | BitcoinHTLC_redeem _ _ _ _ (Err e)
  | BitcoinHTLC_calculateFee _ (Err e)
  | bitcoinAPI_getLastBlock _ (Err e)
  | bitcoinAPI_getValueFromLastTransaction _ _ (Err e)
  | bitcoinAPI_getPreimageFromLastTransaction _ _ (Err e)
  | bitcoinAPI_pushTX _ _ (Err e)
  | BitsharesHTLC_create _ _ (Err e)
  | BitsharesHTLC_redeem _ _ _ _ (Err e) => Some e
  | _ => None
  end.

(** The Bitshares node and the Bitcoin network [parseUserInput] selects. *)
Definition endpoint_of (networkToTrade : string) : string :=
  if String.eqb networkToTrade "mainnet"
  then "wss://api.dex.trading/" else "wss://testnet.dex.trading/".

Definition network_of (networkToTrade : string) : Network :=
  if String.eqb networkToTrade "mainnet" then networks_bitcoin else networks_testnet.

(** The Bitcoin amount and the Bitshares amount of the input. *)
Definition amountBTC (fields : ACCSFields.t) : JS.Number :=
  if String.eqb (ACCSFields.currencyToGive fields) "BTC"
  then ACCSFields.amountToSend fields else ACCSFields.amountToReceive fields.

Definition amountBTS (fields : ACCSFields.t) : JS.Number :=
  if String.eqb (ACCSFields.currencyToGive fields) "BTC"
  then ACCSFields.amountToReceive fields else ACCSFields.amountToSend fields.

(** [Math.round(a * unit)] as IEEE 754 defines it: the binary64 product of
    [a] and the integer [unit], then the nearest integer, the upper one at a
    tie. *)
Definition rounded_product (a : JS.Number) (unit : Z) : Z :=
  Qfloor (JS.value (SFmul 53 1024 a (binary_normalize 53 1024 unit 0 false)) + (1 # 2)).

(** The product [a * unit] is a finite number. *)
Definition product_is_finite (a : JS.Number) (unit : Z) : Prop :=
  JS.isFinite (SFmul 53 1024 a (binary_normalize 53 1024 unit 0 false)) = true.

(** [n] is as near to [exact] as one binary64 operation and [Math.round]
    leave it: half a unit, and the relative error [2 ^ -53]. *)
Definition within_rounding (exact : Q) (n : Z) : Prop :=
  (Qabs (inject_Z n - exact) <= (1 # 2) + Qabs exact * (1 # 2 ^ 53))%Q.

(** [n] is the integer nearest to [exact], by more than that relative
    error. *)
Definition clearly_nearest (exact : Q) (n : Z) : Prop :=
  (Qabs (exact - inject_Z n) < (1 # 2) - Qabs exact * (1 # 2 ^ 53))%Q.

(** [m / 2 ^ n] rounded to the nearest integer, to the even one at a tie. *)
Definition rne (m n : Z) : Z :=
  let q := m / 2 ^ n in
  match 2 * (m mod 2 ^ n) ?= 2 ^ n with
  | Lt => q
  | Eq => if Z.even q then q else q + 1
  | Gt => q + 1
  end.

(** [parseUserInput] threw because a key helper threw. *)
Definition key_rejected (env : Env.t) (fields : ACCSFields.t) (e : Error) : Prop :=
  Env.ECPair_fromWIF env (ACCSFields.bitcoinPrivateKey fields)
                     (network_of (ACCSFields.networkToTrade fields)) = Err e
  \/ (exists k, Env.ECPair_fromPrivateKey env k = Err e)
  \/ Env.ECPair_fromPublicKey env (ACCSFields.counterpartyBitcoinPublicKey fields) = Err e.

(** What a flow owes its funded Bitcoin HTLC once polling is over: nothing is
    broadcast when the counterparty acted; otherwise, when the loop ended by
    its condition, the refund hex that [create()] returned is pushed as the
    last action, it is the only broadcast, and the flow throws. *)
Definition refund_after_timeout (o : Outcome unit) (new : Trace)
    (counterparty_acted : bool) : Prop :=
  (counterparty_acted = true -> broadcasts new = [])
  /\ (forall refundHex,
        refund_hexes new = [refundHex] ->
        counterparty_acted = false ->
        btc_poll_rejected new = false ->
        is_OutOfFuel o = false ->
        is_Throw o = true
        /\ exists before n r,
             new = (before ++ [bitcoinAPI_pushTX n refundHex r])%list
             /\ broadcasts before = []).

(** [polled continue state_of l its l']: from the loop variables [l], the loop
    condition held before each of the iterations [its], and the variables
    after the last of them are [l']. *)
Fixpoint polled {L It : Type} (continue : L -> bool) (state_of : It -> L)
    (l : L) (its : list It) (l' : L) : Prop :=
  match its with
  | [] => l' = l
  | it :: rest => continue l = true /\ polled continue state_of (state_of it) rest l'
  end.

(** The loop variables ([success], [currentBlockHeight]) after an iteration
    of the loop of [proposeBTSForBTC]. *)
Definition proposeBTSForBTC_state (it : Result bool * Z) : bool * Z :=
  (Iteration.redeem_succeeded (fst it), snd it).

(** The loop variables ([preimageFromBlockchain], [currentBlockHeight]) after
    an iteration of the second loop of [takeBTSForBTC]. *)
Definition takeBTSForBTC_state (it : Z * option string) : option string * Z :=
  (snd it, fst it).

(** A countdown wait returned, having slept no longer than its budget and
    without reading a block height. *)
Definition waited (budget_ms : Z) {A : Type} (o : Outcome A) (new : Trace) : Prop :=
  (exists l, o = Return l) /\ slept_ms new <= budget_ms /\ observed_heights new = [].

(** A sufficient funding transaction was seen: a funding of value [v] and a
    fee estimate with [amountSatoshi - fee.max <= v]. *)
Definition sufficient_funding_seen (amountSatoshi : Z) (new : Trace) : Prop :=
  exists n a tx v h fees,
    In (bitcoinAPI_getValueFromLastTransaction n a (Ok (tx, v))) new
    /\ In (BitcoinHTLC_calculateFee h (Ok fees)) new
    /\ amountSatoshi - Fee.max fees <= v.

(** ** Reasoning about computations *)

(** [wp m Q s]: running [m] from [s] ends in an outcome and a state that
    satisfy [Q]. *)
Definition wp {S A : Type} (m : M S A) (Q : Outcome A -> S -> Prop) (s : S) : Prop :=
  Q (fst (m s)) (snd (m s)).

(** The postcondition of the first part of a sequence: go on with [K] after a
    value, end in [Q] otherwise. *)
Definition lift_post {S A B : Type} (Q : Outcome B -> S -> Prop) (K : A -> S -> Prop)
    (o : Outcome A) (s : S) : Prop :=
  match o with
  | Return a => K a s
  | Throw e => Q (Throw e) s
  | OutOfFuel => Q OutOfFuel s
  end.

(** [since t0 t R]: [t] extends [t0] by events that satisfy [R]. *)
Definition since (t0 t : Trace) (R : Trace -> Prop) : Prop :=
  exists new, t = (t0 ++ new)%list /\ R new.

(** ** Notions used in the further properties *)

Import ACCSConfig Built.

(** The four requests of a successful [parseUserInput], with their answers. *)
Definition parse_requests (fields : ACCSFields.t) (bitsharesAccountID counterpartyID : string)
    (timelockBTS : Z) : Trace :=
  [ BitsharesAPI_getInstance (endpoint_of (ACCSFields.networkToTrade fields)) (Ok tt);
    websocket_toAccountID (ACCSFields.bitsharesPrivateKey fields)
      (ACCSFields.networkToTrade fields) (Ok bitsharesAccountID);
    websocket_getAccountID (ACCSFields.counterpartyBitsharesAccountName fields)
      (Ok counterpartyID);
    timer_toBTS (ACCSFields.networkToTrade fields) (Ok timelockBTS) ].

(** The three key helpers, in the order [parseUserInput] calls them: they
    accept the keys of the input and yield [own] and [counterparty]. *)
Definition keys_accepted (env : Env.t) (fields : ACCSFields.t) (own counterparty : ECPair.t)
    : Prop :=
  match Env.ECPair_fromWIF env (ACCSFields.bitcoinPrivateKey fields)
                           (network_of (ACCSFields.networkToTrade fields)) with
  | Ok keyPairBTC =>
      Env.ECPair_fromPrivateKey env (ECPair.privateKey keyPairBTC) = Ok own
      /\ Env.ECPair_fromPublicKey env (ACCSFields.counterpartyBitcoinPublicKey fields)
         = Ok counterparty
  | Err _ => False
  end.

(** The first of the three key helpers that throws, throws [e]. *)
Definition first_key_rejection (env : Env.t) (fields : ACCSFields.t) (e : Error) : Prop :=
  match Env.ECPair_fromWIF env (ACCSFields.bitcoinPrivateKey fields)
                           (network_of (ACCSFields.networkToTrade fields)) with
  | Ok keyPairBTC =>
      match Env.ECPair_fromPrivateKey env (ECPair.privateKey keyPairBTC) with
      | Ok _ =>
          Env.ECPair_fromPublicKey env (ACCSFields.counterpartyBitcoinPublicKey fields)
          = Err e
      | Err e2 => e = e2
      end
  | Err e1 => e = e1
  end.

(** The Bitshares asset [parseUserInput] selects. *)
Definition asset_of (networkToTrade : string) : string :=
  if String.eqb networkToTrade "mainnet" then "BTS" else "TEST".

Definition not_rejected (ev : Event) : Prop := rejection ev = None.

(** [fields] with another exchange rate. *)
Definition with_rate (fields : ACCSFields.t) (rate : JS.Number) : ACCSFields.t :=
  {| ACCSFields.mode := ACCSFields.mode fields;
     ACCSFields.networkToTrade := ACCSFields.networkToTrade fields;
     ACCSFields.currencyToGive := ACCSFields.currencyToGive fields;
     ACCSFields.amountToSend := ACCSFields.amountToSend fields;
     ACCSFields.rate := rate;
     ACCSFields.amountToReceive := ACCSFields.amountToReceive fields;
     ACCSFields.bitcoinPrivateKey := ACCSFields.bitcoinPrivateKey fields;
     ACCSFields.bitsharesPrivateKey := ACCSFields.bitsharesPrivateKey fields;
     ACCSFields.counterpartyBitcoinPublicKey :=
       ACCSFields.counterpartyBitcoinPublicKey fields;
     ACCSFields.counterpartyBitsharesAccountName :=
       ACCSFields.counterpartyBitsharesAccountName fields;
     ACCSFields.bitcoinTxID := ACCSFields.bitcoinTxID fields;
     ACCSFields.priority := ACCSFields.priority fields;
     ACCSFields.secret := ACCSFields.secret fields |}.

(** [fields] with another currency to give. *)
Definition with_currency (fields : ACCSFields.t) (currency : string) : ACCSFields.t :=
  {| ACCSFields.mode := ACCSFields.mode fields;
     ACCSFields.networkToTrade := ACCSFields.networkToTrade fields;
     ACCSFields.currencyToGive := currency;
     ACCSFields.amountToSend := ACCSFields.amountToSend fields;
     ACCSFields.rate := ACCSFields.rate fields;
     ACCSFields.amountToReceive := ACCSFields.amountToReceive fields;
     ACCSFields.bitcoinPrivateKey := ACCSFields.bitcoinPrivateKey fields;
     ACCSFields.bitsharesPrivateKey := ACCSFields.bitsharesPrivateKey fields;
     ACCSFields.counterpartyBitcoinPublicKey :=
       ACCSFields.counterpartyBitcoinPublicKey fields;
     ACCSFields.counterpartyBitsharesAccountName :=
       ACCSFields.counterpartyBitsharesAccountName fields;
     ACCSFields.bitcoinTxID := ACCSFields.bitcoinTxID fields;
     ACCSFields.priority := ACCSFields.priority fields;
     ACCSFields.secret := ACCSFields.secret fields |}.

(** [c] with another [type]. *)
Definition with_type (c : ACCSConfig.t) (type : string) : ACCSConfig.t :=
  {| ACCSConfig.mode := mode c; ACCSConfig.type := type; priority := priority c;
     bitsharesAccountID := bitsharesAccountID c;
     bitsharesPrivateKey := bitsharesPrivateKey c;
     counterpartyBitsharesAccountID := counterpartyBitsharesAccountID c;
     amountBTSMini := amountBTSMini c; amountSatoshi := amountSatoshi c;
     keyPairCompressedBTC := keyPairCompressedBTC c;
     counterpartyKeyPairCompressedBTC := counterpartyKeyPairCompressedBTC c;
     timelockBTC := timelockBTC c; timelockBTS := timelockBTS c;
     secret := secret c; bitcoinTxID := bitcoinTxID c; network := network c;
     networkName := networkName c; bitsharesAsset := bitsharesAsset c;
     bitsharesEndpoint := bitsharesEndpoint c;
     checkAPIInterval := checkAPIInterval c |}.

(** The outcome of a parse, with the [type] of its config replaced. *)
Definition retyped (type : string) (o : Outcome ACCSConfig.t) : Outcome ACCSConfig.t :=
  match o with
  | Return c => Return (with_type c type)
  | Throw e => Throw e
  | OutOfFuel => OutOfFuel
  end.

(** [new] ends with the events [suffix]. *)
Definition ends_with (suffix new : Trace) : Prop :=
  exists before, new = (before ++ suffix)%list.

(** [precedes P Q new]: in [new], what comes before an event that satisfies
    [Q] satisfies [P]. *)
Definition precedes (P : Trace -> Prop) (Q : Event -> Prop) (new : Trace) : Prop :=
  forall before ev after, new = (before ++ ev :: after)%list -> Q ev -> P before.

Definition is_BitcoinHTLC_create (ev : Event) : Prop :=
  match ev with
  | BitcoinHTLC_create _ _ _ => True
  | _ => False
  end.

(** The lookup of [takeBTSForBTC] has found the proposer's Bitshares HTLC. *)
Definition found_BitsharesHTLC (c : ACCSConfig.t) (t : Trace) : Prop :=
  exists id,
    id <> ""
    /\ In (websocket_getID (counterpartyBitsharesAccountID c) (bitsharesAccountID c)
             (amountBTSMini c) (Secret.hash (secret c)) (timelockBTS c) (Ok id)) t.

Definition is_BitsharesHTLC_create (ev : Event) : Prop :=
  match ev with
  | BitsharesHTLC_create _ _ _ => True
  | _ => False
  end.

(** [takeBTCForBTS] has seen a funding of the watched P2WSH whose value is at
    least [amountSatoshi] less the highest fee it was told to accept. *)
Definition funding_checked (c : ACCSConfig.t) (t : Trace) : Prop :=
  exists txID value fees,
    In (bitcoinAPI_getValueFromLastTransaction (networkName c)
          (Payment.address (p2wsh_watched c)) (Ok (txID, value))) t
    /\ In (BitcoinHTLC_calculateFee (htlcBTC_counterparty c) (Ok fees)) t
    /\ amountSatoshi c - Fee.max fees <= value.

(** The number of HTLC creations, on either chain. *)
Definition creations (t : Trace) : nat :=
  (length (btcCreate_sequences t) + length (btsCreate_times t))%nat.

(** An event that neither creates an HTLC nor broadcasts a transaction. *)
Definition quiet (ev : Event) : Prop :=
  match ev with
  | BitcoinHTLC_create _ _ _ | BitsharesHTLC_create _ _ _ | bitcoinAPI_pushTX _ _ _ => False
  | _ => True
  end.

(** [new] holds [k] creations and [b] broadcasts. *)
Definition counts (k b : nat) (new : Trace) : Prop :=
  creations new = k /\ length (broadcasts new) = b.

(** At most one creation, and no more broadcasts than creations. *)
Definition counted (new : Trace) : Prop :=
  exists k b, counts k b new /\ (b <= k <= 1)%nat.

(** [create()] did not leave the funding height undefined. *)
Definition funding_height_known (ev : Event) : Prop :=
  match ev with
  | BitcoinHTLC_create _ _ (Ok (_, None)) => False
  | _ => True
  end.

(** What a Bitcoin-funding flow does when [create()] leaves the funding
    height undefined: it broadcasts the refund right after, and throws. *)
Definition refunded_at_once (o : Outcome unit) (new : Trace) : Prop :=
  forall h config refundHex,
    In (BitcoinHTLC_create h config (Ok (refundHex, None))) new ->
    is_Throw o = true
    /\ exists r,
         ends_with [ BitcoinHTLC_create h config (Ok (refundHex, None));
                     bitcoinAPI_pushTX (BitcoinHTLC.network h) refundHex r ] new.

(** A chain whose height, as [hBTC] reads it, stays below [horizon]. *)
Definition stalled (env : Env.t) (hBTC : BitcoinHTLC.t) (horizon : Z) : Prop :=
  forall t, exists h,
    Env.getLastBlock env t (BitcoinHTLC.network hBTC) = Ok h /\ h < horizon.

(** A polling loop is still running after [fuel] passes, each of which slept
    for the polling interval. *)
Definition still_polling {L : Type} (c : ACCSConfig.t) (fuel : nat)
    (run : Outcome L * State.t) (s : State.t) : Prop :=
  fst run = OutOfFuel
  /\ slept_ms (added (State.trace s) (State.trace (snd run)))
     = Z.of_nat fuel * (checkAPIInterval c * 1000).

(** A run has slept at most [budget_ms] and has read no block height. *)
Definition within (budget_ms : Z) (new : Trace) : Prop :=
  slept_ms new <= budget_ms /\ observed_heights new = [].

(** A run that ended, by returning or by throwing, within [budget_ms]. *)
Definition ended_within (budget_ms : Z) (o : Outcome unit) (new : Trace) : Prop :=
  is_OutOfFuel o = false /\ within budget_ms new.

Definition not_pushTX (ev : Event) : Prop :=
  match ev with
  | bitcoinAPI_pushTX _ _ _ => False
  | _ => True
  end.

(** The error [proposeBTSForBTC] ends with after [pushTX] of its refund. *)
Definition proposer_refund_error (networkName refundHex : string) (r : Result string)
    : Error :=
  match r with
  | Ok refundTXId =>
      JsError ("No HTLC found on Bitshares " ++ networkName
               ++ ". Your HTLC was refunded with transaction ID " ++ refundTXId ++ ".")
  | Err e => e
  end.

(** The error [takeBTSForBTC] ends with after [pushTX] of its refund. *)
Definition accepter_refund_error (refundHex : string) (r : Result string) : Error :=
  match r with
  | Ok refundTXId =>
      if JS.falsy refundTXId
      then JsError ("Could not push refundHex to endpoint. "
                    ++ "Hex for refund transaction: " ++ refundHex)
      else JsError ("HTLC was not redeemed in time by the counterparty. "
                    ++ "Your HTLC was refunded with transaction ID " ++ refundTXId ++ ".")
  | Err e => e
  end.

(** A run that ends with a [pushTX] throws the error that [report] makes of
    the hex pushed and the answer. *)
Definition refund_reported (report : string -> Result string -> Error) (o : Outcome unit)
    (new : Trace) : Prop :=
  forall before n refundHex r,
    new = (before ++ [bitcoinAPI_pushTX n refundHex r])%list ->
    o = Throw (report refundHex r).

(** What a creation made for the config [c] looks like: the party funds the
    chain of the currency it gives, as sender, with the amount of that
    currency, under the secret hash; the proposer with the full timelock, the
    accepter with half of it. *)
Definition created_for (c : ACCSConfig.t) (ev : Event) : Prop :=
  match ev with
  | BitcoinHTLC_create h config _ =>
      type c = "BTC" /\ h = htlcBTC_own c
      /\ config = {| HTLCConfigBTC.transactionID := bitcoinTxID c;
                     HTLCConfigBTC.amount := amountSatoshi c;
                     HTLCConfigBTC.sequence :=
                       if String.eqb (mode c) "proposer" then timelockBTC c
                       else half (timelockBTC c);
                     HTLCConfigBTC.hash := Secret.hash (secret c) |}
  | BitsharesHTLC_create h config _ =>
      type c = "BTS" /\ h = htlcBTS_own c
      /\ config = {| HTLCConfigBTS.amount := amountBTSMini c;
                     HTLCConfigBTS.asset := bitsharesAsset c;
                     HTLCConfigBTS.time :=
                       if String.eqb (mode c) "proposer" then timelockBTS c
                       else half (timelockBTS c);
                     HTLCConfigBTS.hash := Secret.hash (secret c);
                     HTLCConfigBTS.privateKey := bitsharesPrivateKey c |}
  | _ => True
  end.

(** What a creation made by [run] on the input [fields] looks like, in a run
    that added the events [new]. *)
Definition locked_for (fields : ACCSFields.t) (new : Trace) (ev : Event) : Prop :=
  match ev with
  | BitcoinHTLC_create h config _ =>
      ACCSFields.currencyToGive fields = "BTC"
      /\ BitcoinHTLC.network h = ACCSFields.networkToTrade fields
      /\ BitcoinHTLC.priority h = ACCSFields.priority fields
      /\ within_rounding (JS.value (ACCSFields.amountToSend fields) * inject_Z (10 ^ 8))
                          (HTLCConfigBTC.amount config)
      /\ config = {| HTLCConfigBTC.transactionID := ACCSFields.bitcoinTxID fields;
                     HTLCConfigBTC.amount :=
                       rounded_product (ACCSFields.amountToSend fields) (10 ^ 8);
                     HTLCConfigBTC.sequence :=
                       if String.eqb (ACCSFields.mode fields) "proposer" then 6 else 3;
                     HTLCConfigBTC.hash := Secret.hash (ACCSFields.secret fields) |}
  | BitsharesHTLC_create h config _ =>
      ACCSFields.currencyToGive fields = "BTS"
      /\ BitsharesHTLC.node h = endpoint_of (ACCSFields.networkToTrade fields)
      /\ within_rounding (JS.value (ACCSFields.amountToSend fields) * inject_Z (10 ^ 5))
                          (HTLCConfigBTS.amount config)
      /\ exists timelockBTS,
           In (timer_toBTS (ACCSFields.networkToTrade fields) (Ok timelockBTS)) new
           /\ config = {| HTLCConfigBTS.amount :=
                            rounded_product (ACCSFields.amountToSend fields) (10 ^ 5);
                          HTLCConfigBTS.asset :=
                            asset_of (ACCSFields.networkToTrade fields);
                          HTLCConfigBTS.time :=
                            if String.eqb (ACCSFields.mode fields) "proposer"
                            then timelockBTS else half timelockBTS;
                          HTLCConfigBTS.hash := Secret.hash (ACCSFields.secret fields);
                          HTLCConfigBTS.privateKey :=
                            ACCSFields.bitsharesPrivateKey fields |}
  | _ => True
  end.

(** The requests of [parseUserInput]. *)
Definition parse_request (ev : Event) : Prop :=
  match ev with
  | BitsharesAPI_getInstance _ _ | websocket_toAccountID _ _ _
  | websocket_getAccountID _ _ | timer_toBTS _ _ => True
  | _ => False
  end.

(** The lookups of a Bitshares HTLC by [getID]: sender, receiver, amount,
    hash and time. *)
Definition sought_BitsharesHTLC (t : Trace) : list (string * string * Z * string * Z) :=
  flat_map (fun ev => match ev with
                      | websocket_getID sender receiver amount hash time _ =>
                          [(sender, receiver, amount, hash, time)]
                      | _ => []
                      end) t.

(** The Bitshares HTLCs created: sender, receiver, amount, hash and time. *)
Definition created_BitsharesHTLC (t : Trace) : list (string * string * Z * string * Z) :=
  flat_map (fun ev => match ev with
                      | BitsharesHTLC_create h config _ =>
                          [(BitsharesHTLC.sender h, BitsharesHTLC.receiver h,
                            HTLCConfigBTS.amount config, HTLCConfigBTS.hash config,
                            HTLCConfigBTS.time config)]
                      | _ => []
                      end) t.

(** The Bitshares HTLCs a redeem was tried on: sender, receiver, amount and
    the hash of the secret used. *)
Definition redeemed_BitsharesHTLC (t : Trace) : list (string * string * Z * string) :=
  flat_map (fun ev => match ev with
                      | BitsharesHTLC_redeem h amount _ secret _ =>
                          [(BitsharesHTLC.sender h, BitsharesHTLC.receiver h, amount,
                            Secret.hash secret)]
                      | _ => []
                      end) t.

(** A poll of the watched address was answered with a funding transaction. *)
Definition funding_seen (ev : Event) : Prop :=
  match ev with
  | bitcoinAPI_getValueFromLastTransaction _ _ (Ok _) => True
  | _ => False
  end.

(** [followed_by Q P new]: in [new], what comes after an event that satisfies
    [Q] satisfies [P]. *)
Definition followed_by (Q : Event -> Prop) (P : Trace -> Prop) (new : Trace) : Prop :=
  forall before ev after, new = (before ++ ev :: after)%list -> Q ev -> P after.

(** After the polling interval, the redeem of the watched P2WSH for the full
    [amountSatoshi], and nothing else. *)
Definition redeems_next (c : ACCSConfig.t) (after : Trace) : Prop :=
  exists r,
    after = [ setTimeout (checkAPIInterval c * 1000);
              BitcoinHTLC_redeem (htlcBTC_counterparty c) (p2wsh_watched c)
                (amountSatoshi c) (secret c) r ].

(** [c'] is [c] up to the two timelocks and the preimage of the secret. *)
Definition same_settings (c c' : ACCSConfig.t) : Prop :=
  mode c' = mode c /\ type c' = type c /\ priority c' = priority c
  /\ bitsharesAccountID c' = bitsharesAccountID c
  /\ bitsharesPrivateKey c' = bitsharesPrivateKey c
  /\ counterpartyBitsharesAccountID c' = counterpartyBitsharesAccountID c
  /\ amountBTSMini c' = amountBTSMini c /\ amountSatoshi c' = amountSatoshi c
  /\ keyPairCompressedBTC c' = keyPairCompressedBTC c
  /\ counterpartyKeyPairCompressedBTC c' = counterpartyKeyPairCompressedBTC c
  /\ Secret.hash (secret c') = Secret.hash (secret c)
  /\ bitcoinTxID c' = bitcoinTxID c /\ network c' = network c
  /\ networkName c' = networkName c /\ bitsharesAsset c' = bitsharesAsset c
  /\ bitsharesEndpoint c' = bitsharesEndpoint c
  /\ checkAPIInterval c' = checkAPIInterval c.

(** The adapter operation an event is a call of. *)
Definition operation (ev : Event) : nat :=
  match ev with
  | BitsharesAPI_getInstance _ _ => 0
  | websocket_toAccountID _ _ _ => 1
  | websocket_getAccountID _ _ => 2
  | websocket_getID _ _ _ _ _ _ => 3
  | websocket_getPreimageFromHTLC _ _ _ _ => 4
  | timer_toBTS _ _ => 5
  | BitcoinHTLC_create _ _ _ => 6
  | BitcoinHTLC_redeem _ _ _ _ _ => 7
  | BitcoinHTLC_calculateFee _ _ => 8
  | bitcoinAPI_getLastBlock _ _ => 9
  | bitcoinAPI_getValueFromLastTransaction _ _ _ => 10
  | bitcoinAPI_getPreimageFromLastTransaction _ _ _ => 11
  | bitcoinAPI_pushTX _ _ _ => 12
  | BitsharesHTLC_create _ _ _ => 13
  | BitsharesHTLC_redeem _ _ _ _ _ => 14
  | setTimeout _ => 15
  end%nat.

Definition is_sleep (ev : Event) : bool :=
  match ev with
  | setTimeout _ => true
  | _ => false
  end.

(** A monitor of the pace of a run. Its state is the list of the operations
    called since the last sleep, or [None] once an operation was called a
    second time without a sleep in between. *)
Definition pace_step (state : option (list nat)) (ev : Event) : option (list nat) :=
  match state with
  | None => None
  | Some called =>
      if is_sleep ev then Some []
      else if existsb (Nat.eqb (operation ev)) called then None
      else Some (operation ev :: called)
  end.

Definition pace (t : Trace) : option (list nat) := fold_left pace_step t (Some []).

(** No operation is called twice without a sleep in between, and the sleeps
    last [D]. *)
Definition paced (D : Z -> Prop) (new : Trace) : Prop :=
  forall before ev1 between ev2 after,
    new = (before ++ ev1 :: between ++ ev2 :: after)%list ->
    is_sleep ev1 = false -> operation ev1 = operation ev2 ->
    exists ms, D ms /\ In (setTimeout ms) between.

(** The monitor has not failed on [new]. *)
Definition keeps_its_pace (new : Trace) : Prop := exists called, pace new = Some called.

(** The monitor has not failed on [new], and its state is one of [options]. *)
Definition pace_in (options : list (list nat)) (new : Trace) : Prop :=
  exists called, pace new = Some called /\ In called options.

(** What a loop that starts in one of [options] and ends each pass with a
    sleep leaves behind. *)
Definition pace_after {A} (options : list (list nat)) (o : Outcome A) (new : Trace)
    : Prop :=
  match o with
  | Return _ => pace_in ([] :: options) new
  | _ => keeps_its_pace new
  end.

(** ** Further sample inputs *)

Module Scene.
(** The world of [Sample.env_silent], except that [create()] returns before
    the funding transaction is mined. *)
Definition env_unmined : Env.t :=
  {| Env.getInstance := Env.getInstance Sample.env_silent;
     Env.toAccountID := Env.toAccountID Sample.env_silent;
     Env.getAccountID := Env.getAccountID Sample.env_silent;
     Env.getID := fun _ _ _ _ _ _ => Ok "1.16.1";
     Env.getPreimageFromHTLC := Env.getPreimageFromHTLC Sample.env_silent;
     Env.toBTS := Env.toBTS Sample.env_silent;
     Env.btcCreate := fun _ _ _ => Ok ("refund", None);
     Env.btcRedeem := Env.btcRedeem Sample.env_silent;
     Env.calculateFee := Env.calculateFee Sample.env_silent;
     Env.getLastBlock := Env.getLastBlock Sample.env_silent;
     Env.getValueFromLastTransaction := Env.getValueFromLastTransaction Sample.env_silent;
     Env.getPreimageFromLastTransaction :=
       Env.getPreimageFromLastTransaction Sample.env_silent;
     Env.pushTX := Env.pushTX Sample.env_silent;
     Env.btsCreate := Env.btsCreate Sample.env_silent;
     Env.btsRedeem := Env.btsRedeem Sample.env_silent;
     Env.ECPair_fromWIF := Env.ECPair_fromWIF Sample.env_silent;
     Env.ECPair_fromPrivateKey := Env.ECPair_fromPrivateKey Sample.env_silent;
     Env.ECPair_fromPublicKey := Env.ECPair_fromPublicKey Sample.env_silent |}.

(** The counterparty never acts and the chain stays at height 101. *)
Definition env_stalled : Env.t :=
  Sample.env Sample.not_found Sample.not_found (fun _ => Ok None) Sample.not_found
    (fun _ => Ok false) (fun _ => Ok 101).

(** The proposer who gives BTS, as the counterparty of [Sample.accepter_BTC]. *)
Definition proposer_BTS : ACCSConfig.t :=
  {| ACCSConfig.mode := "proposer"; ACCSConfig.type := "BTS"; ACCSConfig.priority := 1;
     ACCSConfig.bitsharesAccountID := "1.2.2";
     ACCSConfig.bitsharesPrivateKey := "ka";
     ACCSConfig.counterpartyBitsharesAccountID := "1.2.1";
     ACCSConfig.amountBTSMini := 5000000; ACCSConfig.amountSatoshi := 100000;
     ACCSConfig.keyPairCompressedBTC := Sample.alice;
     ACCSConfig.counterpartyKeyPairCompressedBTC := Sample.bob_pub;
     ACCSConfig.timelockBTC := 6; ACCSConfig.timelockBTS := 3600;
     ACCSConfig.secret := Sample.secret; ACCSConfig.bitcoinTxID := "tx";
     ACCSConfig.network := networks_testnet; ACCSConfig.networkName := "testnet";
     ACCSConfig.bitsharesAsset := "TEST";
     ACCSConfig.bitsharesEndpoint := "wss://testnet.dex.trading/";
     ACCSConfig.checkAPIInterval := 4 |}.

(** [env] with another answer to [pushTX]. *)
Definition with_pushTX (env : Env.t) (pushTX : Trace -> string -> string -> Result string)
    : Env.t :=
  {| Env.getInstance := Env.getInstance env;
     Env.toAccountID := Env.toAccountID env;
     Env.getAccountID := Env.getAccountID env;
     Env.getID := Env.getID env;
     Env.getPreimageFromHTLC := Env.getPreimageFromHTLC env;
     Env.toBTS := Env.toBTS env;
     Env.btcCreate := Env.btcCreate env;
     Env.btcRedeem := Env.btcRedeem env;
     Env.calculateFee := Env.calculateFee env;
     Env.getLastBlock := Env.getLastBlock env;
     Env.getValueFromLastTransaction := Env.getValueFromLastTransaction env;
     Env.getPreimageFromLastTransaction := Env.getPreimageFromLastTransaction env;
     Env.pushTX := pushTX;
     Env.btsCreate := Env.btsCreate env;
     Env.btsRedeem := Env.btsRedeem env;
     Env.ECPair_fromWIF := Env.ECPair_fromWIF env;
     Env.ECPair_fromPrivateKey := Env.ECPair_fromPrivateKey env;
     Env.ECPair_fromPublicKey := Env.ECPair_fromPublicKey env |}.

(** As [env_unmined], and the endpoint answers the refund with an empty id. *)
Definition env_unpushed : Env.t := with_pushTX env_unmined (fun _ _ _ => Ok "").

(** The accepter funds the watched P2WSH with a single satoshi. *)
Definition env_dust : Env.t :=
  Sample.env Sample.not_found (fun _ => Ok ("funding", 1)) (fun _ => Ok None)
    Sample.not_found (fun _ => Ok false) (fun _ => Ok 101).

(** Half a bitcoin against 25000 BTS, as the proposer on testnet. *)
Definition fields_proposer_BTC : ACCSFields.t :=
  {| ACCSFields.mode := "proposer"; ACCSFields.networkToTrade := "testnet";
     ACCSFields.currencyToGive := "BTC";
     ACCSFields.amountToSend := Sample.decimal 5 1;
     ACCSFields.rate := JS.of_Z 50000;
     ACCSFields.amountToReceive := JS.of_Z 25000;
     ACCSFields.bitcoinPrivateKey := "wif"; ACCSFields.bitsharesPrivateKey := "k";
     ACCSFields.counterpartyBitcoinPublicKey := "A";
     ACCSFields.counterpartyBitsharesAccountName := "alice";
     ACCSFields.bitcoinTxID := "tx"; ACCSFields.priority := 1;
     ACCSFields.secret := Sample.secret |}.
End Scene.

(** * Theorems *)

Import ACCSConfig Built.

(** * Binary64 products

    What [SFmul] returns for two finite numbers, read off the definition of
    its rounding: the exact product when it fits, else the product rounded
    to the nearest number, with a relative error of at most [2 ^ -53]. *)

(** The number of binary digits of a mantissa. *)
Lemma digits2_size (m : positive) : digits2_pos m = Pos.size m.
Proof. induction m; cbn; congruence. Qed.

Lemma digits_bounds (m : positive) :
  let d := Zpos (digits2_pos m) in 2 ^ (d - 1) <= Zpos m < 2 ^ d.
Proof.
  cbv zeta. rewrite digits2_size.
  pose proof (Pos.size_gt m) as Hgt. pose proof (Pos.size_le m) as Hle.
  assert (H2 : forall p, Zpos (2 ^ p) = 2 ^ Zpos p).
  { intros p. now rewrite Pos2Z.inj_pow. }
  split.
  - apply Pos2Z.pos_le_pos in Hle. rewrite Pos2Z.inj_xO, H2 in Hle.
    replace (Zpos (Pos.size m)) with (Z.succ (Zpos (Pos.size m) - 1)) in Hle by lia.
    rewrite Z.pow_succ_r in Hle by lia. lia.
  - apply Pos2Z.pos_lt_pos in Hgt. now rewrite H2 in Hgt.
Qed.

Lemma iter_pos_nat {A} (f : A -> A) (p : positive) (x : A) :
  iter_pos f p x = Nat.iter (Pos.to_nat p) f x.
Proof.
  revert x. induction p as [p IH | p IH |]; intros x; cbn [iter_pos].
  - rewrite !IH, Pos2Nat.inj_xI.
    replace (S (2 * Pos.to_nat p))%nat
      with (Pos.to_nat p + (Pos.to_nat p + 1))%nat by lia.
    rewrite !Nat.iter_add. reflexivity.
  - rewrite !IH, Pos2Nat.inj_xO.
    replace (2 * Pos.to_nat p)%nat with (Pos.to_nat p + Pos.to_nat p)%nat by lia.
    now rewrite Nat.iter_add.
  - reflexivity.
Qed.

(** One shift to the right: the bit shifted out, and whether a bit was lost
    before. *)
Lemma shr_1_spec m r s :
  0 <= m ->
  shr_1 {| shr_m := m; shr_r := r; shr_s := s |}
  = {| shr_m := m / 2; shr_r := Z.odd m; shr_s := r || s |}.
Proof.
  intros Hm. destruct m as [| [p | p |] | p]; try lia; cbn [shr_1]; f_equal;
    try reflexivity.
  - rewrite Pos2Z.inj_xI. apply Z.div_unique with 1; lia.
  - rewrite Pos2Z.inj_xO. apply Z.div_unique with 0; lia.
Qed.

(** [k + 1] shifts of an exact record. *)
Lemma shr_iter (m : Z) (k : nat) :
  0 <= m ->
  Nat.iter (S k) shr_1 {| shr_m := m; shr_r := false; shr_s := false |}
  = {| shr_m := m / 2 ^ Z.of_nat (S k);
       shr_r := Z.odd (m / 2 ^ Z.of_nat k);
       shr_s := negb (m mod 2 ^ Z.of_nat k =? 0) |}.
Proof.
  intros Hm. induction k as [| k IH].
  - cbn [Nat.iter]. rewrite shr_1_spec by assumption. cbn.
    rewrite Z.div_1_r, Z.mod_1_r. reflexivity.
  - change (Nat.iter (S (S k)) shr_1 ?x) with (shr_1 (Nat.iter (S k) shr_1 x)).
    rewrite IH, shr_1_spec by (apply Z.div_pos; lia).
    rewrite !Nat2Z.inj_succ. set (K := Z.of_nat k). assert (0 <= K) by (subst K; lia).
    rewrite (Z.pow_succ_r 2 (Z.succ K)), (Z.pow_succ_r 2 K) by lia.
    set (b := 2 ^ K). assert (0 < b) by (subst b; lia). f_equal.
    + rewrite Z.div_div by lia. f_equal. ring.
    + rewrite (Z.mul_comm 2 b), Z.rem_mul_r by lia.
      pose proof (Z.mod_pos_bound m b ltac:(lia)).
      pose proof (Z.mod_pos_bound (m / b) 2 ltac:(lia)).
      rewrite Zodd_mod.
      destruct (Z.eqb_spec (m mod b) 0), (Z.eqb_spec ((m / b) mod 2) 1);
        destruct (Z.eqb_spec (m mod b + b * ((m / b) mod 2)) 0); cbn; try reflexivity; nia.
Qed.

(** Rounding to nearest is off by half a unit at most, and exact on what it
    can represent. *)
Lemma rne_bounds m n :
  0 <= m -> 0 < n ->
  m / 2 ^ n <= rne m n <= m / 2 ^ n + 1
  /\ 2 * Z.abs (rne m n * 2 ^ n - m) <= 2 ^ n
  /\ (m mod 2 ^ n = 0 -> rne m n * 2 ^ n = m).
Proof.
  intros Hm Hn. unfold rne.
  assert (Hb : 0 < 2 ^ n) by (apply Z.pow_pos_nonneg; lia).
  pose proof (Z.div_mod m (2 ^ n) ltac:(lia)) as Hdm.
  pose proof (Z.mod_pos_bound m (2 ^ n) Hb) as Hr.
  set (q := m / 2 ^ n) in *. set (r := m mod 2 ^ n) in *. set (b := 2 ^ n) in *.
  destruct (Z.compare_spec (2 * r) b) as [He | Hl | Hg]; [destruct (Z.even q) | |];
    repeat split; try lia; intros; nia.
Qed.

(** Shifting an exact mantissa and rounding it to nearest even is [rne]. *)
Lemma shr_rne (m e : Z) (p : positive) :
  0 <= m ->
  let '(mrs, e') := shr {| shr_m := m; shr_r := false; shr_s := false |} e (Zpos p) in
  round_nearest_even (shr_m mrs) (loc_of_shr_record mrs) = rne m (Zpos p)
  /\ e' = e + Zpos p.
Proof.
  intros Hm. cbn [shr]. split; [| reflexivity].
  rewrite iter_pos_nat.
  destruct (Pos2Nat.is_succ p) as [k Hk]. rewrite Hk, shr_iter by assumption.
  assert (Hp : Zpos p = Z.succ (Z.of_nat k)) by lia.
  rewrite Nat2Z.inj_succ, Hp. unfold rne.
  set (K := Z.of_nat k) in *. assert (HK : 0 <= K) by (subst K; lia).
  rewrite (Z.pow_succ_r 2 K) by lia.
  set (b := 2 ^ K). assert (Hb : 0 < b) by (subst b; lia).
  rewrite (Z.mul_comm 2 b), Z.rem_mul_r by lia.
  pose proof (Z.mod_pos_bound m b ltac:(lia)) as H1.
  pose proof (Z.mod_pos_bound (m / b) 2 ltac:(lia)) as H2.
  rewrite Zodd_mod. cbn [shr_m shr_r shr_s loc_of_shr_record].
  destruct (Z.eqb_spec ((m / b) mod 2) 1) as [Ho | Ho],
           (Z.eqb_spec (m mod b) 0) as [Hz | Hz]; cbn [negb round_nearest_even];
    destruct (Z.compare_spec (2 * (m mod b + b * ((m / b) mod 2))) (b * 2));
    try reflexivity; try nia.
Qed.

(** The exponent of the numbers with [e] digits before the binary point. *)
Lemma fexp_64 e : fexp 53 1024 e = Z.max (e - 53) (-1074).
Proof. reflexivity. Qed.

(** The product fits: nothing is shifted out. *)
Lemma binary_round_aux_fits s m e :
  fexp 53 1024 (Zpos (digits2_pos m) + e) <= e ->
  binary_round_aux 53 1024 s (Zpos m) e loc_Exact
  = if e <=? 971 then S754_finite s m e else S754_infinity s.
Proof.
  intros Hn. unfold binary_round_aux, shr_fexp. cbn [Zdigits2 shr_record_of_loc].
  assert (Hs : forall mrs, shr mrs e (fexp 53 1024 (Zpos (digits2_pos m) + e) - e)
                           = (mrs, e)).
  { intros mrs. unfold shr.
    destruct (fexp 53 1024 (Zpos (digits2_pos m) + e) - e) eqn:E; try reflexivity; lia. }
  rewrite Hs. cbn [shr_m loc_of_shr_record round_nearest_even Zdigits2 shr_record_of_loc].
  rewrite Hs. reflexivity.
Qed.

(** The product does not fit: it is rounded at the exponent [fexp]. *)
Lemma binary_round_aux_rounds s m e :
  let E := fexp 53 1024 (Zpos (digits2_pos m) + e) in
  let M := rne (Zpos m) (E - e) in
  e < E ->
  binary_round_aux 53 1024 s (Zpos m) e loc_Exact
  = if M =? 0 then S754_zero s
    else if M =? 2 ^ 53
         then if E + 1 <=? 971 then S754_finite s (2 ^ 52) (E + 1) else S754_infinity s
         else if E <=? 971 then S754_finite s (Z.to_pos M) E else S754_infinity s.
Proof.
  intros E M Hn. unfold binary_round_aux, shr_fexp. cbn [Zdigits2 shr_record_of_loc].
  fold E. destruct (E - e) as [| p | p] eqn:Ep; try lia.
  pose proof (shr_rne (Zpos m) e p ltac:(lia)) as Hshr.
  destruct (shr _ e (Zpos p)) as [mrs e'] eqn:Eshr. destruct Hshr as [Hr ->].
  rewrite Hr. fold M. replace (e + Zpos p) with E by lia.
  pose proof (rne_bounds (Zpos m) (Zpos p) ltac:(lia) ltac:(lia)) as (HM & _ & _).
  fold M in HM.
  pose proof (digits_bounds m) as Hd. cbv zeta in Hd.
  set (d := Zpos (digits2_pos m)) in *.
  assert (HE : E = Z.max (d + e - 53) (-1074)) by reflexivity.
  assert (Hq : Zpos m / 2 ^ Zpos p < 2 ^ 53).
  { apply Z.div_lt_upper_bound; [lia |]. rewrite <- Z.pow_add_r by lia.
    apply Z.lt_le_trans with (2 ^ d); [lia |]. apply Z.pow_le_mono_r; lia. }
  assert (Hq0 : 0 <= Zpos m / 2 ^ Zpos p) by (apply Z.div_pos; lia).
  destruct (Z.eqb_spec M 0) as [H0 | H0].
  { rewrite H0. cbn [Zdigits2].
    assert (Hs : forall mrs, shr mrs E (fexp 53 1024 (0 + E) - E) = (mrs, E)).
    { intros mrs'. unfold shr.
      destruct (fexp 53 1024 (0 + E) - E) eqn:E0; try reflexivity.
      rewrite fexp_64 in E0. lia. }
    rewrite Hs. reflexivity. }
  destruct (Z.eqb_spec M (2 ^ 53)) as [H53 | H53].
  { rewrite H53. change (Zdigits2 (2 ^ 53)) with 54.
    assert (Hf : fexp 53 1024 (54 + E) - E = 1) by (rewrite fexp_64; lia).
    rewrite Hf. reflexivity. }
  destruct M as [| M' | M'] eqn:EM; try lia. cbn [Zdigits2 Z.to_pos].
  pose proof (digits_bounds M') as Hd'. cbv zeta in Hd'.
  assert (Zpos (digits2_pos M') <= 53).
  { destruct (Z_le_gt_dec (Zpos (digits2_pos M')) 53) as [|Hgt]; [assumption |].
    exfalso. assert (2 ^ 53 <= 2 ^ (Zpos (digits2_pos M') - 1))
      by (apply Z.pow_le_mono_r; lia). lia. }
  assert (Hs : forall mrs, shr mrs E (fexp 53 1024 (Zpos (digits2_pos M') + E) - E)
                           = (mrs, E)).
  { intros mrs'. unfold shr.
    destruct (fexp 53 1024 (Zpos (digits2_pos M') + E) - E) eqn:E0; try reflexivity.
    rewrite fexp_64 in E0. lia. }
  rewrite Hs. reflexivity.
Qed.

(** What [binary_round_aux] returns for the exact product [m * 2 ^ e]: the
    mantissa [M] at the exponent [e + n], which is [m * 2 ^ e] rounded, with a
    relative error of at most [2 ^ -53] unless the result is below
    [2 ^ -1021]. *)
Lemma binary_round_aux_value s m e r :
  binary_round_aux 53 1024 s (Zpos m) e loc_Exact = r ->
  JS.isFinite r = true ->
  exists M n,
    0 <= n /\ 0 <= M
    /\ (JS.value r == inject_Z (JS.signed s M) * 2 ^ (e + n))%Q
    /\ (forall k, 0 <= k -> Zpos m mod 2 ^ k = 0 -> Zpos m <= 2 ^ (k + 53) ->
        -1074 <= e + k -> M * 2 ^ n = Zpos m)
    /\ (2 ^ 53 * Z.abs (M * 2 ^ n - Zpos m) <= Zpos m
        \/ (e <= -1021 /\ M * 2 ^ n < 2 ^ (-1021 - e) /\ Zpos m < 2 ^ (-1021 - e))).
Proof.
  intros Hr Hfin.
  set (d := Zpos (digits2_pos m)).
  set (E := fexp 53 1024 (d + e)).
  assert (HE : E = Z.max (d + e - 53) (-1074)) by reflexivity.
  pose proof (digits_bounds m) as Hd. cbv zeta in Hd. fold d in Hd.
  destruct (Z_le_gt_dec E e) as [Hfit | Hshift].
  - rewrite binary_round_aux_fits in Hr by exact Hfit.
    destruct (e <=? 971); subst r; [| discriminate].
    exists (Zpos m), 0. rewrite Z.add_0_r, Z.mul_1_r, Z.sub_diag. cbn [Z.abs].
    split; [lia |]. split; [lia |]. split; [reflexivity |]. split; [lia |]. left; lia.
  - pose proof (binary_round_aux_rounds s m e ltac:(fold d E; lia)) as Hround.
    cbv zeta in Hround. fold d E in Hround. rewrite Hround in Hr. clear Hround.
    set (n := E - e) in *. set (M := rne (Zpos m) n) in *.
    pose proof (rne_bounds (Zpos m) n ltac:(lia) ltac:(lia)) as (HM & Herr & Hex).
    fold M in HM, Herr, Hex.
    assert (Hq0 : 0 <= Zpos m / 2 ^ n) by (apply Z.div_pos; lia).
    assert (Hn : 0 < 2 ^ n) by (apply Z.pow_pos_nonneg; lia).
    exists M, n. replace (e + n) with E by lia.
    split; [lia |]. split; [lia |]. split; [| split].
    + destruct (Z.eqb_spec M 0) as [H0 | H0].
      { subst r. rewrite H0. destruct s; cbn; reflexivity. }
      destruct (Z.eqb_spec M (2 ^ 53)) as [H53 | H53].
      { destruct (E + 1 <=? 971); subst r; [| discriminate].
        rewrite H53. cbn [JS.value].
        rewrite (Qpower_plus 2 E 1) by discriminate.
        change (Zpos (2 ^ 52)) with (2 ^ 52)%Z.
        destruct s; cbn [JS.signed]; rewrite ?inject_Z_opp;
          change (inject_Z (2 ^ 53)) with (inject_Z (2 ^ 52) * 2 ^ 1)%Q; ring. }
      destruct (E <=? 971); subst r; [| discriminate].
      cbn [JS.value]. rewrite Z2Pos.id by lia. reflexivity.
    + intros k Hk Hdiv Hle Hmin. apply Hex.
      assert (Hdk : d <= k + 54).
      { destruct (Z_le_gt_dec d (k + 54)) as [| Hgt]; [assumption |].
        exfalso. assert (2 ^ (k + 54) <= 2 ^ (d - 1)) by (apply Z.pow_le_mono_r; lia).
        assert (2 ^ (k + 53) < 2 ^ (k + 54)) by (apply Z.pow_lt_mono_r; lia). lia. }
      assert (Hnk : n <= k + 1) by lia.
      destruct (Z.eq_dec n (k + 1)) as [Heq | Hne].
      * assert (Hm : Zpos m = 2 ^ (k + 53)).
        { assert (2 ^ (k + 53) <= 2 ^ (d - 1)) by (apply Z.pow_le_mono_r; lia). lia. }
        rewrite Hm, Heq. replace (k + 53) with (52 + (k + 1)) by lia.
        rewrite Z.pow_add_r by lia. apply Z_mod_mult.
      * apply Z.mod_divide; [lia |]. apply Z.mod_divide in Hdiv; [| lia].
        apply Z.divide_trans with (2 ^ k); [| exact Hdiv].
        exists (2 ^ (k - n)). rewrite <- Z.pow_add_r by lia. f_equal. lia.
    + destruct (Z.eq_dec E (d + e - 53)) as [Hnormal | Hsub].
      * left. assert (Hpow : 2 ^ (n + 52) <= Zpos m).
        { replace (n + 52) with (d - 1) by lia. lia. }
        rewrite Z.pow_add_r in Hpow by lia. lia.
      * right. assert (HE' : E = -1074) by lia.
        assert (Hlt : 2 ^ d <= 2 ^ (-1022 - e)) by (apply Z.pow_le_mono_r; lia).
        assert (Hn' : 2 ^ n < 2 ^ (-1022 - e)) by (apply Z.pow_lt_mono_r; lia).
        replace (-1021 - e) with (Z.succ (-1022 - e)) by lia.
        rewrite Z.pow_succ_r by lia. lia.
Qed.

Lemma pow2_pos e : (0 < 2 ^ e)%Q.
Proof. now apply Qpower_0_lt. Qed.

Lemma pow2_Z n : 0 <= n -> (2 ^ n == inject_Z (2 ^ n))%Q.
Proof. intros Hn. now rewrite Zpower_Qpower. Qed.

Lemma signed_mul s a b : JS.signed s (a * b) = JS.signed s a * b.
Proof. destruct s; cbn; lia. Qed.

Lemma signed_xorb s1 s2 a b : JS.signed (xorb s1 s2) (a * b) = JS.signed s1 a * JS.signed s2 b.
Proof. destruct s1, s2; cbn; lia. Qed.

Lemma signed_abs s a : Z.abs (JS.signed s a) = Z.abs a.
Proof. destruct s; cbn; lia. Qed.

Lemma scaled_value s M e n :
  0 <= n ->
  (inject_Z (JS.signed s M) * 2 ^ (e + n)
   == inject_Z (JS.signed s (M * 2 ^ n)) * 2 ^ e)%Q.
Proof.
  intros Hn. rewrite Qpower_plus by discriminate. rewrite (pow2_Z n Hn).
  rewrite signed_mul, inject_Z_mult. ring.
Qed.

Lemma Qabs_scaled z e : (Qabs (inject_Z z * 2 ^ e) == inject_Z (Z.abs z) * 2 ^ e)%Q.
Proof.
  rewrite Qabs_Qmult. rewrite (Qabs_pos (2 ^ e)) by (apply Qlt_le_weak, pow2_pos).
  reflexivity.
Qed.

(** [Math.round(x)] is the floor of [x + 1/2]. *)
Lemma Math_round_number_value x :
  JS.Math_round_number x = Qfloor (JS.value x + (1 # 2)).
Proof.
  destruct x as [s | s | | s m e]; try reflexivity.
  cbn [JS.Math_round_number JS.value]. set (z := JS.signed s (Zpos m)).
  destruct e as [| k | k].
  - rewrite Z.mul_1_r. change (2 ^ 0)%Q with 1%Q.
    assert (H : (inject_Z z * 1 + (1 # 2) == (2 * z + 1) # 2)%Q).
    { rewrite (Qmake_Qdiv (2 * z + 1)), inject_Z_plus, inject_Z_mult.
      change (inject_Z 2) with 2%Q. change (inject_Z 1) with 1%Q.
      change (inject_Z (Zpos 2)) with 2%Q. rewrite (Qmake_Qdiv 1 2).
      change (inject_Z 1) with 1%Q. change (inject_Z (Zpos 2)) with 2%Q. field. }
    rewrite H. unfold Qfloor. apply Z.div_unique with 1; lia.
  - assert (H : (inject_Z z * 2 ^ Zpos k + (1 # 2)
                 == (2 * (z * 2 ^ Zpos k) + 1) # 2)%Q).
    { rewrite pow2_Z by lia.
      rewrite (Qmake_Qdiv (2 * (z * 2 ^ Zpos k) + 1)), inject_Z_plus, !inject_Z_mult.
      rewrite (Qmake_Qdiv 1 2).
      change (inject_Z 2) with 2%Q. change (inject_Z 1) with 1%Q.
      change (inject_Z (Zpos 2)) with 2%Q. field. }
    rewrite H. unfold Qfloor. apply Z.div_unique with 1; lia.
  - assert (Hk : Zpos (2 ^ (k + 1)) = 2 ^ (Zpos k + 1)).
    { rewrite Pos2Z.inj_pow. f_equal. }
    assert (H : (inject_Z z * 2 ^ Zneg k + (1 # 2)
                 == (2 * z + 2 ^ Zpos k) # (2 ^ (k + 1)))%Q).
    { change (Zneg k) with (- Zpos k). rewrite Qpower_opp, pow2_Z by lia.
      assert (Hp : 0 < 2 ^ Zpos k) by (apply Z.pow_pos_nonneg; lia).
      assert (Hq : ~ (inject_Z (2 ^ Zpos k) == 0)%Q).
      { unfold Qeq, inject_Z; cbn. lia. }
      rewrite (Qmake_Qdiv (2 * z + 2 ^ Zpos k)), Hk.
      rewrite Z.pow_add_r by lia. rewrite inject_Z_plus, !inject_Z_mult.
      change (inject_Z (2 ^ 1)) with 2%Q. change (inject_Z 2) with 2%Q.
      field. exact Hq. }
    rewrite H. unfold Qfloor. now rewrite Hk.
Qed.

Lemma Qmult_inv_pos (c : positive) (b : Q) : ((Zpos c # 1) * (b * (1 # c)) == b)%Q.
Proof.
  destruct b as [bn bd]. unfold Qeq, Qmult. cbn [Qnum Qden].
  rewrite !Pos2Z.inj_mul. ring.
Qed.

(** The error of the product: relative, at most [2 ^ -53], or both the
    product and its exact value are below [2 ^ -1021]. *)
Lemma mul_error x y :
  JS.isFinite (JS.mul x y) = true ->
  let p := (JS.value x * JS.value y)%Q in
  (Qabs (JS.value (JS.mul x y) - p) <= Qabs p * (1 # 2 ^ 53)
   \/ (Qabs (JS.value (JS.mul x y)) < 2 ^ (-1021) /\ Qabs p < 2 ^ (-1021)))%Q.
Proof.
  intros Hfin p. subst p.
  destruct x as [sx | sx | | sx mx ex], y as [sy | sy | | sy my ey];
    try discriminate;
    try (left; cbn [JS.mul SFmul JS.value]; rewrite ?Qmult_0_l, ?Qmult_0_r; cbn; discriminate).
  cbn [JS.mul SFmul] in *.
  destruct (binary_round_aux_value _ _ _ _ eq_refl Hfin)
    as (M & n & Hn & HM & Hv & _ & Hb).
  rewrite Hv, scaled_value by exact Hn.
  set (e := ex + ey) in *. set (s := xorb sx sy) in *.
  assert (Hp : (JS.value (S754_finite sx mx ex) * JS.value (S754_finite sy my ey)
                == inject_Z (JS.signed s (Zpos (mx * my))) * 2 ^ e)%Q).
  { cbn [JS.value]. subst s e. rewrite Pos2Z.inj_mul, signed_xorb, inject_Z_mult.
    rewrite Qpower_plus by discriminate.
    generalize (2 ^ ex)%Q (2 ^ ey)%Q (inject_Z (JS.signed sx (Zpos mx)))
               (inject_Z (JS.signed sy (Zpos my))). intros. ring. }
  rewrite Hp. clearbody s e.
  destruct Hb as [Hrel | (He & HsmallM & Hsmallm)].
  - left.
    assert (Hd : (inject_Z (JS.signed s (M * 2 ^ n)) * 2 ^ e
                  - inject_Z (JS.signed s (Zpos (mx * my))) * 2 ^ e
                  == inject_Z (JS.signed s (M * 2 ^ n - Zpos (mx * my))) * 2 ^ e)%Q).
    { generalize (2 ^ e)%Q. intros q. unfold JS.signed, Z.sub.
      generalize (M * 2 ^ n) (Zpos (mx * my)). intros A B.
      destruct s; rewrite ?inject_Z_opp, inject_Z_plus, ?inject_Z_opp;
        generalize (inject_Z A) (inject_Z B); intros; ring. }
    rewrite Hd, !Qabs_scaled, !signed_abs.
    pose proof (pow2_pos e) as He.
    assert (Hz : (inject_Z (2 ^ 53) * inject_Z (Z.abs (M * 2 ^ n - Zpos (mx * my)))
                  <= inject_Z (Z.abs (Zpos (mx * my))))%Q).
    { rewrite <- inject_Z_mult, <- Zle_Qle. lia. }
    change (inject_Z (2 ^ 53)) with (Zpos (2 ^ 53) # 1)%Q in Hz.
    set (a := inject_Z (Z.abs (M * 2 ^ n - Zpos (mx * my)))) in *.
    set (b := inject_Z (Z.abs (Zpos (mx * my)))) in *. clearbody a b.
    assert (Ha : (a <= b * (1 # 2 ^ 53))%Q).
    { apply Qmult_le_l with (z := (Zpos (2 ^ 53) # 1)%Q); [reflexivity |].
      eapply Qle_trans; [exact Hz |]. apply Qle_lteq. right. symmetry.
      apply Qmult_inv_pos. }
    setoid_replace (b * 2 ^ e * (1 # 2 ^ 53))%Q with (b * (1 # 2 ^ 53) * 2 ^ e)%Q
      by ring.
    apply Qmult_le_compat_r; [exact Ha | now apply Qlt_le_weak].
  - right. rewrite !Qabs_scaled, !signed_abs.
    assert (Hpow : (2 ^ (-1021) == inject_Z (2 ^ (-1021 - e)) * 2 ^ e)%Q).
    { rewrite <- pow2_Z by lia. rewrite <- Qpower_plus by discriminate.
      replace (-1021 - e + e) with (-1021) by lia. reflexivity. }
    rewrite Hpow. pose proof (pow2_pos e) as Hpe.
    split; (apply Qmult_lt_compat_r; [exact Hpe |]); rewrite <- Zlt_Qlt.
    + rewrite Z.abs_eq by (apply Z.mul_nonneg_nonneg; lia). exact HsmallM.
    + cbn [Z.abs]. exact Hsmallm.
Qed.

(** The floor of [v + 1/2] against [v]. *)
Lemma Qfloor_half_bounds (v : Q) :
  (v - (1 # 2) < inject_Z (Qfloor (v + (1 # 2))) <= v + (1 # 2))%Q.
Proof.
  pose proof (Qfloor_le (v + (1 # 2))) as Hle.
  pose proof (Qlt_floor (v + (1 # 2))) as Hlt.
  rewrite inject_Z_plus in Hlt. change (inject_Z 1) with 1%Q in Hlt.
  split; lra.
Qed.

Lemma Qfloor_half_small (v : Q) :
  (Qabs v < 1 # 2)%Q -> Qfloor (v + (1 # 2)) = 0.
Proof.
  intros Hv. apply Qabs_Qlt_condition in Hv as [Hlo Hhi].
  pose proof (Qfloor_half_bounds v) as [H1 H2].
  assert (Ha : (inject_Z (Qfloor (v + (1 # 2))) < inject_Z 1)%Q)
    by (change (inject_Z 1) with 1%Q; lra).
  assert (Hb : (inject_Z (-1) < inject_Z (Qfloor (v + (1 # 2))))%Q)
    by (change (inject_Z (-1)) with (-1 # 1)%Q; lra).
  rewrite <- Zlt_Qlt in Ha, Hb. lia.
Qed.

Lemma Qfloor_half_integer (n : Z) (v : Q) :
  (v == inject_Z n)%Q -> Qfloor (v + (1 # 2)) = n.
Proof.
  intros Hv. pose proof (Qfloor_half_bounds v) as [H1 H2].
  assert (Hv1 : (v <= inject_Z n)%Q) by (rewrite Hv; apply Qle_refl).
  assert (Hv2 : (inject_Z n <= v)%Q) by (rewrite Hv; apply Qle_refl).
  assert (Ha : (inject_Z (Qfloor (v + (1 # 2))) < inject_Z (n + 1))%Q).
  { rewrite inject_Z_plus. change (inject_Z 1) with 1%Q. lra. }
  assert (Hb : (inject_Z (n - 1) < inject_Z (Qfloor (v + (1 # 2))))%Q).
  { unfold Z.sub. rewrite inject_Z_plus, inject_Z_opp. change (inject_Z 1) with 1%Q. lra. }
  rewrite <- Zlt_Qlt in Ha, Hb. lia.
Qed.

(** [Math.round(x * y)] against the exact product. *)
Lemma round_mul_error x y :
  JS.isFinite (JS.mul x y) = true ->
  (Qabs (inject_Z (JS.Math_round_number (JS.mul x y)) - JS.value x * JS.value y)
   <= (1 # 2) + Qabs (JS.value x * JS.value y) * (1 # 2 ^ 53))%Q.
Proof.
  intros Hfin. rewrite Math_round_number_value.
  pose proof (mul_error x y Hfin) as Herr. cbv zeta in Herr.
  set (v := JS.value (JS.mul x y)) in *. set (p := (JS.value x * JS.value y)%Q) in *.
  assert (Ht : (0 <= Qabs p * (1 # 2 ^ 53))%Q).
  { apply Qmult_le_0_compat; [apply Qabs_nonneg | discriminate]. }
  set (t := (Qabs p * (1 # 2 ^ 53))%Q) in *.
  destruct Herr as [Hrel | [Hv Hp]].
  - pose proof (Qfloor_half_bounds v) as [H1 H2].
    apply Qabs_Qle_condition in Hrel as [Hr1 Hr2].
    apply Qabs_Qle_condition. split; lra.
  - assert (Hsmall : (2 ^ (-1021) <= 1 # 2)%Q).
    { change (1 # 2)%Q with (2 ^ (-1))%Q. apply Qpower_le_compat_l; [lia | discriminate]. }
    rewrite Qfloor_half_small by lra.
    apply Qabs_Qlt_condition in Hp as [Hp1 Hp2].
    apply Qabs_Qle_condition. change (inject_Z 0) with 0%Q. split; lra.
Qed.

(** A product that is an integer of at most 53 bits is exact. *)
Lemma round_mul_exact x y (n : Z) :
  JS.isFinite (JS.mul x y) = true ->
  (JS.value x * JS.value y == inject_Z n)%Q -> Z.abs n <= 2 ^ 53 ->
  JS.Math_round_number (JS.mul x y) = n.
Proof.
  intros Hfin Hp Hn. rewrite Math_round_number_value. apply Qfloor_half_integer.
  rewrite <- Hp.
  destruct x as [sx | sx | | sx mx ex], y as [sy | sy | | sy my ey];
    try discriminate;
    try (cbn [JS.mul SFmul JS.value]; rewrite ?Qmult_0_l, ?Qmult_0_r; reflexivity).
  assert (Hpe : (JS.value (S754_finite sx mx ex) * JS.value (S754_finite sy my ey)
                 == inject_Z (JS.signed (xorb sx sy) (Zpos (mx * my))) * 2 ^ (ex + ey))%Q).
  { cbn [JS.value]. rewrite Pos2Z.inj_mul, signed_xorb, inject_Z_mult.
    rewrite Qpower_plus by discriminate.
    generalize (2 ^ ex)%Q (2 ^ ey)%Q (inject_Z (JS.signed sx (Zpos mx)))
               (inject_Z (JS.signed sy (Zpos my))). intros. ring. }
  rewrite Hpe in Hp |- *. cbn [JS.mul SFmul] in *.
  destruct (binary_round_aux_value _ _ _ _ eq_refl Hfin)
    as (M & k & Hk & HM & Hv & Hexact & _).
  rewrite Hv, scaled_value by exact Hk.
  set (e := ex + ey) in *. set (s := xorb sx sy) in *. set (m := (mx * my)%positive) in *.
  clearbody e s m. clear Hv Hpe Hfin.
  enough (Hm : M * 2 ^ k = Zpos m) by (rewrite Hm; reflexivity).
  destruct (Z_le_gt_dec 0 e) as [He | He].
  - rewrite pow2_Z in Hp by exact He. rewrite <- inject_Z_mult in Hp.
    apply (proj1 (inject_Z_injective _ _)) in Hp.
    assert (H1 : 1 <= 2 ^ e) by (apply (Z.pow_le_mono_r 2 0 e); lia).
    apply (Hexact 0); try lia.
    + now rewrite Z.mod_1_r.
    + change (2 ^ (0 + 53)) with (2 ^ 53).
      assert (Hle : Zpos m <= Zpos m * 2 ^ e) by nia.
      destruct s; cbn [JS.signed] in Hp; rewrite ?Z.mul_opp_l in Hp; lia.
  - assert (Hpow : (2 ^ e == / inject_Z (2 ^ (- e)))%Q).
    { replace e with (- - e) at 1 by lia. rewrite Qpower_opp, pow2_Z by lia. reflexivity. }
    assert (H2 : 0 < 2 ^ (- e)) by (apply Z.pow_pos_nonneg; lia).
    assert (Hq : ~ (inject_Z (2 ^ (- e)) == 0)%Q).
    { unfold Qeq, inject_Z; cbn. lia. }
    assert (Hz : JS.signed s (Zpos m) = n * 2 ^ (- e)).
    { apply (proj1 (inject_Z_injective _ _)). rewrite inject_Z_mult, <- Hp, Hpow.
      generalize (inject_Z (JS.signed s (Zpos m))) (inject_Z (2 ^ (- e))) Hq.
      intros a b Hb. field. exact Hb. }
    apply (Hexact (- e)); try lia.
    + assert (Hm : Zpos m = Z.abs n * 2 ^ (- e)) by (destruct s; cbn [JS.signed] in Hz; nia).
      rewrite Hm. apply Z_mod_mult.
    + rewrite Z.pow_add_r by lia.
      assert (Hm : Zpos m = Z.abs n * 2 ^ (- e)) by (destruct s; cbn [JS.signed] in Hz; nia).
      rewrite Hm, (Z.mul_comm (2 ^ (- e))). apply Z.mul_le_mono_nonneg_r; lia.
Qed.

(** [Math.round] of a product in the code is [rounded_product]. *)
Lemma Math_round_mul (a lit : JS.Number) (unit : Z) :
  lit = binary_normalize 53 1024 unit 0 false ->
  JS.Math_round_number (JS.mul a lit) = rounded_product a unit.
Proof. intros ->. unfold rounded_product, JS.mul. apply Math_round_number_value. Qed.

Lemma rounded_product_within (a : JS.Number) (unit : Z) :
  (JS.value (binary_normalize 53 1024 unit 0 false) == inject_Z unit)%Q ->
  product_is_finite a unit ->
  within_rounding (JS.value a * inject_Z unit) (rounded_product a unit).
Proof.
  intros Hunit Hfin. unfold within_rounding, rounded_product.
  rewrite <- Hunit, <- Math_round_number_value. apply round_mul_error. exact Hfin.
Qed.

Lemma rounded_product_exact (a : JS.Number) (unit n : Z) :
  (JS.value (binary_normalize 53 1024 unit 0 false) == inject_Z unit)%Q ->
  product_is_finite a unit ->
  Z.abs n <= 2 ^ 53 -> (JS.value a * inject_Z unit == inject_Z n)%Q ->
  rounded_product a unit = n.
Proof.
  intros Hunit Hfin Hn Hp. unfold rounded_product.
  rewrite <- Math_round_number_value. apply round_mul_exact; [exact Hfin | | exact Hn].
  now rewrite Hunit.
Qed.

Lemma rounded_product_clear (a : JS.Number) (unit n : Z) :
  (JS.value (binary_normalize 53 1024 unit 0 false) == inject_Z unit)%Q ->
  product_is_finite a unit ->
  clearly_nearest (JS.value a * inject_Z unit) n ->
  rounded_product a unit = n.
Proof.
  intros Hunit Hfin Hclear.
  pose proof (rounded_product_within a unit Hunit Hfin) as Hnear.
  unfold within_rounding, clearly_nearest in *.
  set (p := (JS.value a * inject_Z unit)%Q) in *.
  set (t := (Qabs p * (1 # 2 ^ 53))%Q) in *.
  set (r := rounded_product a unit) in *. clearbody p t r.
  apply Qabs_Qle_condition in Hnear as [H1 H2].
  apply Qabs_Qlt_condition in Hclear as [H3 H4].
  assert (Ha : (inject_Z r < inject_Z (n + 1))%Q).
  { rewrite inject_Z_plus. change (inject_Z 1) with 1%Q. lra. }
  assert (Hb : (inject_Z (n - 1) < inject_Z r)%Q).
  { unfold Z.sub. rewrite inject_Z_plus, inject_Z_opp. change (inject_Z 1) with 1%Q. lra. }
  rewrite <- Zlt_Qlt in Ha, Hb. lia.
Qed.

(** * Proof rules *)

Section Rules.
Context {S : Type}.

Lemma wp_ret {A} (a : A) (Q : Outcome A -> S -> Prop) s :
  Q (Return a) s -> wp (ret a) Q s.
Proof. exact (fun H => H). Qed.

Lemma wp_throw {A} e (Q : Outcome A -> S -> Prop) s :
  Q (Throw e) s -> wp (throw e) Q s.
Proof. exact (fun H => H). Qed.

Lemma wp_bind {A B} (m : M S A) (k : A -> M S B) (Q : Outcome B -> S -> Prop) s :
  wp m (lift_post Q (fun a s' => wp (k a) Q s')) s -> wp (bind m k) Q s.
Proof.
  unfold wp, bind, lift_post. destruct (m s) as [[a | e |] s']; simpl; auto.
Qed.

Lemma wp_conseq {A} (m : M S A) (Q Q' : Outcome A -> S -> Prop) s :
  wp m Q s -> (forall o s', Q o s' -> Q' o s') -> wp m Q' s.
Proof. unfold wp; auto. Qed.

Lemma wp_elim {A} (m : M S A) (Q : Outcome A -> S -> Prop) s :
  wp m Q s -> let '(o, s') := m s in Q o s'.
Proof. unfold wp. destruct (m s); auto. Qed.

Lemma wp_while {L} (I : L -> S -> Prop) fuel cond (body : L -> M S L)
    (Q : Outcome L -> S -> Prop) :
  (forall l s, I l s -> cond l = false -> Q (Return l) s) ->
  (forall l s, I l s -> cond l = true -> Q OutOfFuel s) ->
  (forall l s, I l s -> cond l = true -> wp (body l) (lift_post Q I) s) ->
  forall l s, I l s -> wp (while fuel cond body l) Q s.
Proof.
  intros Hexit Hfuel Hbody. induction fuel as [| fuel IH]; intros l s HI.
  - unfold wp; simpl. destruct (cond l) eqn:Hc; simpl.
    + now apply Hfuel with l.
    + now apply Hexit.
  - unfold wp; simpl. destruct (cond l) eqn:Hc; simpl.
    + specialize (Hbody l s HI Hc). unfold wp, lift_post in Hbody.
      destruct (body l s) as [[l' | e |] s']; simpl in *; auto.
      now apply IH.
    + now apply Hexit.
Qed.

Context `{Traced S}.

Lemma wp_await {A} (answer : Trace -> Result A) event (Q : Outcome A -> S -> Prop) s :
  (forall r, Q (match r with Ok a => Return a | Err e => Throw e end)
               (log_event (event r) s)) ->
  wp (await answer event) Q s.
Proof. intros HQ. apply HQ. Qed.

Lemma wp_settle_await {A} (answer : Trace -> Result A) event
    (Q : Outcome (Result A) -> S -> Prop) s :
  (forall r, Q (Return r) (log_event (event r) s)) ->
  wp (settle (await answer event)) Q s.
Proof.
  intros HQ. unfold wp, settle, await. specialize (HQ (answer (get_trace s))).
  destruct (answer (get_trace s)); exact HQ.
Qed.

Lemma wp_sleep ms (Q : Outcome unit -> S -> Prop) s :
  Q (Return tt) (log_event (setTimeout ms) s) -> wp (sleep ms) Q s.
Proof. exact (fun H => H). Qed.
End Rules.

Lemma wp_get_config (Q : Outcome ACCSConfig.t -> State.t -> Prop) s :
  (forall c, c = State.config s -> Q (Return c) s) -> wp get_config Q s.
Proof. intros HQ. now apply HQ. Qed.

Lemma wp_assign f (Q : Outcome unit -> State.t -> Prop) s :
  Q (Return tt) {| State.config := f (State.config s); State.trace := State.trace s |} ->
  wp (assign f) Q s.
Proof. exact (fun H => H). Qed.

(** Trace extension. *)

Lemma since_refl (R : Trace -> Prop) t : R [] -> since t t R.
Proof. intros HR. exists []. now rewrite app_nil_r. Qed.

Lemma added_app t0 new : added t0 (t0 ++ new)%list = new.
Proof. unfold added. induction t0; simpl; auto. Qed.

Lemma since_added (R : Trace -> Prop) t0 t :
  since t0 t R -> t = (t0 ++ added t0 t)%list /\ R (added t0 t).
Proof. intros (new & -> & HR). now rewrite added_app. Qed.

Lemma since_app (R R' : Trace -> Prop) t0 t ext :
  since t0 t R -> (forall new, R new -> R' (new ++ ext)%list) ->
  since t0 (t ++ ext)%list R'.
Proof.
  intros (new & -> & HR) Hstep. exists (new ++ ext)%list. split.
  - now rewrite app_assoc.
  - now apply Hstep.
Qed.

Lemma since_same (R R' : Trace -> Prop) t0 t :
  since t0 t R -> (forall new, R new -> R' new) -> since t0 t R'.
Proof. intros (new & -> & HR) Himp. exists new. auto. Qed.

Ltac wp_step :=
  lazymatch goal with
  | |- wp (bind _ _) _ _ => apply wp_bind
  | |- wp (ret _) _ _ => apply wp_ret
  | |- wp (throw _) _ _ => apply wp_throw
  | |- wp (sleep _) _ _ => apply wp_sleep
  | |- wp get_config _ _ =>
      let c := fresh "c" in let Hc := fresh "Hc" in
      apply wp_get_config; intros c Hc; cbn [State.config State.trace] in Hc
  | |- wp (assign _) _ _ => apply wp_assign
  | |- wp (settle (await _ _)) _ _ =>
      let r := fresh "r" in apply wp_settle_await; intros r
  | |- wp (await _ _) _ _ =>
      let r := fresh "r" in let a := fresh "a" in let e := fresh "e" in
      apply wp_await; intros r; destruct r as [a | e]
  | |- wp (lift ?r) _ _ => destruct r eqn:?; cbn [lift]
  | |- wp (match ?x with _ => _ end) _ _ => destruct x eqn:?
  | |- wp (if ?x then _ else _) _ _ => destruct x eqn:?
  end; cbn [lift_post]; cbv beta.

(** Goals about extended traces. *)
Ltac in_alphabet := cbn; repeat split; try reflexivity; eauto.

Ltac simpl_trace :=
  cbn [State.trace State.config log_event get_trace Traced_State Traced_Trace];
  rewrite <- ?app_assoc; cbn [app].

(** [extend H]: the goal's trace is the one of [H] with some events appended. *)
Ltac extend H :=
  simpl_trace;
  first [ apply since_app with (1 := H) | apply since_same with (1 := H) ];
  let new := fresh "new" in let Hnew := fresh "Hnew" in
  intros new Hnew.

Ltac all_in_alphabet :=
  repeat (apply Forall_app; split); try assumption;
  repeat (apply Forall_cons; [solve [in_alphabet] |]); try apply Forall_nil.

(** * The polling loops add only their own events *)

Section Loops.
Import ACCSConfig.
Context (env : Env.t) (fuel : nat) (c : ACCSConfig.t) (P : Event -> Prop) (t0 : Trace).

Lemma proposeBTSForBTC_poll_emits hBTC hBTS maxBlockHeight s :
  (forall r, P (BitsharesHTLC_redeem hBTS (amountBTSMini c) (bitsharesPrivateKey c)
                  (secret c) r)) ->
  (forall r, P (bitcoinAPI_getLastBlock (BitcoinHTLC.network hBTC) r)) ->
  P (setTimeout (checkAPIInterval c * 1000)) ->
  since t0 (State.trace s) (Forall P) ->
  wp (ACCS.proposeBTSForBTC_poll env fuel c hBTC hBTS maxBlockHeight)
     (fun _ s' => State.config s' = State.config s
                  /\ since t0 (State.trace s') (Forall P)) s.
Proof.
  intros P1 P2 P3 Hs. unfold ACCS.proposeBTSForBTC_poll.
  apply wp_while with
    (I := fun _ s' => State.config s' = State.config s
                      /\ since t0 (State.trace s') (Forall P));
    try (intros; assumption); [| now split].
  intros [success cur] s' [HC HT] _.
  unfold ACCS.proposeBTSForBTC_body, btsRedeem, getLastBlock_height.
  repeat wp_step; (split; [exact HC | extend HT; all_in_alphabet]).
Qed.

Lemma proposeBTCForBTS_poll_emits hBTC p2wsh timeToWait s :
  (forall r, P (bitcoinAPI_getValueFromLastTransaction (BitcoinHTLC.network hBTC)
                  (Payment.address p2wsh) r)) ->
  P (setTimeout (checkAPIInterval c * 1000)) ->
  since t0 (State.trace s) (Forall P) ->
  wp (ACCS.proposeBTCForBTS_poll env fuel c hBTC p2wsh timeToWait)
     (fun _ s' => State.config s' = State.config s
                  /\ since t0 (State.trace s') (Forall P)) s.
Proof.
  intros P1 P2 Hs. unfold ACCS.proposeBTCForBTS_poll.
  apply wp_while with
    (I := fun _ s' => State.config s' = State.config s
                      /\ since t0 (State.trace s') (Forall P));
    try (intros; assumption); [| now split].
  intros [txID ttw] s' [HC HT] _.
  unfold ACCS.proposeBTCForBTS_body, getValueFromLastTransaction.
  repeat wp_step; (split; [exact HC | extend HT; all_in_alphabet]).
Qed.

Lemma takeBTSForBTC_wait_emits s :
  (forall r, P (websocket_getID (counterpartyBitsharesAccountID c) (bitsharesAccountID c)
                  (amountBTSMini c) (Secret.hash (secret c)) (timelockBTS c) r)) ->
  P (setTimeout (checkAPIInterval c * 1000)) ->
  since t0 (State.trace s) (Forall P) ->
  wp (ACCS.takeBTSForBTC_wait env fuel c)
     (fun _ s' => State.config s' = State.config s
                  /\ since t0 (State.trace s') (Forall P)) s.
Proof.
  intros P1 P2 Hs. unfold ACCS.takeBTSForBTC_wait.
  apply wp_while with
    (I := fun _ s' => State.config s' = State.config s
                      /\ since t0 (State.trace s') (Forall P));
    try (intros; assumption); [| now split].
  intros [id ttw] s' [HC HT] _.
  unfold ACCS.takeBTSForBTC_wait_body, getID.
  repeat wp_step; (split; [exact HC | extend HT; all_in_alphabet]).
Qed.

Lemma takeBTCForBTS_wait_emits hBTC p2wsh s :
  (forall r, P (bitcoinAPI_getValueFromLastTransaction (BitcoinHTLC.network hBTC)
                  (Payment.address p2wsh) r)) ->
  P (setTimeout (checkAPIInterval c * 1000)) ->
  since t0 (State.trace s) (Forall P) ->
  wp (ACCS.takeBTCForBTS_wait env fuel c hBTC p2wsh)
     (fun _ s' => State.config s' = State.config s
                  /\ since t0 (State.trace s') (Forall P)) s.
Proof.
  intros P1 P2 Hs. unfold ACCS.takeBTCForBTS_wait.
  apply wp_while with
    (I := fun _ s' => State.config s' = State.config s
                      /\ since t0 (State.trace s') (Forall P));
    try (intros; assumption); [| now split].
  intros [[txID value] ttw] s' [HC HT] _.
  unfold ACCS.takeBTCForBTS_wait_body, getValueFromLastTransaction.
  repeat wp_step; (split; [exact HC | extend HT; all_in_alphabet]).
Qed.

(** The preimage the loop hands on was read from the chain. *)
Lemma takeBTSForBTC_poll_emits hBTC p2wsh maxBlockHeight s :
  (forall r, P (bitcoinAPI_getLastBlock (BitcoinHTLC.network hBTC) r)) ->
  (forall r, P (bitcoinAPI_getPreimageFromLastTransaction (BitcoinHTLC.network hBTC)
                  (Payment.address p2wsh) r)) ->
  P (setTimeout (checkAPIInterval c * 1000)) ->
  since t0 (State.trace s) (Forall P) ->
  wp (ACCS.takeBTSForBTC_poll env fuel c hBTC p2wsh maxBlockHeight)
     (fun o s' =>
        State.config s' = State.config s
        /\ since t0 (State.trace s')
             (fun new => Forall P new
                /\ forall p cur, o = Return (Some p, cur) ->
                     In (bitcoinAPI_getPreimageFromLastTransaction
                           (BitcoinHTLC.network hBTC) (Payment.address p2wsh)
                           (Ok (Some p))) new)) s.
Proof.
  intros P1 P2 P3 Hs. unfold ACCS.takeBTSForBTC_poll.
  apply wp_while with
    (I := fun l s' =>
        State.config s' = State.config s
        /\ since t0 (State.trace s')
             (fun new => Forall P new
                /\ forall p, fst l = Some p ->
                     In (bitcoinAPI_getPreimageFromLastTransaction
                           (BitcoinHTLC.network hBTC) (Payment.address p2wsh)
                           (Ok (Some p))) new)).
  - intros [pre cur] s' [HC HT] _. split; [exact HC |].
    extend HT. destruct Hnew as [Hall Hin]. split; [exact Hall |].
    intros p cur' [= -> ->]. now apply Hin.
  - intros l s' [HC HT] _. split; [exact HC |].
    extend HT. split; [apply Hnew | discriminate].
  - intros [pre cur] s' [HC HT] _.
    unfold ACCS.takeBTSForBTC_body, getLastBlock_height, getPreimageFromLastTransaction.
    repeat wp_step; (split; [exact HC |]); extend HT; destruct Hnew as [Hall Hin];
      (split; [all_in_alphabet |]); try discriminate.
    intros p [= ->]. apply in_or_app. right. cbn. auto.
  - split; [reflexivity |]. extend Hs. split; [exact Hnew | discriminate].
Qed.

Lemma takeBTCForBTS_poll_emits timeToWait s :
  (forall r, P (websocket_getPreimageFromHTLC (bitsharesAccountID c)
                  (counterpartyBitsharesAccountID c)
                  (JS.toString_hex (Secret.hash (secret c))) r)) ->
  P (setTimeout 1000) ->
  since t0 (State.trace s) (Forall P) ->
  wp (ACCS.takeBTCForBTS_poll env fuel c timeToWait)
     (fun o s' =>
        State.config s' = State.config s
        /\ since t0 (State.trace s')
             (fun new => Forall P new
                /\ forall p ttw, o = Return (p, ttw) -> JS.falsy p = false ->
                     In (websocket_getPreimageFromHTLC (bitsharesAccountID c)
                           (counterpartyBitsharesAccountID c)
                           (JS.toString_hex (Secret.hash (secret c))) (Ok p)) new)) s.
Proof.
  intros P1 P2 Hs. unfold ACCS.takeBTCForBTS_poll.
  apply wp_while with
    (I := fun l s' =>
        State.config s' = State.config s
        /\ since t0 (State.trace s')
             (fun new => Forall P new
                /\ (JS.falsy (fst l) = false ->
                     In (websocket_getPreimageFromHTLC (bitsharesAccountID c)
                           (counterpartyBitsharesAccountID c)
                           (JS.toString_hex (Secret.hash (secret c))) (Ok (fst l))) new))).
  - intros [pre ttw] s' [HC HT] _. split; [exact HC |].
    extend HT. destruct Hnew as [Hall Hin]. split; [exact Hall |].
    intros p ttw' [= -> ->]. exact Hin.
  - intros l s' [HC HT] _. split; [exact HC |].
    extend HT. split; [apply Hnew | discriminate].
  - intros [pre ttw] s' [HC HT] Hcond.
    unfold ACCS.takeBTCForBTS_cond in Hcond. apply andb_prop in Hcond as [Hpre _].
    unfold ACCS.takeBTCForBTS_body, getPreimageFromHTLC.
    repeat wp_step. split; [exact HC |]. extend HT. destruct Hnew as [Hall Hin].
    split; [all_in_alphabet |]. cbn [fst].
    destruct r as [q | err]; intros Hq.
    + apply in_or_app. right. cbn. auto.
    + congruence.
  - split; [reflexivity |]. extend Hs. split; [exact Hnew |]. cbn. discriminate.
Qed.
End Loops.

(** * What the flows do to the config, and which calls they make *)

Section Summaries.
Import ACCSConfig Built.
Context (env : Env.t) (fuel : nat).

Lemma proposeBTSForBTC_summary s :
  wp (ACCS.proposeBTSForBTC env fuel)
     (fun _ s' =>
        let c := set_timelockBTS (State.config s) (half (timelockBTS (State.config s))) in
        State.config s' = c
        /\ since (State.trace s) (State.trace s') (Forall (Alphabet.proposeBTSForBTC c))) s.
Proof.
  set (c0 := set_timelockBTS (State.config s) (half (timelockBTS (State.config s)))).
  pose proof (since_refl (Forall (Alphabet.proposeBTSForBTC c0)) (State.trace s)
                (Forall_nil _)) as H0.
  unfold ACCS.proposeBTSForBTC, btcCreate, pushTX.
  repeat wp_step; subst c.
  - match goal with |- wp _ _ ?st => set (s1 := st) end.
    eapply wp_conseq.
    + apply proposeBTSForBTC_poll_emits
        with (P := Alphabet.proposeBTSForBTC c0) (t0 := State.trace s);
        try solve [intros; in_alphabet].
      subst s1. extend H0. all_in_alphabet.
    + intros [[success cur] | err |] s' [HC HT]; cbn [lift_post];
        repeat wp_step; (split; [exact HC | extend HT; all_in_alphabet]).
  - split; [reflexivity | extend H0; all_in_alphabet].
Qed.

Lemma proposeBTCForBTS_summary s :
  wp (ACCS.proposeBTCForBTS env fuel)
     (fun _ s' =>
        let c := set_timelockBTC (State.config s) (half (timelockBTC (State.config s))) in
        State.config s' = c
        /\ since (State.trace s) (State.trace s') (Forall (Alphabet.proposeBTCForBTS c))) s.
Proof.
  set (c0 := set_timelockBTC (State.config s) (half (timelockBTC (State.config s)))).
  pose proof (since_refl (Forall (Alphabet.proposeBTCForBTS c0)) (State.trace s)
                (Forall_nil _)) as H0.
  unfold ACCS.proposeBTCForBTS, btsCreate, btcRedeem.
  repeat wp_step; subst c.
  - match goal with |- wp _ _ ?st => set (s1 := st) end.
    eapply wp_conseq.
    + apply proposeBTCForBTS_poll_emits
        with (P := Alphabet.proposeBTCForBTS c0) (t0 := State.trace s);
        try solve [intros; in_alphabet].
      subst s1. extend H0. all_in_alphabet.
    + intros [[txID ttw] | err |] s' [HC HT]; cbn [lift_post];
        repeat wp_step; (split; [exact HC | extend HT; all_in_alphabet]).
  - split; [reflexivity | extend H0; all_in_alphabet].
Qed.

Lemma takeBTSForBTC_summary s :
  wp (ACCS.takeBTSForBTC env fuel)
     (fun o s' =>
        let c := set_timelockBTC (State.config s) (half (timelockBTC (State.config s))) in
        since (State.trace s) (State.trace s')
          (fun new =>
             Forall (Alphabet.takeBTSForBTC c) new
             /\ ((State.config s' = State.config s
                  /\ exists e, new = [BitsharesAPI_getInstance (bitsharesEndpoint c) (Err e)]
                               /\ o = Throw e)
                 \/ State.config s' = c
                 \/ exists p,
                      State.config s' = set_secret_preimage c p
                      /\ In (bitcoinAPI_getPreimageFromLastTransaction (networkName c)
                               (Payment.address (p2wsh_own c)) (Ok (Some p))) new))) s.
Proof.
  set (c0 := set_timelockBTC (State.config s) (half (timelockBTC (State.config s)))).
  pose proof (since_refl (Forall (Alphabet.takeBTSForBTC c0)) (State.trace s)
                (Forall_nil _)) as H0.
  unfold ACCS.takeBTSForBTC, getInstance, btcCreate, pushTX, btsRedeem.
  repeat wp_step.
  2:{ subst c. simpl_trace. eexists. split; [reflexivity |].
      split; [all_in_alphabet |]. left. split; [reflexivity |]. exists e. auto. }
  change (c1 = c0) in Hc0. subst c c1.
  match goal with |- wp _ _ ?st => set (s1 := st) end.
  eapply wp_conseq.
  { apply takeBTSForBTC_wait_emits
      with (P := Alphabet.takeBTSForBTC c0) (t0 := State.trace s);
      try solve [intros; in_alphabet].
    subst s1. extend H0. all_in_alphabet. }
  intros [[id ttw] | err |] s' [HC HT]; cbn [lift_post];
    change (State.config s' = c0) in HC; clearbody s1;
    repeat wp_step;
    try (extend HT; split; [all_in_alphabet | right; left; exact HC]).
  match goal with |- wp _ _ ?st => set (s2 := st) end.
  eapply wp_conseq.
  { apply takeBTSForBTC_poll_emits
      with (P := Alphabet.takeBTSForBTC c0) (t0 := State.trace s);
      try solve [intros; in_alphabet].
    subst s2. extend HT. all_in_alphabet. }
  intros [[pre cur] | err |] s'' [HC2 HT2]; cbn [lift_post];
    change (State.config s'' = State.config s') in HC2; rewrite HC in HC2;
    clearbody s2;
    repeat wp_step;
    try (extend HT2; destruct Hnew as [Hall Hin];
         split; [all_in_alphabet | right; left; exact HC2]).
  all: rewrite HC2 in Hc; subst c.
  all: extend HT2; destruct Hnew as [Hall Hin]; (split; [all_in_alphabet |]).
  all: right; right; eexists; rewrite HC2; (split; [reflexivity |]).
  all: apply in_or_app; left; eapply Hin; reflexivity.
Qed.

Lemma takeBTCForBTS_summary s :
  wp (ACCS.takeBTCForBTS env fuel)
     (fun o s' =>
        let c := set_timelockBTS (State.config s) (half (timelockBTS (State.config s))) in
        since (State.trace s) (State.trace s')
          (fun new =>
             Forall (Alphabet.takeBTCForBTS c) new
             /\ ((State.config s' = State.config s
                  /\ exists e, new = [BitsharesAPI_getInstance (bitsharesEndpoint c) (Err e)]
                               /\ o = Throw e)
                 \/ State.config s' = c
                 \/ exists p,
                      State.config s' = set_secret_preimage c p
                      /\ In (websocket_getPreimageFromHTLC (bitsharesAccountID c)
                               (counterpartyBitsharesAccountID c)
                               (JS.toString_hex (Secret.hash (secret c))) (Ok p)) new))) s.
Proof.
  set (c0 := set_timelockBTS (State.config s) (half (timelockBTS (State.config s)))).
  pose proof (since_refl (Forall (Alphabet.takeBTCForBTS c0)) (State.trace s)
                (Forall_nil _)) as H0.
  unfold ACCS.takeBTCForBTS, getInstance, calculateFee, btsCreate, btcRedeem.
  repeat wp_step.
  2:{ subst c. simpl_trace. eexists. split; [reflexivity |].
      split; [all_in_alphabet |]. left. split; [reflexivity |]. exists e. auto. }
  change (c1 = c0) in Hc0. subst c c1.
  match goal with |- wp _ _ ?st => set (s1 := st) end.
  eapply wp_conseq.
  { apply takeBTCForBTS_wait_emits
      with (P := Alphabet.takeBTCForBTS c0) (t0 := State.trace s);
      try solve [intros; in_alphabet].
    subst s1. extend H0. all_in_alphabet. }
  intros [[[txID value] ttw] | err |] s' [HC HT]; cbn [lift_post];
    change (State.config s' = c0) in HC; clearbody s1;
    repeat wp_step;
    try (extend HT; split; [all_in_alphabet | right; left; exact HC]).
  match goal with |- wp _ _ ?st => set (s2 := st) end.
  eapply wp_conseq.
  { apply takeBTCForBTS_poll_emits
      with (P := Alphabet.takeBTCForBTS c0) (t0 := State.trace s);
      try solve [intros; in_alphabet].
    subst s2. extend HT. all_in_alphabet. }
  intros [[pre ttw'] | err |] s'' [HC2 HT2]; cbn [lift_post];
    change (State.config s'' = State.config s') in HC2; rewrite HC in HC2;
    clearbody s2;
    repeat wp_step;
    try (extend HT2; destruct Hnew as [Hall Hin];
         split; [all_in_alphabet | right; left; exact HC2]).
  all: rewrite HC2 in Hc; subst c.
  all: extend HT2; destruct Hnew as [Hall Hin]; (split; [all_in_alphabet |]).
  all: right; right; eexists; rewrite HC2; (split; [reflexivity |]).
  all: apply in_or_app; left; eapply Hin; [reflexivity | assumption].
Qed.
End Summaries.

Lemma Forall_flat_map {A B} (P : A -> Prop) (Q : B -> Prop) (f : A -> list B) l :
  Forall P l -> (forall a, P a -> Forall Q (f a)) -> Forall Q (flat_map f l).
Proof.
  intros Hall Hf. induction Hall as [| a l Ha _ IH]; simpl.
  - constructor.
  - apply Forall_app. auto.
Qed.

Lemma flat_map_nil {A B} (P : A -> Prop) (f : A -> list B) l :
  Forall P l -> (forall a, P a -> f a = []) -> flat_map f l = [].
Proof.
  intros Hall Hf. induction Hall as [| a l Ha _ IH]; simpl; auto.
  now rewrite (Hf a Ha), IH.
Qed.

Ltac by_alphabet :=
  let e := fresh "e" in let He := fresh "He" in
  intros e He; destruct e; cbn in He |- *;
  try contradiction; try reflexivity; try constructor; try constructor.

(** [Math.round(x / 2)] is [x / 2] rounded up. *)
Lemma half_ceiling (x : Z) : half x = (x + 1) / 2.
Proof.
  unfold half, JS.Math_round, JS.div, Qfloor, Qplus, Qdiv, Qmult, Qinv, inject_Z; cbn.
  replace (x * 1 * 2 + 2) with ((x + 1) * 2) by lia.
  change 4 with (2 * 2). apply Z.div_mul_cancel_r; lia.
Qed.

Lemma half_margin (x : Z) : x - half x = x / 2.
Proof.
  rewrite half_ceiling.
  pose proof (Z.div_mod x 2 ltac:(lia)) as H1.
  pose proof (Z.mod_pos_bound x 2 ltac:(lia)) as H2.
  pose proof (Z.div_mod (x + 1) 2 ltac:(lia)) as H3.
  pose proof (Z.mod_pos_bound (x + 1) 2 ltac:(lia)) as H4.
  lia.
Qed.

(** C1. Each flow halves the timelock of the leg whose party acts second, and
    only that one, before it creates an HTLC: the new value is
    [Math.round(timelock / 2)], which is [(timelock + 1) / 2] rounded down.
    The Bitcoin HTLC of [proposeBTSForBTC] gets the full [timelockBTC] as its
    sequence, the one of [takeBTSForBTC] the halved one; the Bitshares HTLC
    of [proposeBTCForBTS] gets the full [timelockBTS], the one of
    [takeBTCForBTS] the halved one. The two accepter flows connect to the
    Bitshares node first and leave the config alone when that fails. *)
Theorem C1_asymmetric_timelocks (env : Env.t) (fuel : nat) (s : State.t) :
  let c := State.config s in
  (let '(_, s') := ACCS.proposeBTSForBTC env fuel s in
   let new := added (State.trace s) (State.trace s') in
   timelockBTS (State.config s') = (timelockBTS c + 1) / 2
   /\ timelockBTC (State.config s') = timelockBTC c
   /\ Forall (eq (timelockBTC c)) (btcCreate_sequences new)
   /\ btsCreate_times new = [])
  /\ (let '(_, s') := ACCS.takeBTCForBTS env fuel s in
      let new := added (State.trace s) (State.trace s') in
      (timelockBTS (State.config s') = (timelockBTS c + 1) / 2
       \/ (State.config s' = c
           /\ exists e, new = [BitsharesAPI_getInstance (bitsharesEndpoint c) (Err e)]))
      /\ timelockBTC (State.config s') = timelockBTC c
      /\ Forall (eq ((timelockBTS c + 1) / 2)) (btsCreate_times new)
      /\ btcCreate_sequences new = [])
  /\ (let '(_, s') := ACCS.proposeBTCForBTS env fuel s in
      let new := added (State.trace s) (State.trace s') in
      timelockBTC (State.config s') = (timelockBTC c + 1) / 2
      /\ timelockBTS (State.config s') = timelockBTS c
      /\ Forall (eq (timelockBTS c)) (btsCreate_times new)
      /\ btcCreate_sequences new = [])
  /\ (let '(_, s') := ACCS.takeBTSForBTC env fuel s in
      let new := added (State.trace s) (State.trace s') in
      (timelockBTC (State.config s') = (timelockBTC c + 1) / 2
       \/ (State.config s' = c
           /\ exists e, new = [BitsharesAPI_getInstance (bitsharesEndpoint c) (Err e)]))
      /\ timelockBTS (State.config s') = timelockBTS c
      /\ Forall (eq ((timelockBTC c + 1) / 2)) (btcCreate_sequences new)
      /\ btsCreate_times new = []).
Proof.
  intros c. rewrite <- !half_ceiling. repeat split.
  - pose proof (wp_elim _ _ _ (proposeBTSForBTC_summary env fuel s)) as H.
    destruct (ACCS.proposeBTSForBTC env fuel s) as [o s']. cbv zeta in H.
    destruct H as [HC HT]. apply since_added in HT as [_ Hall].
    rewrite HC. repeat split.
    + eapply Forall_flat_map; [exact Hall |]. by_alphabet. now destruct He as [_ ->].
    + eapply flat_map_nil; [exact Hall |]. by_alphabet.
  - pose proof (wp_elim _ _ _ (takeBTCForBTS_summary env fuel s)) as H.
    destruct (ACCS.takeBTCForBTS env fuel s) as [o s']. cbv zeta in H.
    apply since_added in H as [_ [Hall HC]]. repeat split.
    + destruct HC as [[HC [e [Hnew _]]] | [HC | [p [HC _]]]]; rewrite HC; auto.
      right. split; [reflexivity |]. exists e. exact Hnew.
    + destruct HC as [[HC _] | [HC | [p [HC _]]]]; rewrite HC; reflexivity.
    + eapply Forall_flat_map; [exact Hall |]. by_alphabet. now destruct He as [_ ->].
    + eapply flat_map_nil; [exact Hall |]. by_alphabet.
  - pose proof (wp_elim _ _ _ (proposeBTCForBTS_summary env fuel s)) as H.
    destruct (ACCS.proposeBTCForBTS env fuel s) as [o s']. cbv zeta in H.
    destruct H as [HC HT]. apply since_added in HT as [_ Hall].
    rewrite HC. repeat split.
    + eapply Forall_flat_map; [exact Hall |]. by_alphabet. now destruct He as [_ ->].
    + eapply flat_map_nil; [exact Hall |]. by_alphabet.
  - pose proof (wp_elim _ _ _ (takeBTSForBTC_summary env fuel s)) as H.
    destruct (ACCS.takeBTSForBTC env fuel s) as [o s']. cbv zeta in H.
    apply since_added in H as [_ [Hall HC]]. repeat split.
    + destruct HC as [[HC [e [Hnew _]]] | [HC | [p [HC _]]]]; rewrite HC; auto.
      right. split; [reflexivity |]. exists e. exact Hnew.
    + destruct HC as [[HC _] | [HC | [p [HC _]]]]; rewrite HC; reflexivity.
    + eapply Forall_flat_map; [exact Hall |]. by_alphabet. now destruct He as [_ ->].
    + eapply flat_map_nil; [exact Hall |]. by_alphabet.
Qed.

(** C7 (amended). No flow ever assigns [config.secret.hash]. The two proposer
    flows leave [config.secret] as it is. The two accepter flows assign
    [config.secret.preimage] and nothing else of the secret, and only with a
    preimage that the chain adapter returned during the flow. *)
Theorem C7_secret_hash_never_assigned (env : Env.t) (fuel : nat) (s : State.t) :
  let c := State.config s in
  secret (State.config (snd (ACCS.proposeBTSForBTC env fuel s))) = secret c
  /\ secret (State.config (snd (ACCS.proposeBTCForBTS env fuel s))) = secret c
  /\ (let s' := snd (ACCS.takeBTSForBTC env fuel s) in
      Secret.hash (secret (State.config s')) = Secret.hash (secret c)
      /\ (secret (State.config s') = secret c
          \/ exists p n a,
               secret (State.config s') = Secret.set_preimage (secret c) p
               /\ In (bitcoinAPI_getPreimageFromLastTransaction n a (Ok (Some p)))
                     (added (State.trace s) (State.trace s'))))
  /\ (let s' := snd (ACCS.takeBTCForBTS env fuel s) in
      Secret.hash (secret (State.config s')) = Secret.hash (secret c)
      /\ (secret (State.config s') = secret c
          \/ exists p sender receiver hashHex,
               secret (State.config s') = Secret.set_preimage (secret c) p
               /\ In (websocket_getPreimageFromHTLC sender receiver hashHex (Ok p))
                     (added (State.trace s) (State.trace s')))).
Proof.
  intros c. split; [| split; [| split]].
  - pose proof (proposeBTSForBTC_summary env fuel s) as H. unfold wp in H.
    destruct H as [HC _]. rewrite HC. reflexivity.
  - pose proof (proposeBTCForBTS_summary env fuel s) as H. unfold wp in H.
    destruct H as [HC _]. rewrite HC. reflexivity.
  - pose proof (takeBTSForBTC_summary env fuel s) as H. unfold wp in H.
    cbv zeta in H |- *. apply since_added in H as [_ [_ HC]].
    destruct HC as [[HC _] | [HC | [p [HC Hin]]]]; rewrite HC.
    + split; [reflexivity | left; reflexivity].
    + split; [reflexivity | left; reflexivity].
    + split; [reflexivity | right]. exists p. do 2 eexists. split; [reflexivity | exact Hin].
  - pose proof (takeBTCForBTS_summary env fuel s) as H. unfold wp in H.
    cbv zeta in H |- *. apply since_added in H as [_ [_ HC]].
    destruct HC as [[HC _] | [HC | [p [HC Hin]]]]; rewrite HC.
    + split; [reflexivity | left; reflexivity].
    + split; [reflexivity | left; reflexivity].
    + split; [reflexivity | right]. exists p. do 3 eexists. split; [reflexivity | exact Hin].
Qed.

(** C7, as stated, fails: the accepter who gives BTS starts with a hash-only
    secret and ends with the preimage written into [config.secret]. *)
Lemma C7_accepter_assigns_preimage :
  let s := State.start Sample.accepter_BTS in
  let s' := snd (ACCS.takeBTCForBTS Sample.env_prompt 10 s) in
  Secret.preimage (secret (State.config s)) = None
  /\ Secret.preimage (secret (State.config s')) = Some "p"
  /\ secret (State.config s') <> secret (State.config s).
Proof. vm_compute. repeat split. discriminate. Qed.

Lemma In_flat_map_Forall {A B} (P : A -> Prop) (f : A -> list B) l b :
  In b (flat_map f l) -> Forall P l -> exists a, P a /\ In b (f a).
Proof.
  intros Hin Hall. apply in_flat_map in Hin as (a & Ha & Hb).
  exists a. split; [| exact Hb]. rewrite Forall_forall in Hall. auto.
Qed.

Lemma funded_by_own (P : Event -> Prop) c new funded :
  (forall h config r, P (BitcoinHTLC_create h config r) ->
                      h = htlcBTC_own c /\ config = configBTC c) ->
  Forall P new -> In funded (funded_p2wsh new) -> funded = p2wsh_own c.
Proof.
  intros HP Hall Hin.
  destruct (In_flat_map_Forall P _ _ _ Hin Hall) as (e & He & Hf).
  destruct e; cbn in Hf; try contradiction.
  destruct Hf as [<- | []]. destruct (HP _ _ _ He) as [-> ->]. reflexivity.
Qed.

Lemma watched_of_counterparty (P : Event -> Prop) c new watched :
  (forall n a r, P (bitcoinAPI_getValueFromLastTransaction n a r) ->
                 a = Payment.address (p2wsh_watched c)) ->
  Forall P new -> In watched (watched_addresses new) ->
  watched = Payment.address (p2wsh_watched c).
Proof.
  intros HP Hall Hin.
  destruct (In_flat_map_Forall P _ _ _ Hin Hall) as (e & He & Hf).
  destruct e; cbn in Hf; try contradiction.
  destruct Hf as [<- | []]. now apply HP in He.
Qed.

(** The P2WSH one party watches against the P2WSH the other funds. *)
Lemma watched_agrees_with_own (cW cF : ACCSConfig.t) :
  Secret.hash (secret cW) = Secret.hash (secret cF) ->
  timelockBTC cW = timelockBTC cF ->
  ECPair.publicKey (counterpartyKeyPairCompressedBTC cW)
    = ECPair.publicKey (keyPairCompressedBTC cF) ->
  ECPair.publicKey (keyPairCompressedBTC cW)
    = ECPair.publicKey (counterpartyKeyPairCompressedBTC cF) ->
  Payment.P2WSH_output (address_script (Payment.address (p2wsh_watched cW)))
    = Payment.output (p2wsh_own cF)
  /\ (networkName cW = networkName cF ->
      Payment.address (p2wsh_watched cW) = Payment.address (p2wsh_own cF)).
Proof.
  intros Hh Ht Hk1 Hk2.
  unfold p2wsh_watched, p2wsh_own, BitcoinHTLC.getP2WSH, BitcoinHTLC.redeemScript,
    htlcBTC_counterparty, htlcBTC_own. cbn.
  rewrite Hh, Ht, Hk1, Hk2. split; [reflexivity |]. now intros ->.
Qed.

(** C10. When the two configs agree on the secret hash, on [timelockBTC] as
    parsed, and on the Bitcoin public keys with the roles swapped, the P2WSH
    whose address [takeBTCForBTS] polls is the P2WSH that [proposeBTSForBTC]
    funds, built with the full [timelockBTC]; and the P2WSH whose address
    [proposeBTCForBTS] polls is the P2WSH that [takeBTSForBTC] funds, built by
    both with [Math.round(timelockBTC / 2)]. The scripts coincide; the
    addresses coincide as soon as both parties name the same network. *)
Theorem C10_watched_p2wsh_is_funded_p2wsh
    (cP cA : ACCSConfig.t)
    (Hhash : Secret.hash (secret cP) = Secret.hash (secret cA))
    (Htimelock : timelockBTC cP = timelockBTC cA)
    (Hproposer : ECPair.publicKey (keyPairCompressedBTC cP)
                 = ECPair.publicKey (counterpartyKeyPairCompressedBTC cA))
    (Haccepter : ECPair.publicKey (counterpartyKeyPairCompressedBTC cP)
                 = ECPair.publicKey (keyPairCompressedBTC cA))
    (envP envA : Env.t) (fuelP fuelA : nat) (tP tA : Trace) :
  let sP := {| State.config := cP; State.trace := tP |} in
  let sA := {| State.config := cA; State.trace := tA |} in
  let agree (watched : Payment.Address) (funded : Payment.t) :=
    Payment.P2WSH_output (address_script watched) = Payment.output funded
    /\ (networkName cP = networkName cA -> watched = Payment.address funded) in
  (forall watched funded,
     In watched (watched_addresses
                   (added tA (State.trace (snd (ACCS.takeBTCForBTS envA fuelA sA))))) ->
     In funded (funded_p2wsh
                  (added tP (State.trace (snd (ACCS.proposeBTSForBTC envP fuelP sP))))) ->
     agree watched funded
     /\ funded = BitcoinHTLC.getP2WSH (htlcBTC_own cP) (Secret.hash (secret cP))
                                      (timelockBTC cP))
  /\ (forall watched funded,
        In watched (watched_addresses
                      (added tP (State.trace (snd (ACCS.proposeBTCForBTS envP fuelP sP))))) ->
        In funded (funded_p2wsh
                     (added tA (State.trace (snd (ACCS.takeBTSForBTC envA fuelA sA))))) ->
        agree watched funded
        /\ funded = BitcoinHTLC.getP2WSH (htlcBTC_own cA) (Secret.hash (secret cA))
                                         (half (timelockBTC cA))).
Proof.
  intros sP sA agree. split; intros watched funded Hw Hf.
  - pose proof (takeBTCForBTS_summary envA fuelA sA) as HA. unfold wp in HA.
    apply since_added in HA as [_ [HallA _]].
    pose proof (proposeBTSForBTC_summary envP fuelP sP) as HP. unfold wp in HP.
    destruct HP as [_ HP]. apply since_added in HP as [_ HallP].
    cbv zeta in HallA, HallP. cbn [State.config State.trace sP sA] in *.
    eapply watched_of_counterparty in Hw; [| | exact HallA];
      [| intros n a r Hev; exact (proj2 Hev)].
    eapply funded_by_own in Hf; [| | exact HallP]; [| intros h config r Hev; exact Hev].
    subst watched funded. split; [| reflexivity].
    unfold agree.
    destruct (watched_agrees_with_own
                (set_timelockBTS cA (half (timelockBTS cA)))
                (set_timelockBTS cP (half (timelockBTS cP)))) as [H1 H2]; cbn; auto;
      try (split; [exact H1 | intros Hn; apply H2; cbn; auto]).
  - pose proof (proposeBTCForBTS_summary envP fuelP sP) as HP. unfold wp in HP.
    destruct HP as [_ HP]. apply since_added in HP as [_ HallP].
    pose proof (takeBTSForBTC_summary envA fuelA sA) as HA. unfold wp in HA.
    apply since_added in HA as [_ [HallA _]].
    cbv zeta in HallA, HallP. cbn [State.config State.trace sP sA] in *.
    eapply watched_of_counterparty in Hw; [| | exact HallP];
      [| intros n a r Hev; exact (proj2 Hev)].
    eapply funded_by_own in Hf; [| | exact HallA]; [| intros h config r Hev; exact Hev].
    subst watched funded. split; [| reflexivity].
    unfold agree.
    destruct (watched_agrees_with_own
                (set_timelockBTC cP (half (timelockBTC cP)))
                (set_timelockBTC cA (half (timelockBTC cA)))) as [H1 H2]; cbn; auto;
      try (now rewrite Htimelock);
      try (split; [exact H1 | intros Hn; apply H2; cbn; auto]).
Qed.

(** C10 at the sample configs, where both parties see the counterparty act
    at once: the polled address and the funded P2WSH exist and agree. *)
Lemma C10_witness :
  let sP := State.start Sample.proposer_BTC in
  let sA := State.start Sample.accepter_BTS in
  let watched := Payment.address (p2wsh_watched Sample.accepter_BTS) in
  let funded := p2wsh_own Sample.proposer_BTC in
  In watched (watched_addresses
                (State.trace (snd (ACCS.takeBTCForBTS Sample.env_prompt 10 sA))))
  /\ In funded (funded_p2wsh
                  (State.trace (snd (ACCS.proposeBTSForBTC Sample.env_prompt 10 sP))))
  /\ Payment.P2WSH_output (address_script watched) = Payment.output funded
  /\ watched = Payment.address funded.
Proof.
  intros sP sA watched funded.
  assert (Hw : In watched (watched_addresses
                (State.trace (snd (ACCS.takeBTCForBTS Sample.env_prompt 10 sA)))))
    by (vm_compute; auto).
  assert (Hf : In funded (funded_p2wsh
                  (State.trace (snd (ACCS.proposeBTSForBTC Sample.env_prompt 10 sP)))))
    by (vm_compute; auto).
  split; [exact Hw |]. split; [exact Hf |].
  destruct (C10_watched_p2wsh_is_funded_p2wsh Sample.proposer_BTC Sample.accepter_BTS
              eq_refl eq_refl eq_refl eq_refl Sample.env_prompt Sample.env_prompt
              10%nat 10%nat [] []) as [H _].
  destruct (H watched funded Hw Hf) as [[Hout Haddr] _].
  split; [exact Hout | exact (Haddr eq_refl)].
Defined.

(** What [parseUserInput] does, in full. *)
Lemma parseUserInput_spec (env : Env.t) (fields : ACCSFields.t) (t : Trace) :
  wp (ACCS.parseUserInput env fields)
     (fun o t' =>
        (exists r rest,
           t' = (t ++ BitsharesAPI_getInstance
                        (endpoint_of (ACCSFields.networkToTrade fields)) r :: rest)%list)
        /\ match o with
           | Return config =>
               (if String.eqb (ACCSFields.currencyToGive fields) "BTC"
                then amountSatoshi config
                       = rounded_product (ACCSFields.amountToSend fields) (10 ^ 8)
                     /\ amountBTSMini config
                       = rounded_product (ACCSFields.amountToReceive fields) (10 ^ 5)
                else amountSatoshi config
                       = rounded_product (ACCSFields.amountToReceive fields) (10 ^ 8)
                     /\ amountBTSMini config
                       = rounded_product (ACCSFields.amountToSend fields) (10 ^ 5))
               /\ mode config = ACCSFields.mode fields
               /\ type config = ACCSFields.currencyToGive fields
               /\ priority config = ACCSFields.priority fields
               /\ networkName config = ACCSFields.networkToTrade fields
               /\ network config = network_of (ACCSFields.networkToTrade fields)
               /\ bitsharesEndpoint config = endpoint_of (ACCSFields.networkToTrade fields)
               /\ timelockBTC config = 6
               /\ checkAPIInterval config = 4
               /\ secret config = ACCSFields.secret fields
           | Throw e =>
               (exists before ev, t' = (before ++ [ev])%list /\ rejection ev = Some e)
               \/ key_rejected env fields e
           | OutOfFuel => False
           end) t.
Proof.
  unfold ACCS.parseUserInput, getInstance, toAccountID, getAccountID,
    Timer.toBTS, key_rejected, endpoint_of, network_of.
  destruct (String.eqb (ACCSFields.networkToTrade fields) "mainnet");
    destruct (String.eqb (ACCSFields.currencyToGive fields) "BTC");
    repeat wp_step;
    (split; [simpl_trace; do 2 eexists; reflexivity |]);
    try (cbn [amountSatoshi amountBTSMini mode type priority networkName network
              bitsharesEndpoint timelockBTC checkAPIInterval secret];
         rewrite (Math_round_mul _ JS.lit_10e7 (10 ^ 8) eq_refl),
                 (Math_round_mul _ JS.lit_10e4 (10 ^ 5) eq_refl);
         repeat split; reflexivity);
    try (left; do 2 eexists; split; [reflexivity | reflexivity]);
    right; eauto.
Qed.

(** The requests of [parseUserInput], and what it keeps of their answers. *)
Lemma parseUserInput_trace (env : Env.t) (fields : ACCSFields.t) (t : Trace) :
  wp (ACCS.parseUserInput env fields)
     (fun o t' =>
        exists new, t' = (t ++ new)%list
        /\ match o with
           | Return config =>
               new = parse_requests fields (bitsharesAccountID config)
                       (counterpartyBitsharesAccountID config) (timelockBTS config)
               /\ keys_accepted env fields (keyPairCompressedBTC config)
                    (counterpartyKeyPairCompressedBTC config)
               /\ bitsharesPrivateKey config = ACCSFields.bitsharesPrivateKey fields
               /\ bitcoinTxID config = ACCSFields.bitcoinTxID fields
               /\ bitsharesAsset config = asset_of (ACCSFields.networkToTrade fields)
           | Throw e =>
               exists oks,
                 Forall not_rejected oks
                 /\ ((exists ev, new = (oks ++ [ev])%list /\ rejection ev = Some e
                                 /\ (length oks <= 3)%nat
                                 /\ (length oks = 3%nat ->
                                     exists own counterparty,
                                       keys_accepted env fields own counterparty))
                     \/ (new = oks /\ length oks = 3%nat
                         /\ first_key_rejection env fields e))
           | OutOfFuel => False
           end) t.
Proof.
  unfold parse_requests, ACCS.parseUserInput, getInstance, toAccountID, getAccountID,
    Timer.toBTS, first_key_rejection, keys_accepted, endpoint_of, network_of, asset_of.
  destruct (String.eqb (ACCSFields.networkToTrade fields) "mainnet");
    destruct (String.eqb (ACCSFields.currencyToGive fields) "BTC");
    repeat wp_step; simpl_trace; (eexists; split; [reflexivity |]);
    repeat match goal with u : unit |- _ => destruct u end.
  all: try (cbn; repeat split; eauto; fail).
  all: first
    [ solve [ match goal with
              | |- exists oks, _ /\ ((exists ev, ?l = _ /\ _) \/ _) =>
                  exists (removelast l); cbn [removelast]; split;
                  [ repeat constructor
                  | left; exists (last l (setTimeout 0)); cbn [last];
                    repeat split; try reflexivity; try (cbn; lia);
                    cbn; intros; try discriminate; eauto 10 ]
              end ]
    | solve [ match goal with
              | |- exists oks, _ /\ (_ \/ (?l = _ /\ _)) =>
                  exists l; split;
                  [ repeat constructor
                  | right; repeat split; try reflexivity; eauto 10 ]
              end ] ].
Qed.


(** The two units are exact as numbers. *)
Lemma unit_satoshi :
  (JS.value (binary_normalize 53 1024 (10 ^ 8) 0 false) == inject_Z (10 ^ 8))%Q.
Proof. reflexivity. Qed.

Lemma unit_BTSMini :
  (JS.value (binary_normalize 53 1024 (10 ^ 5) 0 false) == inject_Z (10 ^ 5))%Q.
Proof. reflexivity. Qed.

(** C8. Whenever [parseUserInput] returns a config, its [amountSatoshi] is
    [Math.round(a * 10^8)] and its [amountBTSMini] is [Math.round(b * 10^5)],
    where [a] is the Bitcoin amount and [b] the Bitshares amount of the
    input: ([amountToSend], [amountToReceive]) when [currencyToGive] is
    ["BTC"], ([amountToReceive], [amountToSend]) otherwise. The products are
    the binary64 products of IEEE 754, taken to be finite; each amount is
    therefore within [1/2 + |p| * 2^-53] of the exact product [p] of the
    number given and its unit. [parseUserInput] returns unless an adapter
    call or a key helper throws, and never runs out of fuel. *)
Theorem C8_parseUserInput_amounts (env : Env.t) (fields : ACCSFields.t) (t : Trace)
    (Ha : product_is_finite (amountBTC fields) (10 ^ 8))
    (Hb : product_is_finite (amountBTS fields) (10 ^ 5)) :
  let '(o, t') := ACCS.parseUserInput env fields t in
  match o with
  | Return config =>
      amountSatoshi config = rounded_product (amountBTC fields) (10 ^ 8)
      /\ amountBTSMini config = rounded_product (amountBTS fields) (10 ^ 5)
      /\ within_rounding (JS.value (amountBTC fields) * inject_Z (10 ^ 8))
                         (amountSatoshi config)
      /\ within_rounding (JS.value (amountBTS fields) * inject_Z (10 ^ 5))
                         (amountBTSMini config)
  | Throw e =>
      (exists before ev, t' = (before ++ [ev])%list /\ rejection ev = Some e)
      \/ key_rejected env fields e
  | OutOfFuel => False
  end.
Proof.
  pose proof (wp_elim _ _ _ (parseUserInput_spec env fields t)) as H.
  destruct (ACCS.parseUserInput env fields t) as [[config | e |] t'];
    destruct H as [_ H]; auto.
  destruct H as [H _]. unfold amountBTC, amountBTS in *.
  destruct (String.eqb (ACCSFields.currencyToGive fields) "BTC");
    destruct H as [-> ->]; repeat split;
    first [ apply (rounded_product_within _ _ unit_satoshi Ha)
          | apply (rounded_product_within _ _ unit_BTSMini Hb) ].
Qed.

(** C8 on an input: half a bitcoin against 25000 BTS. *)
Lemma C8_witness :
  match fst (ACCS.parseUserInput Sample.env_prompt Sample.fields_unvalidated []) with
  | Return config => amountSatoshi config = 50000000 /\ amountBTSMini config = 2500000000
  | _ => False
  end.
Proof.
  pose proof (C8_parseUserInput_amounts Sample.env_prompt Sample.fields_unvalidated []
                eq_refl eq_refl) as H.
  destruct (ACCS.parseUserInput Sample.env_prompt Sample.fields_unvalidated [])
    as [[config | e |] t'] eqn:E; cbn [fst]; try (vm_compute in E; discriminate E).
  destruct H as (-> & -> & _). split; reflexivity.
Defined.

(** At a half unit the binary64 product decides. The literal [1.5e-8] times
    [10e7] is 1.4999999999999998 and gives 1 satoshi; the literal [2.5e-8]
    stands for a number below 2.5e-8, whose exact product rounds to 2, and
    yet its binary64 product is 2.5 and gives 3 satoshi; [0.000155] BTS
    gives 16 units. *)
Example rounded_product_at_half_units :
  rounded_product (Sample.decimal 15 9) (10 ^ 8) = 1
  /\ rounded_product (Sample.decimal 25 9) (10 ^ 8) = 3
  /\ JS.Math_round (JS.value (Sample.decimal 25 9) * inject_Z (10 ^ 8)) = 2
  /\ rounded_product (Sample.decimal 155 6) (10 ^ 5) = 16.
Proof. vm_compute. auto. Qed.

(** Every flow only appends to the trace. *)
Lemma dispatch_extends (env : Env.t) (fuel : nat) (s : State.t) :
  wp (ACCS.dispatch env fuel) (fun _ s' => since (State.trace s) (State.trace s') (fun _ => True)) s.
Proof.
  unfold ACCS.dispatch. repeat wp_step.
  - eapply wp_conseq; [apply proposeBTSForBTC_summary |].
    intros o s' [_ H]. apply since_same with (1 := H). intros; exact I.
  - eapply wp_conseq; [apply proposeBTCForBTS_summary |].
    intros o s' [_ H]. apply since_same with (1 := H). intros; exact I.
  - eapply wp_conseq; [apply takeBTSForBTC_summary |].
    intros o s' H. apply since_same with (1 := H). intros; exact I.
  - eapply wp_conseq; [apply takeBTCForBTS_summary |].
    intros o s' H. apply since_same with (1 := H). intros; exact I.
  - apply since_refl. exact I.
Qed.

Lemma dispatch_unknown_mode (env : Env.t) (fuel : nat) (s : State.t) :
  mode (State.config s) <> "proposer" ->
  mode (State.config s) <> "accepter" ->
  ACCS.dispatch env fuel s = (Return tt, s).
Proof.
  intros Hp Ha. apply String.eqb_neq in Hp, Ha.
  unfold ACCS.dispatch, bind, get_config. rewrite Hp, Ha, !andb_false_r. reflexivity.
Qed.


(** C9 (amended). [run] validates none of [networkToTrade], [priority] and
    [mode]. On every input its first action is to open the WebSocket
    connection to a Bitshares node: the mainnet node for ["mainnet"], the
    testnet node for every other network name. When parsing succeeds it has
    made the chain queries of [parseUserInput] with the network name as
    given, the config carries network name, priority and mode exactly as
    given, and a mode that is neither ["proposer"] nor ["accepter"] makes
    [run] return normally without starting a flow. Parsing throws only when
    an adapter call or a key helper throws, [run] then throws the same error
    after no further call, and parsing does nothing else. *)
Theorem C9_run_does_not_validate (env : Env.t) (fuel : nat) (fields : ACCSFields.t)
    (t : Trace) :
  let '(o, t', final) := ACCS.run env fuel fields t in
  (exists r rest,
     t' = (t ++ BitsharesAPI_getInstance
                  (endpoint_of (ACCSFields.networkToTrade fields)) r :: rest)%list)
  /\ (forall config tp,
        ACCS.parseUserInput env fields t = (Return config, tp) ->
        networkName config = ACCSFields.networkToTrade fields
        /\ priority config = ACCSFields.priority fields
        /\ mode config = ACCSFields.mode fields
        /\ (ACCSFields.mode fields <> "proposer" ->
            ACCSFields.mode fields <> "accepter" ->
            o = Return tt /\ t' = tp /\ final = Some config))
  /\ (forall config tp,
        ACCS.parseUserInput env fields t = (Return config, tp) ->
        tp = (t ++ parse_requests fields (bitsharesAccountID config)
                     (counterpartyBitsharesAccountID config) (timelockBTS config))%list)
  /\ (forall e tp,
        ACCS.parseUserInput env fields t = (Throw e, tp) ->
        o = Throw e /\ t' = tp /\ final = None
        /\ ((exists before ev, tp = (before ++ [ev])%list /\ rejection ev = Some e)
            \/ key_rejected env fields e))
  /\ fst (ACCS.parseUserInput env fields t) <> OutOfFuel.
Proof.
  unfold ACCS.run.
  pose proof (wp_elim _ _ _ (parseUserInput_spec env fields t)) as H.
  pose proof (wp_elim _ _ _ (parseUserInput_trace env fields t)) as Htrace.
  destruct (ACCS.parseUserInput env fields t) as [[config | e |] tp];
    destruct H as [(r & rest & Htp) H].
  - pose proof (wp_elim _ _ _ (dispatch_extends env fuel
                                 {| State.config := config; State.trace := tp |})) as Hd.
    destruct H as (_ & Hmode & _ & Hprio & Hname & _).
    destruct (ACCS.dispatch env fuel {| State.config := config; State.trace := tp |})
      as [o s'] eqn:Hdis.
    cbn [State.trace] in Hd. destruct Hd as (new & Hs' & _).
    split; [| split; [| split; [| split]]].
    + exists r, (rest ++ new)%list. rewrite Hs', Htp, <- app_assoc. reflexivity.
    + intros config0 tp0 [= <- <-]. repeat split; auto.
      all: rewrite <- Hmode in *; rewrite dispatch_unknown_mode in Hdis by assumption.
      all: now inversion Hdis.
    + intros config0 tp0 [= <- <-]. destruct Htrace as (parsed & -> & -> & _). reflexivity.
    + intros e tp0 [=].
    + discriminate.
  - split; [eauto |]. split; [intros config0 tp0 [=] |]. split; [intros config0 tp0 [=] |].
    split; [| discriminate]. intros e0 tp0 [= <- <-]. auto.
  - contradiction.
Qed.

(** C9, as stated, fails: with network ["regtest"], priority 7 and mode
    ["observer"], [run] connects to the testnet node, queries the chains
    three more times, and returns without any error. *)
Lemma C9_unvalidated_input_reaches_the_chain :
  let '(o, t', final) := ACCS.run Sample.env_prompt 10 Sample.fields_unvalidated [] in
  o = Return tt
  /\ t' = [ BitsharesAPI_getInstance "wss://testnet.dex.trading/" (Ok tt);
            websocket_toAccountID "k" "regtest" (Ok "1.2.1");
            websocket_getAccountID "alice" (Ok "1.2.2");
            timer_toBTS "regtest" (Ok 3600) ]
  /\ option_map networkName final = Some "regtest"
  /\ option_map priority final = Some 7
  /\ option_map mode final = Some "observer".
Proof. vm_compute. repeat split. Qed.

(** C9 (amended) on that input. *)
Lemma C9_witness :
  fst (fst (ACCS.run Sample.env_prompt 10 Sample.fields_unvalidated [])) = Return tt
  /\ ACCSFields.mode Sample.fields_unvalidated <> "proposer"
  /\ ACCSFields.mode Sample.fields_unvalidated <> "accepter".
Proof.
  pose proof (C9_run_does_not_validate Sample.env_prompt 10 Sample.fields_unvalidated [])
    as H.
  destruct (ACCS.run Sample.env_prompt 10 Sample.fields_unvalidated [])
    as [[o t'] final].
  destruct H as [_ [H _]].
  destruct (ACCS.parseUserInput Sample.env_prompt Sample.fields_unvalidated [])
    as [[config | e |] tp] eqn:Hparse; try (vm_compute in Hparse; discriminate).
  destruct (H config tp eq_refl) as (_ & _ & _ & Hrun).
  assert (Hp : ACCSFields.mode Sample.fields_unvalidated <> "proposer")
    by (vm_compute; discriminate).
  assert (Ha : ACCSFields.mode Sample.fields_unvalidated <> "accepter")
    by (vm_compute; discriminate).
  destruct (Hrun Hp Ha) as [Ho _]. cbn [fst]. auto.
Defined.

Ltac obs :=
  unfold refund_hexes, broadcasts, bts_redeemed, preimage_extracted, btc_poll_rejected in *;
  rewrite ?flat_map_app, ?existsb_app in *;
  cbn [flat_map existsb app] in *;
  rewrite ?app_nil_r, ?orb_false_r in *.

Lemma proposeBTSForBTC_refund (env : Env.t) (fuel : nat) (s : State.t) :
  wp (ACCS.proposeBTSForBTC env fuel)
     (fun o s' => since (State.trace s) (State.trace s')
                    (fun new => refund_after_timeout o new (bts_redeemed new))) s.
Proof.
  unfold ACCS.proposeBTSForBTC, btcCreate, pushTX.
  repeat wp_step.
  2:{ simpl_trace. eexists. split; [reflexivity |]. split; [reflexivity |].
      intros refundHex [=]. }
  rename s0 into refundHex.
  match goal with |- wp _ _ ?st => set (s1 := st) end.
  unfold ACCS.proposeBTSForBTC_poll.
  apply wp_while with
    (I := fun l s' =>
       since (State.trace s) (State.trace s')
         (fun new => refund_hexes new = [refundHex] /\ broadcasts new = []
                     /\ bts_redeemed new = fst l /\ btc_poll_rejected new = false)).
  - intros [success cur] s' HT _. cbn [lift_post fst] in *.
    repeat wp_step.
    + extend HT. destruct Hnew as (Hr & Hb & Hs & Hp). apply negb_true_iff in Heqb. subst success.
      split.
      * obs. rewrite Hs. discriminate.
      * intros hex Hhex _ _ _. split; [reflexivity |].
        exists new. do 2 eexists. obs. rewrite Hr in Hhex. injection Hhex as <-. auto.
    + extend HT. destruct Hnew as (Hr & Hb & Hs & Hp). apply negb_true_iff in Heqb. subst success.
      split.
      * obs. rewrite Hs. discriminate.
      * intros hex Hhex _ _ _. split; [reflexivity |].
        exists new. do 2 eexists. obs. rewrite Hr in Hhex. injection Hhex as <-. auto.
    + extend HT. destruct Hnew as (Hr & Hb & Hs & Hp). apply negb_false_iff in Heqb. subst success.
      split; [auto |]. intros hex _ Hno. congruence.
  - intros l s' HT _. extend HT. destruct Hnew as (Hr & Hb & Hs & Hp).
    split; [auto |]. intros hex _ _ _ [=].
  - intros [success cur] s' HT Hcond.
    unfold ACCS.proposeBTSForBTC_cond in Hcond. apply andb_prop in Hcond as [Hsucc _].
    apply negb_true_iff in Hsucc. subst success.
    unfold ACCS.proposeBTSForBTC_body, btsRedeem, getLastBlock_height.
    repeat wp_step; extend HT; destruct Hnew as (Hr & Hb & Hs & Hp); cbn [fst] in *.
    + obs. rewrite Hr, Hb, Hs, Hp. repeat split. destruct r as [[|] | err]; reflexivity.
    + split.
      * intros _. obs. now rewrite Hb.
      * intros hex _ _ Hrej. obs. rewrite orb_true_r in Hrej. discriminate.
  - subst s1. simpl_trace. eexists. split; [reflexivity |]. cbn. auto.
Qed.

Lemma takeBTSForBTC_refund (env : Env.t) (fuel : nat) (s : State.t) :
  wp (ACCS.takeBTSForBTC env fuel)
     (fun o s' => since (State.trace s) (State.trace s')
                    (fun new => refund_after_timeout o new (preimage_extracted new))) s.
Proof.
  unfold ACCS.takeBTSForBTC, getInstance, btcCreate, pushTX, btsRedeem.
  repeat wp_step.
  2:{ simpl_trace. eexists. split; [reflexivity |]. split; [reflexivity |].
      intros refundHex [=]. }
  match goal with |- wp _ _ ?st => set (s1 := st) end.
  eapply wp_conseq.
  { unfold ACCS.takeBTSForBTC_wait.
    apply wp_while with
      (I := fun (_ : string * Z) s' =>
         since (State.trace s) (State.trace s')
           (fun new => refund_hexes new = [] /\ broadcasts new = []
                       /\ preimage_extracted new = false
                       /\ btc_poll_rejected new = false))
      (Q := fun (_ : Outcome (string * Z)) s' =>
         since (State.trace s) (State.trace s')
           (fun new => refund_hexes new = [] /\ broadcasts new = []
                       /\ preimage_extracted new = false
                       /\ btc_poll_rejected new = false));
      try (intros; assumption).
    - intros [id ttw] s' HT _.
      unfold ACCS.takeBTSForBTC_wait_body, getID.
      repeat wp_step. extend HT. destruct Hnew as (Hr & Hb & Hp & Hj). obs.
      now rewrite Hr, Hb, Hp, Hj.
    - subst s1. simpl_trace. eexists. split; [reflexivity |]. cbn. auto. }
  clearbody s1.
  intros [[id ttw] | err |] s' HT; cbn [lift_post]; repeat wp_step;
    try (extend HT; destruct Hnew as (Hr & Hb & Hp & Hj); split;
         [intros _; obs; now rewrite ?Hb | intros hex Hhex; obs; rewrite Hr in Hhex; discriminate]).
  rename s0 into refundHex.
  match goal with |- wp _ _ ?st => set (s2 := st) end.
  unfold ACCS.takeBTSForBTC_poll.
  apply wp_while with
    (I := fun l s'' =>
       since (State.trace s) (State.trace s'')
         (fun new => refund_hexes new = [refundHex] /\ broadcasts new = []
                     /\ preimage_extracted new = negb (ACCS.is_null (fst l))
                     /\ btc_poll_rejected new = false)).
  - intros [pre cur] s'' HT2 _. cbn [lift_post fst] in *.
    repeat wp_step; extend HT2; destruct Hnew as (Hr & Hb & Hs & Hp); cbn in Hs.
    1-3: split; [intros _; obs; now rewrite ?Hb |].
    1-3: intros hex _ Hno; obs; congruence.
    all: split; [obs; rewrite Hs; discriminate |].
    all: intros hex Hhex _ _ _; (split; [reflexivity |]).
    all: exists new; do 2 eexists; obs; rewrite Hr in Hhex; injection Hhex as <-; auto.
  - intros l s'' HT2 _. extend HT2. destruct Hnew as (Hr & Hb & Hs & Hp).
    split; [auto |]. intros hex _ _ _ [=].
  - intros [pre cur] s'' HT2 Hcond.
    unfold ACCS.takeBTSForBTC_cond in Hcond. apply andb_prop in Hcond as [Hnull _].
    unfold ACCS.takeBTSForBTC_body, getLastBlock_height, getPreimageFromLastTransaction.
    repeat wp_step; extend HT2; destruct Hnew as (Hr & Hb & Hs & Hp); cbn [fst] in *.
    + obs. rewrite Hr, Hb, Hs, Hp, Hnull. repeat split.
      match goal with |- context [ACCS.is_null ?x] => destruct x end; reflexivity.
    + split; [intros _; obs; now rewrite Hb |].
      intros hex _ _ Hrej. obs. rewrite !orb_true_r in Hrej. discriminate.
    + split; [intros _; obs; now rewrite Hb |].
      intros hex _ _ Hrej. obs. rewrite !orb_true_r in Hrej. discriminate.
  - subst s2. extend HT. destruct Hnew as (Hr & Hb & Hp & Hj). obs.
    rewrite Hr, Hb, Hp, Hj. cbn. auto.
Qed.

Section BlockHeightLoops.
Context (env : Env.t) (c : ACCSConfig.t) (hBTC : BitcoinHTLC.t).

Lemma proposeBTSForBTC_body_spec (hBTS : BitsharesHTLC.t) (cur : Z) (s : State.t) :
  wp (ACCS.proposeBTSForBTC_body env c hBTC hBTS (false, cur))
     (fun o s' =>
        State.config s' = State.config s
        /\ exists r,
             match o with
             | Return l' =>
                 exists h,
                   l' = proposeBTSForBTC_state (r, h)
                   /\ State.trace s'
                      = (State.trace s ++ Iteration.proposeBTSForBTC c hBTC hBTS (r, h))%list
             | Throw e =>
                 State.trace s'
                 = (State.trace s
                    ++ [ BitsharesHTLC_redeem hBTS (amountBTSMini c)
                           (bitsharesPrivateKey c) (secret c) r;
                         bitcoinAPI_getLastBlock (BitcoinHTLC.network hBTC) (Err e) ])%list
             | OutOfFuel => False
             end) s.
Proof.
  unfold ACCS.proposeBTSForBTC_body, btsRedeem, getLastBlock_height.
  repeat wp_step; (split; [reflexivity |]); exists r; simpl_trace.
  - exists a. split; [| reflexivity].
    unfold proposeBTSForBTC_state. cbn. now destruct r as [[|] | err].
  - reflexivity.
Qed.

Lemma proposeBTSForBTC_poll_iterations (hBTS : BitsharesHTLC.t) (maxBlockHeight : option Z) :
  forall (fuel : nat) (l : bool * Z) (s : State.t),
    let '(o, s') := while fuel (ACCS.proposeBTSForBTC_cond maxBlockHeight)
                      (ACCS.proposeBTSForBTC_body env c hBTC hBTS) l s in
    State.config s' = State.config s
    /\ exists its l',
         polled (ACCS.proposeBTSForBTC_cond maxBlockHeight) proposeBTSForBTC_state l its l'
         /\ match o with
            | Return l'' =>
                l'' = l'
                /\ ACCS.proposeBTSForBTC_cond maxBlockHeight l' = false
                /\ State.trace s'
                   = (State.trace s
                      ++ flat_map (Iteration.proposeBTSForBTC c hBTC hBTS) its)%list
            | OutOfFuel =>
                ACCS.proposeBTSForBTC_cond maxBlockHeight l' = true
                /\ length its = fuel
                /\ State.trace s'
                   = (State.trace s
                      ++ flat_map (Iteration.proposeBTSForBTC c hBTC hBTS) its)%list
            | Throw e =>
                ACCS.proposeBTSForBTC_cond maxBlockHeight l' = true
                /\ exists r,
                     State.trace s'
                     = (State.trace s
                        ++ flat_map (Iteration.proposeBTSForBTC c hBTC hBTS) its
                        ++ [ BitsharesHTLC_redeem hBTS (amountBTSMini c)
                               (bitsharesPrivateKey c) (secret c) r;
                             bitcoinAPI_getLastBlock (BitcoinHTLC.network hBTC) (Err e) ])%list
            end.
Proof.
  induction fuel as [| fuel IH]; intros l s; cbn [while].
  - destruct (ACCS.proposeBTSForBTC_cond maxBlockHeight l) eqn:Hcond;
      (split; [reflexivity |]); exists [], l; cbn; rewrite app_nil_r; auto.
  - destruct (ACCS.proposeBTSForBTC_cond maxBlockHeight l) eqn:Hcond.
    2:{ split; [reflexivity |]. exists [], l. cbn. rewrite app_nil_r. auto. }
    destruct l as [success cur].
    assert (Hsucc : success = false).
    { unfold ACCS.proposeBTSForBTC_cond in Hcond. apply andb_prop in Hcond as [H _].
      now apply negb_true_iff in H. }
    subst success.
    pose proof (wp_elim _ _ _ (proposeBTSForBTC_body_spec hBTS cur s)) as Hbody.
    destruct (ACCS.proposeBTSForBTC_body env c hBTC hBTS (false, cur) s)
      as [[l1 | e |] s1]; destruct Hbody as [HC1 [r Hbody]].
    + destruct Hbody as (h & -> & Ht1).
      specialize (IH (proposeBTSForBTC_state (r, h)) s1).
      destruct (while fuel _ _ _ s1) as [o s'].
      destruct IH as [HC (its & l' & Hpolled & Ho)].
      split; [congruence |]. exists ((r, h) :: its), l'.
      split; [cbn [polled]; auto |].
      destruct o as [l'' | e |]; cbn [flat_map length].
      * destruct Ho as (-> & Hc' & Ht). repeat split; auto.
        now rewrite Ht, Ht1, <- app_assoc.
      * destruct Ho as (Hc' & [r' Ht]). split; [exact Hc' |]. exists r'.
        now rewrite Ht, Ht1, <- !app_assoc.
      * destruct Ho as (Hc' & Hlen & Ht). repeat split; auto.
        now rewrite Ht, Ht1, <- app_assoc.
    + split; [exact HC1 |]. exists [], (false, cur). cbn [polled flat_map app].
      split; [reflexivity |]. split; [exact Hcond |]. exists r. exact Hbody.
    + contradiction.
Qed.

Lemma takeBTSForBTC_body_spec (p2wsh : Payment.t) (l : option string * Z) (s : State.t) :
  wp (ACCS.takeBTSForBTC_body env c hBTC p2wsh l)
     (fun o s' =>
        State.config s' = State.config s
        /\ match o with
           | Return l' =>
               exists it,
                 l' = takeBTSForBTC_state it
                 /\ State.trace s'
                    = (State.trace s ++ Iteration.takeBTSForBTC c hBTC p2wsh it)%list
           | Throw e =>
               State.trace s'
               = (State.trace s
                  ++ [bitcoinAPI_getLastBlock (BitcoinHTLC.network hBTC) (Err e)])%list
               \/ exists h,
                    State.trace s'
                    = (State.trace s
                       ++ [ bitcoinAPI_getLastBlock (BitcoinHTLC.network hBTC) (Ok h);
                            bitcoinAPI_getPreimageFromLastTransaction
                              (BitcoinHTLC.network hBTC) (Payment.address p2wsh)
                              (Err e) ])%list
           | OutOfFuel => False
           end) s.
Proof.
  unfold ACCS.takeBTSForBTC_body, getLastBlock_height, getPreimageFromLastTransaction.
  repeat wp_step; (split; [reflexivity |]); simpl_trace.
  - match goal with
    | |- context [bitcoinAPI_getLastBlock _ (Ok ?h)] =>
        match goal with
        | |- context [bitcoinAPI_getPreimageFromLastTransaction _ _ (Ok ?p)] =>
            exists (h, p)
        end
    end. split; reflexivity.
  - right. eexists. reflexivity.
  - left. reflexivity.
Qed.

Lemma takeBTSForBTC_poll_iterations (p2wsh : Payment.t) (maxBlockHeight : option Z) :
  forall (fuel : nat) (l : option string * Z) (s : State.t),
    let '(o, s') := while fuel (ACCS.takeBTSForBTC_cond maxBlockHeight)
                      (ACCS.takeBTSForBTC_body env c hBTC p2wsh) l s in
    State.config s' = State.config s
    /\ exists its l',
         polled (ACCS.takeBTSForBTC_cond maxBlockHeight) takeBTSForBTC_state l its l'
         /\ let polls := flat_map (Iteration.takeBTSForBTC c hBTC p2wsh) its in
            match o with
            | Return l'' =>
                l'' = l'
                /\ ACCS.takeBTSForBTC_cond maxBlockHeight l' = false
                /\ State.trace s' = (State.trace s ++ polls)%list
            | OutOfFuel =>
                ACCS.takeBTSForBTC_cond maxBlockHeight l' = true
                /\ length its = fuel
                /\ State.trace s' = (State.trace s ++ polls)%list
            | Throw e =>
                ACCS.takeBTSForBTC_cond maxBlockHeight l' = true
                /\ (State.trace s'
                    = (State.trace s ++ polls
                       ++ [bitcoinAPI_getLastBlock (BitcoinHTLC.network hBTC) (Err e)])%list
                    \/ exists h,
                         State.trace s'
                         = (State.trace s ++ polls
                            ++ [ bitcoinAPI_getLastBlock (BitcoinHTLC.network hBTC) (Ok h);
                                 bitcoinAPI_getPreimageFromLastTransaction
                                   (BitcoinHTLC.network hBTC) (Payment.address p2wsh)
                                   (Err e) ])%list)
            end.
Proof.
  induction fuel as [| fuel IH]; intros l s; cbn [while].
  - destruct (ACCS.takeBTSForBTC_cond maxBlockHeight l) eqn:Hcond;
      (split; [reflexivity |]); exists [], l; cbn; rewrite app_nil_r; auto.
  - destruct (ACCS.takeBTSForBTC_cond maxBlockHeight l) eqn:Hcond.
    2:{ split; [reflexivity |]. exists [], l. cbn. rewrite app_nil_r. auto. }
    pose proof (wp_elim _ _ _ (takeBTSForBTC_body_spec p2wsh l s)) as Hbody.
    destruct (ACCS.takeBTSForBTC_body env c hBTC p2wsh l s)
      as [[l1 | e |] s1]; destruct Hbody as [HC1 Hbody].
    + destruct Hbody as (it & -> & Ht1).
      specialize (IH (takeBTSForBTC_state it) s1).
      destruct (while fuel _ _ _ s1) as [o s'].
      destruct IH as [HC (its & l' & Hpolled & Ho)].
      split; [congruence |]. exists (it :: its), l'.
      split; [cbn [polled]; auto |]. cbv zeta in Ho |- *.
      destruct o as [l'' | e |]; cbn [flat_map length].
      * destruct Ho as (-> & Hc' & Ht). repeat split; auto.
        now rewrite Ht, Ht1, <- app_assoc.
      * destruct Ho as (Hc' & [Ht | [h Ht]]); (split; [exact Hc' |]).
        -- left. now rewrite Ht, Ht1, <- !app_assoc.
        -- right. exists h. now rewrite Ht, Ht1, <- !app_assoc.
      * destruct Ho as (Hc' & Hlen & Ht). repeat split; auto.
        now rewrite Ht, Ht1, <- app_assoc.
    + split; [exact HC1 |]. exists [], l. cbn [polled flat_map app].
      split; [reflexivity |]. split; [exact Hcond |].
      destruct Hbody as [Ht | [h Ht]]; [left | right; exists h]; exact Ht.
    + contradiction.
Qed.
End BlockHeightLoops.


Lemma wp_while_variant {S L : Type} (I : L -> S -> Prop) (V : L -> nat) fuel cond
    (body : L -> M S L) (Q : Outcome L -> S -> Prop) :
  (forall l s, I l s -> cond l = false -> Q (Return l) s) ->
  (forall l s, I l s -> cond l = true -> (0 < V l)%nat) ->
  (forall l s, I l s -> cond l = true ->
     wp (body l) (lift_post Q (fun l' s' => I l' s' /\ (V l' < V l)%nat)) s) ->
  forall l s, I l s -> (V l <= fuel)%nat -> wp (while fuel cond body l) Q s.
Proof.
  intros Hexit Hpos Hbody. induction fuel as [| fuel IH]; intros l s HI HV.
  - unfold wp; simpl. destruct (cond l) eqn:Hc; simpl.
    + specialize (Hpos l s HI Hc). lia.
    + now apply Hexit.
  - unfold wp; simpl. destruct (cond l) eqn:Hc; simpl.
    + specialize (Hbody l s HI Hc). unfold wp, lift_post in Hbody.
      destruct (body l s) as [[l' | e |] s']; simpl in *; auto.
      destruct Hbody as [HI' HV']. apply IH; [exact HI' | lia].
    + now apply Hexit.
Qed.

Lemma slept_ms_app (t1 t2 : Trace) : slept_ms (t1 ++ t2)%list = slept_ms t1 + slept_ms t2.
Proof.
  unfold slept_ms. induction t1 as [| e t1 IH]; simpl; [reflexivity |].
  destruct e; rewrite ?IH; lia.
Qed.

Lemma observed_heights_app (t1 t2 : Trace) :
  observed_heights (t1 ++ t2)%list = (observed_heights t1 ++ observed_heights t2)%list.
Proof. unfold observed_heights. apply flat_map_app. Qed.

Ltac count_sleep :=
  rewrite ?slept_ms_app, ?observed_heights_app;
  cbn [slept_ms fold_right observed_heights flat_map app].

Section CountdownLoops.
Context (env : Env.t) (c : ACCSConfig.t) (Hinterval : checkAPIInterval c = 4).

Lemma takeBTCForBTS_wait_bound fuel hBTC p2wsh s :
  (450 <= fuel)%nat ->
  wp (ACCS.takeBTCForBTS_wait env fuel c hBTC p2wsh)
     (fun o s' => since (State.trace s) (State.trace s') (waited (1800 * 1000) o)) s.
Proof.
  intros Hfuel. unfold ACCS.takeBTCForBTS_wait.
  apply wp_while_variant with
    (I := fun l s' =>
       exists k, 0 <= k /\ snd l = 4 * k
         /\ since (State.trace s) (State.trace s')
              (fun new => slept_ms new = 1000 * (1800 - snd l)
                          /\ observed_heights new = []))
    (V := fun l => Z.to_nat (snd l / 4)).
  - intros [[txID value] ttw] s' (k & Hk & Httw & HT) _. cbn [snd] in *.
    apply since_same with (1 := HT). intros new [Hs Ho].
    unfold waited. split; [eauto |]. split; [lia | exact Ho].
  - intros [[txID value] ttw] s' (k & Hk & Httw & _) Hcond. cbn [snd] in *.
    unfold ACCS.takeBTCForBTS_wait_cond in Hcond.
    apply andb_prop in Hcond as [_ Hpos]. apply Z.ltb_lt in Hpos.
    assert (ttw / 4 = k) by (subst; rewrite Z.mul_comm; apply Z.div_mul; lia). lia.
  - intros [[txID value] ttw] s' (k & Hk & Httw & HT) Hcond. cbn [snd] in *.
    unfold ACCS.takeBTCForBTS_wait_cond in Hcond.
    apply andb_prop in Hcond as [_ Hpos]. apply Z.ltb_lt in Hpos.
    assert (ttw / 4 = k) by (subst; rewrite Z.mul_comm; apply Z.div_mul; lia).
    assert ((ttw - 4) / 4 = k - 1)
      by (subst; replace (4 * k - 4) with ((k - 1) * 4) by lia; apply Z.div_mul; lia).
    unfold ACCS.takeBTCForBTS_wait_body, getValueFromLastTransaction.
    repeat wp_step. cbn [snd]. rewrite Hinterval. split; [| lia].
    exists (k - 1). split; [lia |]. split; [lia |].
    extend HT. destruct Hnew as [Hs Ho]. count_sleep.
    rewrite Hs, Ho. split; [lia | reflexivity].
  - exists 450. cbn [snd]. split; [lia |]. split; [reflexivity |].
    apply since_refl. split; reflexivity.
  - cbn [snd]. change (1800 / 4) with 450. lia.
Qed.

Lemma takeBTSForBTC_wait_bound fuel s :
  (75 <= fuel)%nat ->
  wp (ACCS.takeBTSForBTC_wait env fuel c)
     (fun o s' => since (State.trace s) (State.trace s') (waited (300 * 1000) o)) s.
Proof.
  intros Hfuel. unfold ACCS.takeBTSForBTC_wait.
  apply wp_while_variant with
    (I := fun l s' =>
       exists k, 0 <= k /\ snd l = 4 * k
         /\ since (State.trace s) (State.trace s')
              (fun new => slept_ms new = 1000 * (300 - snd l)
                          /\ observed_heights new = []))
    (V := fun l => Z.to_nat (snd l / 4)).
  - intros [id ttw] s' (k & Hk & Httw & HT) _. cbn [snd] in *.
    apply since_same with (1 := HT). intros new [Hs Ho].
    unfold waited. split; [eauto |]. split; [lia | exact Ho].
  - intros [id ttw] s' (k & Hk & Httw & _) Hcond. cbn [snd] in *.
    unfold ACCS.takeBTSForBTC_wait_cond in Hcond.
    apply andb_prop in Hcond as [_ Hpos]. apply Z.ltb_lt in Hpos.
    assert (ttw / 4 = k) by (subst; rewrite Z.mul_comm; apply Z.div_mul; lia). lia.
  - intros [id ttw] s' (k & Hk & Httw & HT) Hcond. cbn [snd] in *.
    unfold ACCS.takeBTSForBTC_wait_cond in Hcond.
    apply andb_prop in Hcond as [_ Hpos]. apply Z.ltb_lt in Hpos.
    assert (ttw / 4 = k) by (subst; rewrite Z.mul_comm; apply Z.div_mul; lia).
    assert ((ttw - 4) / 4 = k - 1)
      by (subst; replace (4 * k - 4) with ((k - 1) * 4) by lia; apply Z.div_mul; lia).
    unfold ACCS.takeBTSForBTC_wait_body, getID.
    repeat wp_step. cbn [snd]. rewrite Hinterval. split; [| lia].
    exists (k - 1). split; [lia |]. split; [lia |].
    extend HT. destruct Hnew as [Hs Ho]. count_sleep.
    rewrite Hs, Ho. split; [lia | reflexivity].
  - exists 75. cbn [snd]. split; [lia |]. split; [reflexivity |].
    apply since_refl. split; reflexivity.
  - cbn [snd]. change (300 / 4) with 75. lia.
Qed.

Lemma proposeBTCForBTS_poll_bound fuel hBTC p2wsh timeToWait s :
  (Z.to_nat timeToWait <= fuel)%nat ->
  wp (ACCS.proposeBTCForBTS_poll env fuel c hBTC p2wsh timeToWait)
     (fun o s' => since (State.trace s) (State.trace s')
                    (waited (Z.max 0 timeToWait * 4000) o)) s.
Proof.
  intros Hfuel. unfold ACCS.proposeBTCForBTS_poll.
  apply wp_while_variant with
    (I := fun l s' =>
       snd l <= timeToWait /\ (0 <= snd l \/ snd l = timeToWait)
       /\ since (State.trace s) (State.trace s')
            (fun new => slept_ms new = 4000 * (timeToWait - snd l)
                        /\ observed_heights new = []))
    (V := fun l => Z.to_nat (snd l)).
  - intros [txID ttw] s' (Hle & Hge & HT) _. cbn [snd] in *.
    apply since_same with (1 := HT). intros new [Hs Ho].
    unfold waited. split; [eauto |]. split; [lia | exact Ho].
  - intros [txID ttw] s' _ Hcond. cbn [snd] in *.
    unfold ACCS.proposeBTCForBTS_cond in Hcond.
    apply andb_prop in Hcond as [_ Hpos]. apply Z.ltb_lt in Hpos. lia.
  - intros [txID ttw] s' (Hle & Hge & HT) Hcond. cbn [snd] in *.
    unfold ACCS.proposeBTCForBTS_cond in Hcond.
    apply andb_prop in Hcond as [_ Hpos]. apply Z.ltb_lt in Hpos.
    unfold ACCS.proposeBTCForBTS_body, getValueFromLastTransaction.
    repeat wp_step. cbn [snd]. rewrite Hinterval. split; [| lia].
    split; [lia |]. split; [lia |].
    extend HT. destruct Hnew as [Hs Ho]. count_sleep.
    rewrite Hs, Ho. split; [lia | reflexivity].
  - cbn [snd]. split; [lia |]. split; [right; reflexivity |].
    apply since_refl. split; [cbn [slept_ms fold_right]; lia | reflexivity].
  - cbn [snd]. lia.
Qed.

Lemma takeBTCForBTS_poll_bound fuel timeToWait s :
  (Z.to_nat timeToWait <= fuel)%nat ->
  wp (ACCS.takeBTCForBTS_poll env fuel c timeToWait)
     (fun o s' => since (State.trace s) (State.trace s')
                    (waited (Z.max 0 timeToWait * 1000) o)) s.
Proof.
  intros Hfuel. unfold ACCS.takeBTCForBTS_poll.
  apply wp_while_variant with
    (I := fun l s' =>
       snd l <= timeToWait /\ (0 <= snd l \/ snd l = timeToWait)
       /\ since (State.trace s) (State.trace s')
            (fun new => slept_ms new = 1000 * (timeToWait - snd l)
                        /\ observed_heights new = []))
    (V := fun l => Z.to_nat (snd l)).
  - intros [pre ttw] s' (Hle & Hge & HT) _. cbn [snd] in *.
    apply since_same with (1 := HT). intros new [Hs Ho].
    unfold waited. split; [eauto |]. split; [lia | exact Ho].
  - intros [pre ttw] s' _ Hcond. cbn [snd] in *.
    unfold ACCS.takeBTCForBTS_cond in Hcond.
    apply andb_prop in Hcond as [_ Hpos]. apply Z.ltb_lt in Hpos. lia.
  - intros [pre ttw] s' (Hle & Hge & HT) Hcond. cbn [snd] in *.
    unfold ACCS.takeBTCForBTS_cond in Hcond.
    apply andb_prop in Hcond as [_ Hpos]. apply Z.ltb_lt in Hpos.
    unfold ACCS.takeBTCForBTS_body, getPreimageFromHTLC.
    repeat wp_step. cbn [snd]. split; [| lia].
    split; [lia |]. split; [lia |].
    extend HT. destruct Hnew as [Hs Ho]. count_sleep.
    rewrite Hs, Ho. split; [lia | reflexivity].
  - cbn [snd]. split; [lia |]. split; [right; reflexivity |].
    apply since_refl. split; [cbn [slept_ms fold_right]; lia | reflexivity].
  - cbn [snd]. lia.
Qed.
End CountdownLoops.

(** C2. In [proposeBTSForBTC] and [takeBTSForBTC], once [create()] has
    returned the refund hex: when the polling loop ends by its condition (no
    chain query of the loop rejected, fuel left) and the counterparty has not
    acted (no successful Bitshares redeem, respectively no preimage
    extracted), the last thing the flow does is [pushTX] of that refund hex,
    the only broadcast of the run, and the flow throws; when the counterparty
    has acted, nothing is broadcast. *)
Theorem C2_refund_when_polling_ends (env : Env.t) (fuel : nat) (s : State.t) :
  (let '(o, s') := ACCS.proposeBTSForBTC env fuel s in
   let new := added (State.trace s) (State.trace s') in
   refund_after_timeout o new (bts_redeemed new))
  /\ (let '(o, s') := ACCS.takeBTSForBTC env fuel s in
      let new := added (State.trace s) (State.trace s') in
      refund_after_timeout o new (preimage_extracted new)).
Proof.
  split.
  - pose proof (wp_elim _ _ _ (proposeBTSForBTC_refund env fuel s)) as H.
    destruct (ACCS.proposeBTSForBTC env fuel s) as [o s'].
    now apply since_added in H as [_ H].
  - pose proof (wp_elim _ _ _ (takeBTSForBTC_refund env fuel s)) as H.
    destruct (ACCS.takeBTSForBTC env fuel s) as [o s'].
    now apply since_added in H as [_ H].
Qed.

(** C2 where the counterparty stays silent until the horizon: both flows end
    by broadcasting the refund hex that [create()] returned, and throw. *)
Lemma C2_witness :
  let run1 := ACCS.proposeBTSForBTC Sample.env_silent 10 (State.start Sample.proposer_BTC) in
  let run2 := ACCS.takeBTSForBTC Sample.env_unredeemed 10 (State.start Sample.accepter_BTC) in
  (is_Throw (fst run1) = true
   /\ exists before n r,
        State.trace (snd run1) = (before ++ [bitcoinAPI_pushTX n "refund" r])%list
        /\ broadcasts before = [])
  /\ (is_Throw (fst run2) = true
      /\ exists before n r,
           State.trace (snd run2) = (before ++ [bitcoinAPI_pushTX n "refund" r])%list
           /\ broadcasts before = []).
Proof.
  intros run1 run2.
  destruct (C2_refund_when_polling_ends Sample.env_silent 10
              (State.start Sample.proposer_BTC)) as [H1 _].
  destruct (C2_refund_when_polling_ends Sample.env_unredeemed 10
              (State.start Sample.accepter_BTC)) as [_ H2].
  fold run1 in H1. fold run2 in H2.
  destruct run1 as [o1 s1] eqn:E1. destruct run2 as [o2 s2] eqn:E2.
  vm_compute in E1. vm_compute in E2.
  injection E1 as <- <-. injection E2 as <- <-.
  split.
  - destruct H1 as [_ H1]. apply (H1 "refund"); reflexivity.
  - destruct H2 as [_ H2]. apply (H2 "refund"); reflexivity.
Defined.

(** C3 fails in [takeBTSForBTC]: its second loop calls
    [getPreimageFromLastTransaction] without a [catch]. With the Bitcoin HTLC
    funded at height 100 and not yet spent, the first poll is rejected with
    NotFound at height 101, two blocks before the horizon 103: the rejection
    leaves the loop and the flow instead of being swallowed, there is no
    second iteration, and the funded HTLC is not refunded. The height query
    of the Bitcoin-side loops is not guarded either: in [proposeBTSForBTC] a
    rejected [getLastBlock] ends the flow in the same way. *)
Theorem C3_rejected_poll_leaves_takeBTSForBTC :
  (let '(o, s') := ACCS.takeBTSForBTC Sample.env_unspent 10
                     (State.start Sample.accepter_BTC) in
   let c := set_timelockBTC Sample.accepter_BTC 3 in
   o = Throw (JsError "NotFound")
   /\ State.trace s'
      = [ BitsharesAPI_getInstance "wss://testnet.dex.trading/" (Ok tt);
          websocket_getID "1.2.2" "1.2.1" 5000000 "h" 3600 (Ok "1.16.1");
          setTimeout 4000;
          BitcoinHTLC_create (htlcBTC_own c) (configBTC c) (Ok ("refund", Some 100));
          bitcoinAPI_getLastBlock "testnet" (Ok 101);
          bitcoinAPI_getPreimageFromLastTransaction "testnet"
            (Payment.address (p2wsh_own c)) (Err (JsError "NotFound")) ]
   /\ broadcasts (State.trace s') = [])
  /\ (let '(o, s') := ACCS.proposeBTSForBTC Sample.env_height_unavailable 10
                        (State.start Sample.proposer_BTC) in
      o = Throw (JsError "NotFound")
      /\ length (State.trace s') = 3%nat
      /\ refund_hexes (State.trace s') = ["refund"]
      /\ broadcasts (State.trace s') = []).
Proof. vm_compute. repeat split. Qed.

Lemma since_extend (R : Trace -> Prop) t0 t t' :
  since t0 t R -> since t t' (fun _ => True) ->
  (forall new ext, R new -> R (new ++ ext)%list) ->
  since t0 t' R.
Proof.
  intros (new & -> & HR) (ext & -> & _) Hmono. exists (new ++ ext)%list.
  split; [now rewrite app_assoc | auto].
Qed.

Lemma sufficient_funding_seen_app amount new ext :
  sufficient_funding_seen amount new -> sufficient_funding_seen amount (new ++ ext)%list.
Proof.
  intros (n & a & tx & v & h & fees & H1 & H2 & H3).
  exists n, a, tx, v, h, fees. repeat split; auto; apply in_or_app; auto.
Qed.

(** In [takeBTCForBTS] with the parsed polling interval, the Bitshares HTLC is
    created only after a funding transaction of sufficient value was seen:
    a funding below [amountSatoshi - fee.max] never leads to the creation. *)
Lemma takeBTCForBTS_creates_only_after_sufficient_funding env fuel s :
  checkAPIInterval (State.config s) = 4 ->
  wp (ACCS.takeBTCForBTS env fuel)
     (fun _ s' =>
        since (State.trace s) (State.trace s')
          (fun new => btsCreate_times new = []
                      \/ sufficient_funding_seen (amountSatoshi (State.config s)) new)) s.
Proof.
  intros Hinterval.
  set (R := fun new => btsCreate_times new = []
                       \/ sufficient_funding_seen (amountSatoshi (State.config s)) new).
  unfold ACCS.takeBTCForBTS, getInstance, calculateFee, btsCreate, btcRedeem.
  repeat wp_step.
  2:{ simpl_trace. eexists. split; [reflexivity |]. left. reflexivity. }
  assert (Hint1 : checkAPIInterval c0 = 4) by (subst c0; exact Hinterval).
  assert (Hamount : amountSatoshi c0 = amountSatoshi (State.config s))
    by (subst c0; reflexivity).
  clear Hc0 Hc.
  match goal with |- wp _ _ ?st => set (s1 := st) end.
  unfold ACCS.takeBTCForBTS_wait.
  apply wp_while with
    (I := fun l s' =>
       (exists k, 0 <= k /\ snd l = 4 * k)
       /\ since (State.trace s) (State.trace s')
            (fun new =>
               btsCreate_times new = []
               /\ (fst (fst l) = None
                   \/ exists tx v n a,
                        snd (fst l) = Some v
                        /\ In (bitcoinAPI_getValueFromLastTransaction n a (Ok (tx, v)))
                              new))).
  - intros [[txID value] ttw] s' [(k & Hk & Httw) HT] Hcond. cbn [fst snd lift_post] in *.
    unfold ACCS.takeBTCForBTS_wait_cond in Hcond.
    wp_step.
    { extend HT. left. apply Hnew. }
    apply Z.eqb_neq in Heqb.
    apply andb_false_iff in Hcond as [Hnull | Hle]; [| apply Z.ltb_ge in Hle; lia].
    destruct txID as [tx0 |]; [clear Hnull | discriminate Hnull].
    assert (HT' : exists v, value = Some v
                  /\ since (State.trace s) (State.trace s')
                       (fun new => btsCreate_times new = []
                          /\ exists tx n a,
                               In (bitcoinAPI_getValueFromLastTransaction n a (Ok (tx, v)))
                                  new)).
    { destruct HT as (new & Hnew & Hb & [Hn | (tx & v & n & addr & Hv & Hin)]);
        [discriminate Hn |].
      exists v. split; [exact Hv |]. exists new. split; [exact Hnew |]. eauto 6. }
    clear HT. destruct HT' as (v & -> & HT).
    do 2 wp_step.
    2:{ extend HT. left. unfold btsCreate_times in *. rewrite flat_map_app.
        cbn. rewrite app_nil_r. apply Hnew. }
    wp_step.
    { extend HT. left. unfold btsCreate_times in *. rewrite flat_map_app.
        cbn. rewrite app_nil_r. apply Hnew. }
    cbn [JS.nullable_lt] in Heqb0. apply Z.ltb_ge in Heqb0.
    match goal with |- wp _ _ ?st => set (s2 := st) end.
    assert (H2 : since (State.trace s) (State.trace s2)
                   (sufficient_funding_seen (amountSatoshi (State.config s)))).
    { subst s2. extend HT. destruct Hnew as (_ & tx & n & addr & Hin).
      do 6 eexists. split; [apply in_or_app; left; exact Hin |].
      split; [apply in_or_app; right; cbn; left; reflexivity |].
      cbn [Fee.max]. rewrite <- Hamount. exact Heqb0. }
    clearbody s2. clear HT.
    apply wp_conseq with
      (Q := fun _ s'' => since (State.trace s2) (State.trace s'') (fun _ => True)).
    2:{ intros o s'' Hext.
        pose proof (since_extend _ _ _ _ H2 Hext
                      (sufficient_funding_seen_app (amountSatoshi (State.config s)))) as H3.
        apply since_same with (1 := H3). intros new Hnew. right. exact Hnew. }
    pose proof (since_refl (Forall (fun _ : Event => True)) (State.trace s2)
                  (Forall_nil _)) as H0.
    repeat wp_step.
    2:{ extend H0. exact I. }
    match goal with |- wp _ _ ?st => set (s3 := st) end.
    eapply wp_conseq.
    { apply takeBTCForBTS_poll_emits
        with (P := fun _ : Event => True) (t0 := State.trace s2); try (intros; exact I).
      subst s3. extend H0. all_in_alphabet. }
    intros [[pre ttw'] | err |] s'' [_ HT]; cbn [lift_post];
      repeat wp_step; extend HT; exact I.
  - intros l s' [_ HT] _. extend HT. left. apply Hnew.
  - intros [[txID value] ttw] s' [(k & Hk & Httw) HT] Hcond. cbn [fst snd] in *.
    unfold ACCS.takeBTCForBTS_wait_cond in Hcond.
    apply andb_prop in Hcond as [Hnull Hpos]. apply Z.ltb_lt in Hpos.
    unfold ACCS.takeBTCForBTS_wait_body, getValueFromLastTransaction.
    repeat wp_step. cbn [fst snd]. rewrite Hint1. split.
    + exists (k - 1). lia.
    + extend HT. destruct Hnew as [Hb Hseen]. split.
      * unfold btsCreate_times in *. rewrite flat_map_app. cbn. now rewrite Hb.
      * destruct r as [[tx v] | err]; cbn in Heqp; injection Heqp as <- <-.
        -- right. do 4 eexists. split; [reflexivity |].
           apply in_or_app. right. cbn. left. reflexivity.
        -- destruct txID; [discriminate Hnull | left; reflexivity].
  - split; [exists 450; cbn; lia |]. subst s1. simpl_trace.
    eexists. split; [reflexivity |]. cbn. auto.
Qed.

(** C5 fails at the last poll of [takeBTCForBTS]: the test after the loop is
    [timeToWait === 0], not [txID === null]. When the funding transaction is
    found by poll number 450, with the full amount 100000 >= 100000 - 1000,
    the countdown is at 0 and the flow throws "No HTLC found" without
    creating its Bitshares HTLC. Found one poll earlier, the same
    transaction is accepted and the Bitshares HTLC is created. *)
Theorem C5_funding_found_by_last_poll_is_dropped :
  let c := Sample.accepter_BTS in
  let found :=
    bitcoinAPI_getValueFromLastTransaction "testnet"
      (Payment.address (p2wsh_watched c)) (Ok ("funding", 100000)) in
  (let '(o, s') := ACCS.takeBTCForBTS (Sample.env_funded_at 450) 450 (State.start c) in
   amountSatoshi c - 1000 <= 100000
   /\ nth_error (State.trace s') 899 = Some found
   /\ o = Throw (JsError "No HTLC found on Bitcoin testnet. Please contact proposer.")
   /\ btsCreate_times (State.trace s') = [])
  /\ (let '(o, s') := ACCS.takeBTCForBTS (Sample.env_funded_at 449) 450 (State.start c) in
      nth_error (State.trace s') 897 = Some found
      /\ o = Return tt
      /\ btsCreate_times (State.trace s') = [1800]).
Proof. vm_compute. repeat split; discriminate. Qed.

Lemma proposeBTSForBTC_poll_exit env fuel c hBTC hBTS h0 s success cur :
  BitcoinHTLC.getFundingTxBlockHeight hBTC = Some h0 ->
  fst (ACCS.proposeBTSForBTC_poll env fuel c hBTC hBTS
         (JS.add_undefined (BitcoinHTLC.getFundingTxBlockHeight hBTC) (timelockBTC c)) s)
  = Return (success, cur) ->
  success = true \/ h0 + timelockBTC c <= cur.
Proof.
  intros -> Hret. unfold ACCS.proposeBTSForBTC_poll in Hret.
  pose proof (proposeBTSForBTC_poll_iterations env c hBTC hBTS
                (JS.add_undefined (Some h0) (timelockBTC c)) fuel (false, 0) s) as H.
  destruct (while fuel _ _ _ s) as [o s']. cbn [fst] in Hret. subst o.
  destruct H as [_ (its & l' & _ & <- & Hc & _)].
  cbn in Hc. apply andb_false_iff in Hc as [Hc | Hc].
  - left. now apply negb_false_iff in Hc.
  - right. now apply Z.ltb_ge in Hc.
Qed.

Lemma takeBTSForBTC_poll_exit env fuel c hBTC p2wsh h0 s pre cur :
  BitcoinHTLC.getFundingTxBlockHeight hBTC = Some h0 ->
  fst (ACCS.takeBTSForBTC_poll env fuel c hBTC p2wsh
         (JS.add_undefined (BitcoinHTLC.getFundingTxBlockHeight hBTC) (timelockBTC c)) s)
  = Return (pre, cur) ->
  pre <> None \/ h0 + timelockBTC c <= cur.
Proof.
  intros -> Hret. unfold ACCS.takeBTSForBTC_poll in Hret.
  pose proof (takeBTSForBTC_poll_iterations env c hBTC p2wsh
                (JS.add_undefined (Some h0) (timelockBTC c)) fuel (None, 0) s) as H.
  destruct (while fuel _ _ _ s) as [o s']. cbn [fst] in Hret. subst o.
  destruct H as [_ (its & l' & _ & <- & Hc & _)].
  cbn in Hc. apply andb_false_iff in Hc as [Hc | Hc].
  - left. destruct pre; [discriminate | discriminate Hc].
  - right. now apply Z.ltb_ge in Hc.
Qed.





(** * Further properties of the flows, of [parseUserInput] and of [run] *)

(** X1. [parseUserInput] returns exactly when the connection, the two account
    lookups and the block-time query are all answered and the three key
    helpers accept the keys. It then has made these four requests, in this
    order and nothing else, and the config holds what they answered: the two
    account ids, [timelockBTS], the key pairs the helpers built; the
    Bitshares key and the transaction id are copied from the input and the
    asset follows the network. The exchange rate of the input is never
    read: the outcome is the same for every rate, whether or not it fits the
    two amounts. *)
Theorem parseUserInput_returns_the_answers (env : Env.t) (fields : ACCSFields.t)
    (t : Trace) :
  (forall rate,
     ACCS.parseUserInput env (with_rate fields rate) t = ACCS.parseUserInput env fields t)
  /\ let '(o, t') := ACCS.parseUserInput env fields t in
     let new := added t t' in
     match o with
     | Return config =>
         new = parse_requests fields (bitsharesAccountID config)
                 (counterpartyBitsharesAccountID config) (timelockBTS config)
         /\ keys_accepted env fields (keyPairCompressedBTC config)
              (counterpartyKeyPairCompressedBTC config)
         /\ bitsharesPrivateKey config = ACCSFields.bitsharesPrivateKey fields
         /\ bitcoinTxID config = ACCSFields.bitcoinTxID fields
         /\ bitsharesAsset config = asset_of (ACCSFields.networkToTrade fields)
     | _ => forall id counterpartyID timelockBTS,
              new <> parse_requests fields id counterpartyID timelockBTS
     end.
Proof.
  split; [reflexivity |].
  pose proof (wp_elim _ _ _ (parseUserInput_trace env fields t)) as H.
  destruct (ACCS.parseUserInput env fields t) as [[config | e |] t'];
    destruct H as (new & -> & H); cbv zeta; rewrite ?added_app.
  - exact H.
  - intros id cid T Heq. destruct H as (oks & Hoks & [(ev & Hnew & Hrej & _) | (Hnew & Hlen & _)]).
    + rewrite Heq in Hnew. unfold parse_requests in Hnew.
      change [?a; ?b; ?c; ?d] with ([a; b; c] ++ [d])%list in Hnew.
      apply app_inj_tail in Hnew as [_ <-]. discriminate Hrej.
    + rewrite <- Hnew, Heq in Hlen. discriminate Hlen.
  - contradiction.
Qed.

(** X1 on the sample input: the four requests, and a config that holds the
    answers. *)
Lemma parseUserInput_returns_the_answers_witness :
  let '(o, t') := ACCS.parseUserInput Sample.env_prompt Scene.fields_proposer_BTC [] in
  t' = parse_requests Scene.fields_proposer_BTC "1.2.1" "1.2.2" 3600
  /\ exists config, o = Return config /\ timelockBTS config = 3600.
Proof.
  pose proof (parseUserInput_returns_the_answers Sample.env_prompt Scene.fields_proposer_BTC [])
    as H.
  destruct (ACCS.parseUserInput Sample.env_prompt Scene.fields_proposer_BTC [])
    as [o t'] eqn:E.
  vm_compute in E. injection E as <- <-. destruct H as [_ [H _]]. cbv zeta in H.
  split; [exact H |]. eexists. split; reflexivity.
Defined.

(** X2. [parseUserInput] stops at the first failure. When it throws, every
    request before the last was answered; either the last request was
    rejected and its error is the one thrown, or the first three requests
    were answered and a key helper threw. The keys are looked at only after
    the three Bitshares requests, the own key before the counterparty's, and
    the block-time query is made only with keys that were accepted. *)
Theorem parseUserInput_stops_at_the_first_failure (env : Env.t) (fields : ACCSFields.t)
    (t : Trace) :
  let '(o, t') := ACCS.parseUserInput env fields t in
  let new := added t t' in
  match o with
  | Return _ => Forall not_rejected new
  | Throw e =>
      exists oks,
        Forall not_rejected oks
        /\ ((exists ev, new = (oks ++ [ev])%list /\ rejection ev = Some e
                        /\ (length oks <= 3)%nat
                        /\ (length oks = 3%nat ->
                            exists own counterparty,
                              keys_accepted env fields own counterparty))
            \/ (new = oks /\ length oks = 3%nat /\ first_key_rejection env fields e))
  | OutOfFuel => False
  end.
Proof.
  pose proof (wp_elim _ _ _ (parseUserInput_trace env fields t)) as H.
  destruct (ACCS.parseUserInput env fields t) as [[config | e |] t'];
    destruct H as (new & -> & H); cbv zeta; rewrite ?added_app.
  - destruct H as (-> & _). repeat constructor.
  - exact H.
  - contradiction.
Qed.


(** X3. How the amounts of a parsed config stand to exact arithmetic, for
    numbers whose products with the units are finite. An amount is the
    integer nearest to the exact product of the number given and its unit
    (10^8 for bitcoin, 10^5 for BTS) whenever that integer is nearest by
    more than the relative error [2^-53] of one binary64 operation; and a
    product that is itself an integer of at most 53 bits is converted
    without loss. Only a product within that error of a half unit can go
    either way. *)
Theorem parseUserInput_rounds_to_the_nearest_unit (env : Env.t) (fields : ACCSFields.t)
    (t : Trace)
    (Ha : product_is_finite (amountBTC fields) (10 ^ 8))
    (Hb : product_is_finite (amountBTS fields) (10 ^ 5)) :
  match fst (ACCS.parseUserInput env fields t) with
  | Return config =>
      (forall n, clearly_nearest (JS.value (amountBTC fields) * inject_Z (10 ^ 8)) n ->
                 amountSatoshi config = n)
      /\ (forall n, clearly_nearest (JS.value (amountBTS fields) * inject_Z (10 ^ 5)) n ->
                    amountBTSMini config = n)
      /\ (forall n, Z.abs n <= 2 ^ 53 ->
                    (JS.value (amountBTC fields) * inject_Z (10 ^ 8) == inject_Z n)%Q ->
                    amountSatoshi config = n)
      /\ (forall n, Z.abs n <= 2 ^ 53 ->
                    (JS.value (amountBTS fields) * inject_Z (10 ^ 5) == inject_Z n)%Q ->
                    amountBTSMini config = n)
  | _ => True
  end.
Proof.
  pose proof (wp_elim _ _ _ (parseUserInput_spec env fields t)) as H.
  destruct (ACCS.parseUserInput env fields t) as [[config | e |] t']; cbn [fst]; auto.
  destruct H as [_ [H _]].
  assert (Hamounts : amountSatoshi config = rounded_product (amountBTC fields) (10 ^ 8)
                     /\ amountBTSMini config = rounded_product (amountBTS fields) (10 ^ 5)).
  { unfold amountBTC, amountBTS.
    destruct (String.eqb (ACCSFields.currencyToGive fields) "BTC"); exact H. }
  destruct Hamounts as [-> ->]. repeat split; intros n.
  - apply (rounded_product_clear _ _ _ unit_satoshi Ha).
  - apply (rounded_product_clear _ _ _ unit_BTSMini Hb).
  - apply (rounded_product_exact _ _ _ unit_satoshi Ha).
  - apply (rounded_product_exact _ _ _ unit_BTSMini Hb).
Qed.

(** X3 on the sample input: half a bitcoin is 50000000 satoshi, as the
    nearest integer by far; 25000 BTS are 2500000000 units, exactly. *)
Lemma parseUserInput_rounds_to_the_nearest_unit_witness :
  match fst (ACCS.parseUserInput Sample.env_prompt Scene.fields_proposer_BTC []) with
  | Return config => amountSatoshi config = 50000000 /\ amountBTSMini config = 2500000000
  | _ => False
  end.
Proof.
  pose proof (parseUserInput_rounds_to_the_nearest_unit Sample.env_prompt
                Scene.fields_proposer_BTC [] eq_refl eq_refl) as H.
  destruct (ACCS.parseUserInput Sample.env_prompt Scene.fields_proposer_BTC [])
    as [[config | e |] t'] eqn:E; cbn [fst] in *;
    try (vm_compute in E; discriminate E).
  destruct H as (Hsat & _ & _ & Hmini). split.
  - apply Hsat. reflexivity.
  - apply Hmini; [vm_compute; discriminate | reflexivity].
Defined.

(** X4. The accepter's timelock is the proposer's halved and rounded up:
    every Bitcoin HTLC that [takeBTSForBTC] creates has the sequence
    [ceil(timelockBTC / 2)], every Bitshares HTLC that [takeBTCForBTS]
    creates the time [ceil(timelockBTS / 2)]. The margin it leaves to the
    proposer's timelock is [floor(timelock / 2)]: positive from a timelock of
    2 on, and none at all for a timelock of 1. *)
Theorem accepter_timelock_is_half_rounded_up (env : Env.t) (fuel : nat) (s : State.t) :
  let c := State.config s in
  Forall (fun sequence => sequence = (timelockBTC c + 1) / 2
                          /\ timelockBTC c - sequence = timelockBTC c / 2
                          /\ (sequence < timelockBTC c <-> 2 <= timelockBTC c))
         (btcCreate_sequences
            (added (State.trace s) (State.trace (snd (ACCS.takeBTSForBTC env fuel s)))))
  /\ Forall (fun time => time = (timelockBTS c + 1) / 2
                         /\ timelockBTS c - time = timelockBTS c / 2
                         /\ (time < timelockBTS c <-> 2 <= timelockBTS c))
            (btsCreate_times
               (added (State.trace s) (State.trace (snd (ACCS.takeBTCForBTS env fuel s))))).
Proof.
  assert (Hhalf : forall x, half x = (x + 1) / 2 /\ x - half x = x / 2
                            /\ (half x < x <-> 2 <= x)).
  { intros x. pose proof (half_ceiling x) as H1. pose proof (half_margin x) as H2.
    repeat split; auto; intros H.
    - assert (0 < x / 2) by lia.
      destruct (Z.lt_ge_cases x 2) as [Hlt | Hge]; [| exact Hge].
      destruct (Z.lt_ge_cases x 0) as [Hneg | Hpos].
      + pose proof (Z.div_lt_upper_bound x 2 0 ltac:(lia) ltac:(lia)). lia.
      + rewrite Z.div_small in H0 by lia. lia.
    - assert (0 < x / 2) by (apply Z.div_str_pos; lia). lia. }
  intros c. split.
  - pose proof (takeBTSForBTC_summary env fuel s) as H. unfold wp in H.
    apply since_added in H as [_ [Hall _]]. cbv zeta in Hall.
    eapply Forall_flat_map; [exact Hall |].
    intros e He; destruct e; cbn in He |- *; try contradiction; try apply Forall_nil.
    destruct He as [_ ->]. apply Forall_cons; [apply Hhalf | apply Forall_nil].
  - pose proof (takeBTCForBTS_summary env fuel s) as H. unfold wp in H.
    apply since_added in H as [_ [Hall _]]. cbv zeta in Hall.
    eapply Forall_flat_map; [exact Hall |].
    intros e He; destruct e; cbn in He |- *; try contradiction; try apply Forall_nil.
    destruct He as [_ ->]. apply Forall_cons; [apply Hhalf | apply Forall_nil].
Qed.

Section Redeemed.
Context (env : Env.t) (fuel : nat).

Lemma proposeBTSForBTC_redeemed s :
  wp (ACCS.proposeBTSForBTC env fuel)
     (fun o s' =>
        let c := State.config s' in
        since (State.trace s) (State.trace s')
          (fun new =>
             o = Return tt ->
             exists h,
               ends_with [ BitsharesHTLC_redeem (htlcBTS_counterparty c) (amountBTSMini c)
                             (bitsharesPrivateKey c) (secret c) (Ok true);
                           bitcoinAPI_getLastBlock (networkName c) (Ok h);
                           setTimeout (checkAPIInterval c * 1000) ] new)) s.
Proof.
  unfold ACCS.proposeBTSForBTC, btcCreate, pushTX.
  repeat wp_step.
  2:{ simpl_trace. eexists. split; [reflexivity |]. discriminate. }
  match goal with |- wp _ _ ?st => set (s1 := st) end.
  unfold ACCS.proposeBTSForBTC_poll.
  apply wp_while with
    (I := fun l s' =>
       State.config s' = c
       /\ since (State.trace s) (State.trace s')
            (fun new =>
               fst l = true ->
               exists h,
                 ends_with [ BitsharesHTLC_redeem (htlcBTS_counterparty c) (amountBTSMini c)
                               (bitsharesPrivateKey c) (secret c) (Ok true);
                             bitcoinAPI_getLastBlock (networkName c) (Ok h);
                             setTimeout (checkAPIInterval c * 1000) ] new)).
  - intros [success cur] s' [HC HT] _. cbn [lift_post fst] in *.
    repeat wp_step; simpl_trace; rewrite ?HC.
    + extend HT. discriminate.
    + extend HT. discriminate.
    + apply negb_false_iff in Heqb. apply since_same with (1 := HT). auto.
  - intros l s' [HC HT] _. apply since_same with (1 := HT). discriminate.
  - intros [success cur] s' [HC HT] Hcond.
    unfold ACCS.proposeBTSForBTC_body, btsRedeem, getLastBlock_height.
    repeat wp_step; simpl_trace.
    + split; [exact HC |]. extend HT. cbn [fst]. intros Hr. eexists.
      destruct r as [[|] | err]; try discriminate.
      * exists new. reflexivity.
      * unfold ACCS.proposeBTSForBTC_cond in Hcond. apply andb_prop in Hcond as [Hs _].
        apply negb_true_iff in Hs. congruence.
    + extend HT. discriminate.
  - subst s1. split; [subst c; reflexivity |]. simpl_trace.
    eexists. split; [reflexivity |]. discriminate.
Qed.

Lemma proposeBTCForBTS_redeemed s :
  wp (ACCS.proposeBTCForBTS env fuel)
     (fun o s' =>
        let c := State.config s' in
        since (State.trace s) (State.trace s')
          (fun new =>
             o = Return tt ->
             ends_with [ BitcoinHTLC_redeem (htlcBTC_counterparty c) (p2wsh_watched c)
                           (amountSatoshi c) (secret c) (Ok tt) ] new)) s.
Proof.
  pose proof (since_refl (Forall (fun _ : Event => True)) (State.trace s) (Forall_nil _))
    as H0.
  set (c0 := set_timelockBTC (State.config s) (half (timelockBTC (State.config s)))).
  unfold ACCS.proposeBTCForBTS, btsCreate, btcRedeem.
  repeat wp_step; subst c.
  2:{ simpl_trace. eexists. split; [reflexivity |]. discriminate. }
  match goal with |- wp _ _ ?st => set (s1 := st) end.
  eapply wp_conseq.
  { apply proposeBTCForBTS_poll_emits with (P := fun _ => True) (t0 := State.trace s);
      try (intros; exact I).
    subst s1. extend H0. all_in_alphabet. }
  intros [[txID ttw] | err |] s' [HC HT]; cbn [lift_post];
    change (State.config s' = c0) in HC; clearbody s1;
    repeat wp_step; simpl_trace; rewrite HC; extend HT; try discriminate.
  intros _. repeat match goal with u : unit |- _ => destruct u end.
  exists new. reflexivity.
Qed.

Lemma takeBTSForBTC_redeemed s :
  wp (ACCS.takeBTSForBTC env fuel)
     (fun o s' =>
        let c := State.config s' in
        since (State.trace s) (State.trace s')
          (fun new =>
             o = Return tt ->
             ends_with [ BitsharesHTLC_redeem (htlcBTS_counterparty c) (amountBTSMini c)
                           (bitsharesPrivateKey c) (secret c) (Ok true) ] new
             /\ exists p,
                  Secret.preimage (secret c) = Some p
                  /\ In (bitcoinAPI_getPreimageFromLastTransaction (networkName c)
                           (Payment.address (p2wsh_own c)) (Ok (Some p))) new)) s.
Proof.
  pose proof (since_refl (Forall (fun _ : Event => True)) (State.trace s) (Forall_nil _))
    as H0.
  set (c0 := set_timelockBTC (State.config s) (half (timelockBTC (State.config s)))).
  unfold ACCS.takeBTSForBTC, getInstance, btcCreate, pushTX, btsRedeem.
  repeat wp_step.
  2:{ simpl_trace. eexists. split; [reflexivity |]. discriminate. }
  change (c1 = c0) in Hc0. subst c c1.
  match goal with |- wp _ _ ?st => set (s1 := st) end.
  eapply wp_conseq.
  { apply takeBTSForBTC_wait_emits with (P := fun _ => True) (t0 := State.trace s);
      try (intros; exact I).
    subst s1. extend H0. all_in_alphabet. }
  intros [[id ttw] | err |] s' [HC HT]; cbn [lift_post];
    change (State.config s' = c0) in HC; clearbody s1;
    repeat wp_step; try (extend HT; discriminate).
  match goal with |- wp _ _ ?st => set (s2 := st) end.
  eapply wp_conseq.
  { apply takeBTSForBTC_poll_emits with (P := fun _ => True) (t0 := State.trace s);
      try (intros; exact I).
    subst s2. extend HT. all_in_alphabet. }
  intros [[pre cur] | err |] s'' [HC2 HT2]; cbn [lift_post];
    change (State.config s'' = State.config s') in HC2; rewrite HC in HC2;
    clearbody s2;
    repeat wp_step; try (extend HT2; discriminate).
  simpl_trace. rewrite HC2 in Hc. subst c. rewrite HC2.
  extend HT2. destruct Hnew as [_ Hin]. intros _.
  apply negb_false_iff in Heqb0. subst a1. split.
  - exists new. reflexivity.
  - eexists. split; [reflexivity |]. apply in_or_app. left.
    cbn. eapply Hin. reflexivity.
Qed.

Lemma takeBTCForBTS_redeemed s :
  wp (ACCS.takeBTCForBTS env fuel)
     (fun o s' =>
        let c := State.config s' in
        since (State.trace s) (State.trace s')
          (fun new =>
             o = Return tt ->
             ends_with [ BitcoinHTLC_redeem (htlcBTC_counterparty c) (p2wsh_watched c)
                           (amountSatoshi c) (secret c) (Ok tt) ] new
             /\ exists p,
                  Secret.preimage (secret c) = Some p
                  /\ In (websocket_getPreimageFromHTLC (bitsharesAccountID c)
                           (counterpartyBitsharesAccountID c)
                           (JS.toString_hex (Secret.hash (secret c))) (Ok p)) new)) s.
Proof.
  pose proof (since_refl (Forall (fun _ : Event => True)) (State.trace s) (Forall_nil _))
    as H0.
  set (c0 := set_timelockBTS (State.config s) (half (timelockBTS (State.config s)))).
  unfold ACCS.takeBTCForBTS, getInstance, calculateFee, btsCreate, btcRedeem.
  repeat wp_step.
  2:{ simpl_trace. eexists. split; [reflexivity |]. discriminate. }
  change (c1 = c0) in Hc0. subst c c1.
  match goal with |- wp _ _ ?st => set (s1 := st) end.
  eapply wp_conseq.
  { apply takeBTCForBTS_wait_emits with (P := fun _ => True) (t0 := State.trace s);
      try (intros; exact I).
    subst s1. extend H0. all_in_alphabet. }
  intros [[[txID value] ttw] | err |] s' [HC HT]; cbn [lift_post];
    change (State.config s' = c0) in HC; clearbody s1;
    repeat wp_step; try (extend HT; discriminate).
  match goal with |- wp _ _ ?st => set (s2 := st) end.
  eapply wp_conseq.
  { apply takeBTCForBTS_poll_emits with (P := fun _ => True) (t0 := State.trace s);
      try (intros; exact I).
    subst s2. extend HT. all_in_alphabet. }
  intros [[pre ttw'] | err |] s'' [HC2 HT2]; cbn [lift_post];
    change (State.config s'' = State.config s') in HC2; rewrite HC in HC2;
    clearbody s2;
    repeat wp_step; try (extend HT2; discriminate).
  simpl_trace. rewrite HC2 in Hc. subst c. rewrite HC2.
  extend HT2. destruct Hnew as [_ Hin]. intros _. split.
  - repeat match goal with u : unit |- _ => destruct u end. exists new. reflexivity.
  - eexists. split; [reflexivity |]. apply in_or_app. left.
    cbn. eapply Hin; [reflexivity | assumption].
Qed.
End Redeemed.

(** X5. A flow returns normally only after it has redeemed the counterparty's
    HTLC. [proposeBTSForBTC] returns only when the last pass of its loop saw
    the Bitshares redeem succeed; [proposeBTCForBTS] and [takeBTCForBTS] only
    when their last action, the redeem of the watched Bitcoin P2WSH,
    succeeded; [takeBTSForBTC] only when its last action, the Bitshares
    redeem, answered [true]. The accepter flows redeem with the secret as it
    then stands in the config, whose preimage is one the chain returned
    during the run. *)
Theorem flows_return_only_after_redeeming (env : Env.t) (fuel : nat) (s : State.t) :
  (let '(o, s') := ACCS.proposeBTSForBTC env fuel s in
   let c := State.config s' in
   let new := added (State.trace s) (State.trace s') in
   o = Return tt ->
   exists h,
     ends_with [ BitsharesHTLC_redeem (htlcBTS_counterparty c) (amountBTSMini c)
                   (bitsharesPrivateKey c) (secret c) (Ok true);
                 bitcoinAPI_getLastBlock (networkName c) (Ok h);
                 setTimeout (checkAPIInterval c * 1000) ] new)
  /\ (let '(o, s') := ACCS.proposeBTCForBTS env fuel s in
      let c := State.config s' in
      let new := added (State.trace s) (State.trace s') in
      o = Return tt ->
      ends_with [ BitcoinHTLC_redeem (htlcBTC_counterparty c) (p2wsh_watched c)
                    (amountSatoshi c) (secret c) (Ok tt) ] new)
  /\ (let '(o, s') := ACCS.takeBTSForBTC env fuel s in
      let c := State.config s' in
      let new := added (State.trace s) (State.trace s') in
      o = Return tt ->
      ends_with [ BitsharesHTLC_redeem (htlcBTS_counterparty c) (amountBTSMini c)
                    (bitsharesPrivateKey c) (secret c) (Ok true) ] new
      /\ exists p,
           Secret.preimage (secret c) = Some p
           /\ In (bitcoinAPI_getPreimageFromLastTransaction (networkName c)
                    (Payment.address (p2wsh_own c)) (Ok (Some p))) new)
  /\ (let '(o, s') := ACCS.takeBTCForBTS env fuel s in
      let c := State.config s' in
      let new := added (State.trace s) (State.trace s') in
      o = Return tt ->
      ends_with [ BitcoinHTLC_redeem (htlcBTC_counterparty c) (p2wsh_watched c)
                    (amountSatoshi c) (secret c) (Ok tt) ] new
      /\ exists p,
           Secret.preimage (secret c) = Some p
           /\ In (websocket_getPreimageFromHTLC (bitsharesAccountID c)
                    (counterpartyBitsharesAccountID c)
                    (JS.toString_hex (Secret.hash (secret c))) (Ok p)) new).
Proof.
  repeat split.
  - pose proof (wp_elim _ _ _ (proposeBTSForBTC_redeemed env fuel s)) as H.
    destruct (ACCS.proposeBTSForBTC env fuel s) as [o s']. cbv zeta in H |- *.
    now apply since_added in H as [_ H].
  - pose proof (wp_elim _ _ _ (proposeBTCForBTS_redeemed env fuel s)) as H.
    destruct (ACCS.proposeBTCForBTS env fuel s) as [o s']. cbv zeta in H |- *.
    now apply since_added in H as [_ H].
  - pose proof (wp_elim _ _ _ (takeBTSForBTC_redeemed env fuel s)) as H.
    destruct (ACCS.takeBTSForBTC env fuel s) as [o s']. cbv zeta in H |- *.
    now apply since_added in H as [_ H].
  - pose proof (wp_elim _ _ _ (takeBTCForBTS_redeemed env fuel s)) as H.
    destruct (ACCS.takeBTCForBTS env fuel s) as [o s']. cbv zeta in H |- *.
    now apply since_added in H as [_ H].
Qed.

(** X5 where the counterparty acts at once: the accepter who gives BTC
    returns, having redeemed the Bitshares HTLC with the preimage ["p"]. *)
Lemma flows_return_only_after_redeeming_witness :
  let run := ACCS.takeBTSForBTC Sample.env_prompt 10 (State.start Sample.accepter_BTC) in
  fst run = Return tt
  /\ ends_with [ BitsharesHTLC_redeem (htlcBTS_counterparty Sample.accepter_BTC) 5000000 "k"
                   Sample.secret (Ok true) ]
               (State.trace (snd run)).
Proof.
  intros run.
  destruct (flows_return_only_after_redeeming Sample.env_prompt 10
              (State.start Sample.accepter_BTC)) as (_ & _ & H & _).
  fold run in H. destruct run as [o s'] eqn:E. vm_compute in E.
  injection E as <- <-. split; [reflexivity |]. apply H. reflexivity.
Defined.

Lemma app_snoc_inv {A : Type} (new before after : list A) (x y : A) :
  (new ++ [x])%list = (before ++ y :: after)%list ->
  (after = [] /\ x = y /\ new = before)
  \/ exists after', after = (after' ++ [x])%list /\ new = (before ++ y :: after')%list.
Proof.
  intros H. destruct after as [| z after' _] using rev_ind.
  - apply app_inj_tail in H as [-> ->]. auto.
  - right. exists after'.
    change (before ++ y :: after' ++ [z])%list
      with (before ++ (y :: after') ++ [z])%list in H.
    rewrite app_assoc in H. apply app_inj_tail in H as [-> ->]. auto.
Qed.

Lemma precedes_snoc (P : Trace -> Prop) (Q : Event -> Prop) new ev :
  precedes P Q new -> (Q ev -> P new) -> precedes P Q (new ++ [ev])%list.
Proof.
  intros Hnew Hev before ev' after Heq Hq.
  apply app_snoc_inv in Heq as [(_ & -> & ->) | (after' & _ & ->)].
  - now apply Hev.
  - now apply (Hnew before ev' after').
Qed.

Lemma precedes_app (P : Trace -> Prop) (Q : Event -> Prop) new ext :
  precedes P Q new -> Forall (fun ev => ~ Q ev) ext -> precedes P Q (new ++ ext)%list.
Proof.
  intros Hnew Hext. induction ext as [| ev ext IH] using rev_ind.
  - now rewrite app_nil_r.
  - apply Forall_app in Hext as [Hext Hev]. rewrite app_assoc.
    apply precedes_snoc; [now apply IH |].
    intros Hq. now apply Forall_inv in Hev.
Qed.

Lemma precedes_none (P : Trace -> Prop) (Q : Event -> Prop) new :
  Forall (fun ev => ~ Q ev) new -> precedes P Q new.
Proof.
  intros H. apply (precedes_app P Q [] new); [| exact H].
  intros [| ? ?] ? ? [=].
Qed.

Lemma since_precedes (P : Trace -> Prop) (Q : Event -> Prop) t0 t1 t2 :
  since t0 t1 (precedes P Q) -> since t1 t2 (Forall (fun ev => ~ Q ev)) ->
  since t0 t2 (precedes P Q).
Proof.
  intros (new & -> & Hnew) (ext & -> & Hext). exists (new ++ ext)%list.
  split; [now rewrite app_assoc | now apply precedes_app].
Qed.

Lemma takeBTSForBTC_found_first (env : Env.t) (fuel : nat) (s : State.t) :
  wp (ACCS.takeBTSForBTC env fuel)
     (fun _ s' =>
        since (State.trace s) (State.trace s')
          (precedes (found_BitsharesHTLC (State.config s)) is_BitcoinHTLC_create)) s.
Proof.
  set (P := found_BitsharesHTLC (State.config s)).
  set (c0 := set_timelockBTC (State.config s) (half (timelockBTC (State.config s)))).
  unfold ACCS.takeBTSForBTC, getInstance, btcCreate, pushTX, btsRedeem.
  repeat wp_step.
  2:{ simpl_trace. eexists. split; [reflexivity |]. apply precedes_none.
      repeat constructor. auto. }
  change (c1 = c0) in Hc0. subst c c1.
  match goal with |- wp _ _ ?st => set (s1 := st) end.
  unfold ACCS.takeBTSForBTC_wait.
  apply wp_while with
    (I := fun l s' =>
       since (State.trace s) (State.trace s')
         (fun new => Forall (fun ev => ~ is_BitcoinHTLC_create ev) new
                     /\ (JS.falsy (fst l) = false ->
                         In (websocket_getID (counterpartyBitsharesAccountID c0)
                               (bitsharesAccountID c0) (amountBTSMini c0)
                               (Secret.hash (secret c0)) (timelockBTS c0) (Ok (fst l)))
                            new))).
  - intros [id ttw] s' HT _. cbn [lift_post fst] in *. wp_step.
    { wp_step. apply since_same with (1 := HT). intros new [Hall _].
      now apply precedes_none. }
    assert (H1 : since (State.trace s) (State.trace s')
                   (fun new => precedes P is_BitcoinHTLC_create new /\ P new)).
    { apply since_same with (1 := HT). intros new [Hall Hin]. split.
      - now apply precedes_none.
      - exists id. split; [| now apply Hin].
        intros ->. discriminate Heqb. }
    clear HT. repeat wp_step.
    2:{ extend H1. destruct Hnew as [Hp HP]. apply precedes_snoc; auto. }
    match goal with |- wp _ _ ?st => set (s2 := st) end.
    assert (H2 : since (State.trace s) (State.trace s2) (precedes P is_BitcoinHTLC_create)).
    { subst s2. extend H1. destruct Hnew as [Hp HP]. apply precedes_snoc; auto. }
    clearbody s2. clear H1.
    eapply wp_conseq.
    { apply takeBTSForBTC_poll_emits
        with (P := fun ev => ~ is_BitcoinHTLC_create ev) (t0 := State.trace s2);
        try (intros; cbn; auto). apply since_refl. constructor. }
    intros o2 s'' [_ HT2].
    assert (H3 : since (State.trace s) (State.trace s'') (precedes P is_BitcoinHTLC_create)).
    { apply since_precedes with (1 := H2). apply since_same with (1 := HT2). now intros new []. }
    clear HT2 H2.
    destruct o2 as [[pre cur] | err |]; cbn [lift_post]; repeat wp_step;
      try (extend H3; apply precedes_app; [exact Hnew | repeat constructor; cbn; auto]);
      try exact H3.
  - intros l s' HT _. apply since_same with (1 := HT). intros new [Hall _].
    now apply precedes_none.
  - intros [id ttw] s' HT Hcond.
    unfold ACCS.takeBTSForBTC_wait_cond in Hcond. apply andb_prop in Hcond as [Hid _].
    unfold ACCS.takeBTSForBTC_wait_body, getID.
    repeat wp_step. extend HT. destruct Hnew as [Hall Hin]. cbn [fst] in *. split.
    + apply Forall_app. split; [exact Hall |]. repeat constructor; cbn; auto.
    + intros Hf. apply in_or_app. destruct r as [id' | err].
      * right. cbn. auto.
      * congruence.
  - subst s1. simpl_trace. eexists. split; [reflexivity |]. split.
    + repeat constructor. cbn. auto.
    + cbn. discriminate.
Qed.

(** X6. The accepter who gives BTC funds nothing before it has seen the
    proposer's HTLC: whenever [takeBTSForBTC] calls [create()] on a Bitcoin
    HTLC, an earlier lookup on Bitshares, for the counterparty as sender,
    itself as receiver, [amountBTSMini], the secret hash and the full
    [timelockBTS], has answered with a non-empty HTLC id. *)
Theorem takeBTSForBTC_funds_only_after_finding (env : Env.t) (fuel : nat) (s : State.t)
    (before after : Trace) (h : BitcoinHTLC.t) (config : HTLCConfigBTC.t)
    (r : Result (string * option Z)) :
  added (State.trace s) (State.trace (snd (ACCS.takeBTSForBTC env fuel s)))
  = (before ++ BitcoinHTLC_create h config r :: after)%list ->
  found_BitsharesHTLC (State.config s) before.
Proof.
  intros Hnew.
  pose proof (takeBTSForBTC_found_first env fuel s) as H. unfold wp in H.
  apply since_added in H as [_ H]. exact (H _ _ _ Hnew I).
Qed.

(** X6 where the proposer's HTLC is found by the first lookup. *)
Lemma takeBTSForBTC_funds_only_after_finding_witness :
  found_BitsharesHTLC Sample.accepter_BTC
    [ BitsharesAPI_getInstance "wss://testnet.dex.trading/" (Ok tt);
      websocket_getID "1.2.2" "1.2.1" 5000000 "h" 3600 (Ok "1.16.1");
      setTimeout 4000 ].
Proof.
  eapply (takeBTSForBTC_funds_only_after_finding Sample.env_prompt 10
            (State.start Sample.accepter_BTC)).
  vm_compute. reflexivity.
Defined.

Lemma takeBTCForBTS_checked_first (env : Env.t) (fuel : nat) (s : State.t) :
  checkAPIInterval (State.config s) = 4 ->
  wp (ACCS.takeBTCForBTS env fuel)
     (fun _ s' =>
        since (State.trace s) (State.trace s')
          (precedes (funding_checked (State.config s)) is_BitsharesHTLC_create)) s.
Proof.
  intros Hinterval.
  set (P := funding_checked (State.config s)).
  set (c0 := set_timelockBTS (State.config s) (half (timelockBTS (State.config s)))).
  unfold ACCS.takeBTCForBTS, getInstance, calculateFee, btsCreate, btcRedeem.
  repeat wp_step.
  2:{ simpl_trace. eexists. split; [reflexivity |]. apply precedes_none.
      repeat constructor. auto. }
  change (c1 = c0) in Hc0. subst c c1.
  match goal with |- wp _ _ ?st => set (s1 := st) end.
  unfold ACCS.takeBTCForBTS_wait.
  apply wp_while with
    (I := fun l s' =>
       (exists k, 0 <= k /\ snd l = 4 * k)
       /\ since (State.trace s) (State.trace s')
            (fun new =>
               Forall (fun ev => ~ is_BitsharesHTLC_create ev) new
               /\ (fst (fst l) = None
                   \/ exists tx v,
                        snd (fst l) = Some v
                        /\ In (bitcoinAPI_getValueFromLastTransaction (networkName c0)
                                 (Payment.address (p2wsh_watched c0)) (Ok (tx, v)))
                              new))).
  - intros [[txID value] ttw] s' [(k & Hk & Httw) HT] Hcond. cbn [fst snd lift_post] in *.
    unfold ACCS.takeBTCForBTS_wait_cond in Hcond.
    wp_step.
    { wp_step. apply since_same with (1 := HT). intros new [Hall _].
      now apply precedes_none. }
    apply Z.eqb_neq in Heqb.
    apply andb_false_iff in Hcond as [Hnull | Hle]; [| apply Z.ltb_ge in Hle; lia].
    destruct txID as [tx0 |]; [clear Hnull | discriminate Hnull].
    assert (HT' : exists v, value = Some v
                  /\ since (State.trace s) (State.trace s')
                       (fun new => Forall (fun ev => ~ is_BitsharesHTLC_create ev) new
                          /\ exists tx,
                               In (bitcoinAPI_getValueFromLastTransaction (networkName c0)
                                     (Payment.address (p2wsh_watched c0)) (Ok (tx, v)))
                                  new)).
    { destruct HT as (new & Hnew & Hb & [Hn | (tx & v & Hv & Hin)]);
        [discriminate Hn |].
      exists v. split; [exact Hv |]. exists new. split; [exact Hnew |]. eauto. }
    clear HT. destruct HT' as (v & -> & HT).
    do 2 wp_step.
    2:{ extend HT. apply precedes_none. apply Forall_app. split; [apply Hnew |].
        repeat constructor. auto. }
    wp_step.
    { wp_step. extend HT. apply precedes_none. apply Forall_app. split; [apply Hnew |].
      repeat constructor. auto. }
    cbn [JS.nullable_lt] in Heqb0. apply Z.ltb_ge in Heqb0.
    match goal with |- wp _ _ ?st => set (s2 := st) end.
    assert (H2 : since (State.trace s) (State.trace s2)
                   (fun new => precedes P is_BitsharesHTLC_create new /\ P new)).
    { subst s2. extend HT. destruct Hnew as (Hall & tx & Hin). split.
      - apply precedes_none. apply Forall_app. split; [exact Hall |].
        repeat constructor. auto.
      - exists tx, v. eexists. split; [apply in_or_app; left; exact Hin |].
        split; [apply in_or_app; right; cbn; left; reflexivity |].
        exact Heqb0. }
    clearbody s2. clear HT.
    repeat wp_step.
    2:{ extend H2. destruct Hnew as [Hp HP]. apply precedes_snoc; auto. }
    match goal with |- wp _ _ ?st => set (s3 := st) end.
    assert (H3 : since (State.trace s) (State.trace s3)
                   (precedes P is_BitsharesHTLC_create)).
    { subst s3. extend H2. destruct Hnew as [Hp HP]. apply precedes_snoc; auto. }
    clearbody s3. clear H2.
    eapply wp_conseq.
    { apply takeBTCForBTS_poll_emits
        with (P := fun ev => ~ is_BitsharesHTLC_create ev) (t0 := State.trace s3);
        try (intros; cbn; auto). apply since_refl. constructor. }
    intros o2 s'' [_ HT2].
    assert (H4 : since (State.trace s) (State.trace s'')
                   (precedes P is_BitsharesHTLC_create)).
    { apply since_precedes with (1 := H3). apply since_same with (1 := HT2).
      now intros new []. }
    clear HT2 H3.
    destruct o2 as [[pre ttw'] | err |]; cbn [lift_post]; repeat wp_step;
      try (extend H4; apply precedes_app; [exact Hnew | repeat constructor; cbn; auto]);
      try exact H4.
  - intros l s' [_ HT] _. apply since_same with (1 := HT). intros new [Hall _].
    now apply precedes_none.
  - intros [[txID value] ttw] s' [(k & Hk & Httw) HT] Hcond. cbn [fst snd] in *.
    unfold ACCS.takeBTCForBTS_wait_cond in Hcond.
    apply andb_prop in Hcond as [Hnull Hpos]. apply Z.ltb_lt in Hpos.
    unfold ACCS.takeBTCForBTS_wait_body, getValueFromLastTransaction.
    repeat wp_step. cbn [fst snd].
    replace (checkAPIInterval c0) with 4 by (symmetry; exact Hinterval). split.
    + exists (k - 1). lia.
    + extend HT. destruct Hnew as [Hall Hseen]. split.
      * apply Forall_app. split; [exact Hall |]. repeat constructor; cbn; auto.
      * destruct r as [[tx v] | err]; cbn in Heqp; injection Heqp as <- <-.
        -- right. do 2 eexists. split; [reflexivity |].
           apply in_or_app. right. cbn. left. reflexivity.
        -- destruct txID; [discriminate Hnull | left; reflexivity].
  - split; [exists 450; cbn; lia |]. subst s1. simpl_trace.
    eexists. split; [reflexivity |]. split.
    + repeat constructor. cbn. auto.
    + left. reflexivity.
Qed.

(** X7. With the polling interval of a parsed config, the accepter who gives
    BTS locks nothing before it has checked the proposer's funding: whenever
    [takeBTCForBTS] calls [create()] on a Bitshares HTLC, it has before that
    read a funding transaction of the watched P2WSH and a fee estimate, and
    the value funded is at least [amountSatoshi - fees.max]. *)
Theorem takeBTCForBTS_locks_only_after_checking (env : Env.t) (fuel : nat) (s : State.t)
    (Hinterval : checkAPIInterval (State.config s) = 4)
    (before after : Trace) (h : BitsharesHTLC.t) (config : HTLCConfigBTS.t)
    (r : Result unit) :
  added (State.trace s) (State.trace (snd (ACCS.takeBTCForBTS env fuel s)))
  = (before ++ BitsharesHTLC_create h config r :: after)%list ->
  funding_checked (State.config s) before.
Proof.
  intros Hnew.
  pose proof (takeBTCForBTS_checked_first env fuel s Hinterval) as H. unfold wp in H.
  apply since_added in H as [_ H]. exact (H _ _ _ Hnew I).
Qed.

(** X7 where the funding, of the full amount, is seen by the first poll. *)
Lemma takeBTCForBTS_locks_only_after_checking_witness :
  funding_checked Sample.accepter_BTS
    [ BitsharesAPI_getInstance "wss://testnet.dex.trading/" (Ok tt);
      bitcoinAPI_getValueFromLastTransaction "testnet"
        (Payment.address (p2wsh_watched Sample.accepter_BTS)) (Ok ("funding", 100000));
      setTimeout 4000;
      BitcoinHTLC_calculateFee (htlcBTC_counterparty Sample.accepter_BTS)
        (Ok {| Fee.max := 1000; Fee.want := 500 |}) ].
Proof.
  eapply (takeBTCForBTS_locks_only_after_checking Sample.env_prompt 10
            (State.start Sample.accepter_BTS) eq_refl).
  vm_compute. reflexivity.
Defined.

Lemma counts_app k b k' b' new ext :
  counts k b new -> counts k' b' ext -> counts (k + k') (b + b') (new ++ ext)%list.
Proof.
  unfold counts, creations, btcCreate_sequences, btsCreate_times, broadcasts.
  intros [Hk Hb] [Hk' Hb']. rewrite !flat_map_app, !length_app. lia.
Qed.

Lemma counts_quiet ext : Forall quiet ext -> counts 0 0 ext.
Proof.
  induction 1 as [| ev ext Hev _ IH]; [split; reflexivity |].
  change (ev :: ext) with ([ev] ++ ext)%list.
  apply (counts_app 0 0 0 0); [| exact IH].
  destruct ev; cbn in Hev; try contradiction; split; reflexivity.
Qed.

Lemma since_counts k b t0 t1 t2 :
  since t0 t1 (counts k b) -> since t1 t2 (Forall quiet) -> since t0 t2 (counts k b).
Proof.
  intros (new & -> & Hnew) (ext & -> & Hext). exists (new ++ ext)%list.
  split; [now rewrite app_assoc |].
  replace k with (k + 0)%nat by lia. replace b with (b + 0)%nat by lia.
  apply counts_app; [exact Hnew | now apply counts_quiet].
Qed.

(** The goal's trace is the one of [H] with some events appended. *)
Ltac count H :=
  simpl_trace;
  first [ apply since_app with (1 := H) | apply since_same with (1 := H) ];
  let new := fresh "new" in let Hnew := fresh "Hnew" in
  intros new Hnew;
  try (eexists; eexists;
       match goal with
       | |- counts _ _ (_ ++ _)%list /\ _ =>
           split; [apply counts_app; [exact Hnew | split; reflexivity] | cbn; lia]
       | |- counts _ _ _ /\ _ => split; [exact Hnew | cbn; lia]
       end).

Section Counting.
Context (env : Env.t) (fuel : nat).

Lemma proposeBTSForBTC_counts s :
  wp (ACCS.proposeBTSForBTC env fuel)
     (fun _ s' => since (State.trace s) (State.trace s') counted) s.
Proof.
  pose proof (since_refl (counts 0 0) (State.trace s) (conj eq_refl eq_refl)) as H0.
  unfold ACCS.proposeBTSForBTC, btcCreate, pushTX, counted.
  repeat wp_step.
  2:{ count H0. }
  match goal with |- wp _ _ ?st => set (s1 := st) end.
  assert (H1 : since (State.trace s) (State.trace s1) (counts 1 0)).
  { subst s1. simpl_trace. apply since_app with (1 := H0). intros new Hnew.
    apply (counts_app 0 0 1 0); [exact Hnew | split; reflexivity]. }
  clearbody s1.
  eapply wp_conseq.
  { apply proposeBTSForBTC_poll_emits with (P := quiet) (t0 := State.trace s1);
      try (intros; exact I). apply since_refl. constructor. }
  intros o2 s' [_ HT]. pose proof (since_counts _ _ _ _ _ H1 HT) as H2.
  destruct o2 as [[success cur] | err |]; cbn [lift_post]; repeat wp_step; count H2.
Qed.

Lemma proposeBTCForBTS_counts s :
  wp (ACCS.proposeBTCForBTS env fuel)
     (fun _ s' => since (State.trace s) (State.trace s')
                    (fun new => counted new /\ broadcasts new = [])) s.
Proof.
  eapply wp_conseq with
    (Q := fun _ s' => since (State.trace s) (State.trace s')
                        (fun new => exists k, counts k 0 new /\ (k <= 1)%nat)).
  2:{ intros o s' H. apply since_same with (1 := H). intros new (k & [Hk Hb] & Hle).
      split.
      - exists k, 0%nat. repeat split; auto; lia.
      - now apply length_zero_iff_nil. }
  pose proof (since_refl (counts 0 0) (State.trace s) (conj eq_refl eq_refl)) as H0.
  unfold ACCS.proposeBTCForBTS, btsCreate, btcRedeem.
  repeat wp_step.
  2:{ simpl_trace. apply since_app with (1 := H0). intros new Hnew. exists 1%nat.
      split; [| lia]. apply (counts_app 0 0 1 0); [exact Hnew | split; reflexivity]. }
  match goal with |- wp _ _ ?st => set (s1 := st) end.
  assert (H1 : since (State.trace s) (State.trace s1) (counts 1 0)).
  { subst s1. simpl_trace. apply since_app with (1 := H0). intros new Hnew.
    apply (counts_app 0 0 1 0); [exact Hnew | split; reflexivity]. }
  clearbody s1.
  eapply wp_conseq.
  { apply proposeBTCForBTS_poll_emits with (P := quiet) (t0 := State.trace s1);
      try (intros; exact I). apply since_refl. constructor. }
  intros o2 s' [_ HT]. pose proof (since_counts _ _ _ _ _ H1 HT) as H2.
  destruct o2 as [[txID ttw] | err |]; cbn [lift_post]; repeat wp_step; simpl_trace;
    first [ apply since_app with (1 := H2) | apply since_same with (1 := H2) ];
    intros new Hnew; exists 1%nat; (split; [| lia]);
    try exact Hnew;
    (apply (counts_app 1 0 0 0); [exact Hnew | split; reflexivity]).
Qed.

Lemma takeBTSForBTC_counts s :
  wp (ACCS.takeBTSForBTC env fuel)
     (fun _ s' => since (State.trace s) (State.trace s') counted) s.
Proof.
  pose proof (since_refl (counts 0 0) (State.trace s) (conj eq_refl eq_refl)) as H0.
  unfold ACCS.takeBTSForBTC, getInstance, btcCreate, pushTX, btsRedeem, counted.
  repeat wp_step.
  2:{ count H0. }
  match goal with |- wp _ _ ?st => set (s1 := st) end.
  assert (H1 : since (State.trace s) (State.trace s1) (counts 0 0)).
  { subst s1. simpl_trace. apply since_app with (1 := H0). intros new Hnew.
    apply (counts_app 0 0 0 0); [exact Hnew | split; reflexivity]. }
  clearbody s1.
  eapply wp_conseq.
  { apply takeBTSForBTC_wait_emits with (P := quiet) (t0 := State.trace s1);
      try (intros; exact I). apply since_refl. constructor. }
  intros o2 s' [_ HT]. pose proof (since_counts _ _ _ _ _ H1 HT) as H2.
  clear H1 HT.
  destruct o2 as [[id ttw] | err |]; cbn [lift_post]; repeat wp_step; try (count H2).
  match goal with |- wp _ _ ?st => set (s2 := st) end.
  assert (H3 : since (State.trace s) (State.trace s2) (counts 1 0)).
  { subst s2. simpl_trace. apply since_app with (1 := H2). intros new Hnew.
    apply (counts_app 0 0 1 0); [exact Hnew | split; reflexivity]. }
  clearbody s2.
  eapply wp_conseq.
  { apply takeBTSForBTC_poll_emits with (P := quiet) (t0 := State.trace s2);
      try (intros; exact I). apply since_refl. constructor. }
  intros o3 s'' [_ HT].
  assert (H4 : since (State.trace s) (State.trace s'') (counts 1 0)).
  { apply since_counts with (1 := H3). apply since_same with (1 := HT). now intros new []. }
  clear H3 HT.
  destruct o3 as [[pre cur] | err |]; cbn [lift_post]; repeat wp_step; count H4.
Qed.

Lemma takeBTCForBTS_counts s :
  wp (ACCS.takeBTCForBTS env fuel)
     (fun _ s' => since (State.trace s) (State.trace s')
                    (fun new => counted new /\ broadcasts new = [])) s.
Proof.
  eapply wp_conseq with
    (Q := fun _ s' => since (State.trace s) (State.trace s')
                        (fun new => exists k, counts k 0 new /\ (k <= 1)%nat)).
  2:{ intros o s' H. apply since_same with (1 := H). intros new (k & [Hk Hb] & Hle).
      split.
      - exists k, 0%nat. repeat split; auto; lia.
      - now apply length_zero_iff_nil. }
  pose proof (since_refl (counts 0 0) (State.trace s) (conj eq_refl eq_refl)) as H0.
  unfold ACCS.takeBTCForBTS, getInstance, calculateFee, btsCreate, btcRedeem.
  repeat wp_step.
  2:{ simpl_trace. apply since_app with (1 := H0). intros new Hnew. exists 0%nat.
      split; [| lia]. apply (counts_app 0 0 0 0); [exact Hnew | split; reflexivity]. }
  match goal with |- wp _ _ ?st => set (s1 := st) end.
  assert (H1 : since (State.trace s) (State.trace s1) (counts 0 0)).
  { subst s1. simpl_trace. apply since_app with (1 := H0). intros new Hnew.
    apply (counts_app 0 0 0 0); [exact Hnew | split; reflexivity]. }
  clearbody s1.
  eapply wp_conseq.
  { apply takeBTCForBTS_wait_emits with (P := quiet) (t0 := State.trace s1);
      try (intros; exact I). apply since_refl. constructor. }
  intros o2 s' [_ HT]. pose proof (since_counts _ _ _ _ _ H1 HT) as H2.
  clear H1 HT.
  destruct o2 as [[[txID value] ttw] | err |]; cbn [lift_post]; repeat wp_step;
    try (simpl_trace;
         first [ apply since_app with (1 := H2) | apply since_same with (1 := H2) ];
         intros new Hnew;
         first [ exists 0%nat; split;
                 [ first [ exact Hnew
                         | apply (counts_app 0 0 0 0); [exact Hnew | split; reflexivity] ]
                 | lia ]
               | exists 1%nat; split;
                 [ apply (counts_app 0 0 1 0); [exact Hnew | split; reflexivity] | lia ] ];
         fail).
  match goal with |- wp _ _ ?st => set (s2 := st) end.
  assert (H3 : since (State.trace s) (State.trace s2) (counts 1 0)).
  { subst s2. simpl_trace. apply since_app with (1 := H2). intros new Hnew.
    apply (counts_app 0 0 1 0); [exact Hnew | split; reflexivity]. }
  clearbody s2.
  eapply wp_conseq.
  { apply takeBTCForBTS_poll_emits with (P := quiet) (t0 := State.trace s2);
      try (intros; exact I). apply since_refl. constructor. }
  intros o3 s'' [_ HT].
  assert (H4 : since (State.trace s) (State.trace s'') (counts 1 0)).
  { apply since_counts with (1 := H3). apply since_same with (1 := HT). now intros new []. }
  clear H3 HT.
  destruct o3 as [[pre ttw'] | err |]; cbn [lift_post]; repeat wp_step; simpl_trace;
    first [ apply since_app with (1 := H4) | apply since_same with (1 := H4) ];
    intros new Hnew; exists 1%nat; (split; [| lia]);
    try exact Hnew;
    (apply (counts_app 1 0 0 0); [exact Hnew | split; reflexivity]).
Qed.
End Counting.

Lemma counted_bounds new :
  counted new -> (length (broadcasts new) <= creations new <= 1)%nat.
Proof. intros (k & b & [Hk Hb] & Hle). lia. Qed.


Lemma wp_while_exit {S L : Type} fuel (cond : L -> bool) (body : L -> M S L)
    (Q : Outcome L -> S -> Prop) l s :
  cond l = false -> Q (Return l) s -> wp (while fuel cond body l) Q s.
Proof. intros Hc HQ. unfold wp. destruct fuel; simpl; rewrite Hc; exact HQ. Qed.

Lemma known_not_unmined new h config refundHex :
  Forall funding_height_known new ->
  ~ In (BitcoinHTLC_create h config (Ok (refundHex, None))) new.
Proof.
  intros Hall Hin. rewrite Forall_forall in Hall. exact (Hall _ Hin).
Qed.

Lemma refunded_at_once_known o new : Forall funding_height_known new -> refunded_at_once o new.
Proof. intros Hall h config hex Hin. now apply known_not_unmined in Hin. Qed.

Lemma refunded_at_once_here before h config refundHex r e :
  Forall funding_height_known before ->
  refunded_at_once (Throw e)
    (before ++ [ BitcoinHTLC_create h config (Ok (refundHex, None));
                 bitcoinAPI_pushTX (BitcoinHTLC.network h) refundHex r ])%list.
Proof.
  intros Hall h' config' hex' Hin. split; [reflexivity |].
  apply in_app_or in Hin as [Hin | [Hin | [Hin | []]]].
  - now apply known_not_unmined in Hin.
  - injection Hin as <- <- <-. exists r, before. reflexivity.
  - discriminate Hin.
Qed.

Section Unmined.
Context (env : Env.t) (fuel : nat).

Lemma proposeBTSForBTC_unmined s :
  wp (ACCS.proposeBTSForBTC env fuel)
     (fun o s' => since (State.trace s) (State.trace s') (refunded_at_once o)) s.
Proof.
  pose proof (since_refl (Forall funding_height_known) (State.trace s) (Forall_nil _)) as H0.
  unfold ACCS.proposeBTSForBTC, btcCreate, pushTX.
  repeat wp_step.
  2:{ extend H0. apply refunded_at_once_known. all_in_alphabet. }
  match goal with H : _ = (_, ?o) |- _ => destruct o as [h0 |] end.
  - match goal with |- wp _ _ ?st => set (s1 := st) end.
    eapply wp_conseq.
    { apply proposeBTSForBTC_poll_emits with (P := funding_height_known)
        (t0 := State.trace s); try (intros; exact I).
      subst s1. extend H0. all_in_alphabet. }
    intros [[success cur] | err |] s' [_ HT]; cbn [lift_post]; repeat wp_step;
      extend HT; apply refunded_at_once_known; all_in_alphabet.
  - unfold ACCS.proposeBTSForBTC_poll. apply wp_while_exit; [reflexivity |].
    cbn [lift_post]. repeat wp_step; try discriminate; simpl_trace.
    + eexists. split; [reflexivity |].
      apply (refunded_at_once_here []). constructor.
    + eexists. split; [reflexivity |].
      apply (refunded_at_once_here []). constructor.
Qed.

Lemma takeBTSForBTC_unmined s :
  wp (ACCS.takeBTSForBTC env fuel)
     (fun o s' => since (State.trace s) (State.trace s') (refunded_at_once o)) s.
Proof.
  pose proof (since_refl (Forall funding_height_known) (State.trace s) (Forall_nil _)) as H0.
  unfold ACCS.takeBTSForBTC, getInstance, btcCreate, pushTX, btsRedeem.
  repeat wp_step.
  2:{ extend H0. apply refunded_at_once_known. all_in_alphabet. }
  match goal with |- wp _ _ ?st => set (s1 := st) end.
  eapply wp_conseq.
  { apply takeBTSForBTC_wait_emits with (P := funding_height_known) (t0 := State.trace s);
      try (intros; exact I).
    subst s1. extend H0. all_in_alphabet. }
  clearbody s1.
  intros [[id ttw] | err |] s' [_ HT]; cbn [lift_post]; repeat wp_step;
    try (extend HT; apply refunded_at_once_known; all_in_alphabet).
  match goal with H : _ = (_, ?o) |- _ => destruct o as [h0 |] end.
  - match goal with |- wp _ _ ?st => set (s2 := st) end.
    eapply wp_conseq.
    { apply takeBTSForBTC_poll_emits with (P := funding_height_known)
        (t0 := State.trace s); try (intros; exact I).
      subst s2. extend HT. all_in_alphabet. }
    clearbody s2.
    intros [[pre cur] | err |] s'' [_ HT2]; cbn [lift_post]; repeat wp_step;
      extend HT2; destruct Hnew as [Hall _]; apply refunded_at_once_known; all_in_alphabet.
  - unfold ACCS.takeBTSForBTC_poll. apply wp_while_exit; [reflexivity |].
    cbn [lift_post]. repeat wp_step; try discriminate; extend HT;
      change [?a; ?b] with ([] ++ [a; b])%list; rewrite app_assoc;
      apply refunded_at_once_here; rewrite app_nil_r; exact Hnew.
Qed.
End Unmined.

(** X9. A funding height that [create()] left undefined ends the wait
    before it starts. The horizon [undefined + timelockBTC] is [NaN], the
    loop condition is false at once, and so [proposeBTSForBTC] and
    [takeBTSForBTC] make no poll at all: right after [create()] they
    broadcast the refund hex it returned, and throw, whatever the counterparty
    does afterwards. *)
Theorem undefined_funding_height_ends_the_wait (env : Env.t) (fuel : nat) (s : State.t) :
  (let '(o, s') := ACCS.proposeBTSForBTC env fuel s in
   refunded_at_once o (added (State.trace s) (State.trace s')))
  /\ (let '(o, s') := ACCS.takeBTSForBTC env fuel s in
      refunded_at_once o (added (State.trace s) (State.trace s'))).
Proof.
  split.
  - pose proof (wp_elim _ _ _ (proposeBTSForBTC_unmined env fuel s)) as H.
    destruct (ACCS.proposeBTSForBTC env fuel s) as [o s'].
    now apply since_added in H as [_ H].
  - pose proof (wp_elim _ _ _ (takeBTSForBTC_unmined env fuel s)) as H.
    destruct (ACCS.takeBTSForBTC env fuel s) as [o s'].
    now apply since_added in H as [_ H].
Qed.

(** X9 where [create()] returns before the funding transaction is mined:
    the proposer's run is [create()], then the refund. *)
Lemma undefined_funding_height_ends_the_wait_witness :
  let run := ACCS.proposeBTSForBTC Scene.env_unmined 10 (State.start Sample.proposer_BTC) in
  let c := set_timelockBTS Sample.proposer_BTC 1800 in
  is_Throw (fst run) = true
  /\ exists r,
       ends_with [ BitcoinHTLC_create (htlcBTC_own c) (configBTC c) (Ok ("refund", None));
                   bitcoinAPI_pushTX "testnet" "refund" r ]
                 (State.trace (snd run)).
Proof.
  intros run c.
  destruct (undefined_funding_height_ends_the_wait Scene.env_unmined 10
              (State.start Sample.proposer_BTC)) as [H _].
  fold run in H. destruct run as [o s'] eqn:E. vm_compute in E.
  injection E as <- <-.
  apply (H (htlcBTC_own c) (configBTC c) "refund"). vm_compute. auto.
Defined.

Section Stalled.
Context (env : Env.t) (c : ACCSConfig.t) (hBTC : BitcoinHTLC.t) (horizon : Z).

Lemma proposeBTSForBTC_body_eq (hBTS : BitsharesHTLC.t) (success : bool) (cur : Z)
    (s : State.t) :
  ACCS.proposeBTSForBTC_body env c hBTC hBTS (success, cur) s
  = let r := Env.btsRedeem env (State.trace s) hBTS (amountBTSMini c)
               (bitsharesPrivateKey c) (secret c) in
    let t1 := (State.trace s
               ++ [BitsharesHTLC_redeem hBTS (amountBTSMini c) (bitsharesPrivateKey c)
                     (secret c) r])%list in
    match Env.getLastBlock env t1 (BitcoinHTLC.network hBTC) with
    | Ok h =>
        (Return (match r with Ok b => b | Err _ => success end, h),
         {| State.config := State.config s;
            State.trace := (t1 ++ [ bitcoinAPI_getLastBlock (BitcoinHTLC.network hBTC) (Ok h);
                                    setTimeout (checkAPIInterval c * 1000) ])%list |})
    | Err e =>
        (Throw e,
         {| State.config := State.config s;
            State.trace := (t1 ++ [ bitcoinAPI_getLastBlock (BitcoinHTLC.network hBTC)
                                      (Err e) ])%list |})
    end.
Proof.
  unfold ACCS.proposeBTSForBTC_body, bind, settle, btsRedeem, getLastBlock_height,
    await, sleep, ret.
  cbn [get_trace log_event Traced_State State.trace State.config]. cbv zeta.
  destruct (Env.btsRedeem env (State.trace s) hBTS (amountBTSMini c)
              (bitsharesPrivateKey c) (secret c)) as [b | err];
    cbn [State.trace State.config];
    match goal with
    | |- context [Env.getLastBlock env ?t ?n] => destruct (Env.getLastBlock env t n)
    end; cbn [State.trace State.config]; rewrite <- ?app_assoc; reflexivity.
Qed.

Lemma takeBTSForBTC_body_eq (p2wsh : Payment.t) (l : option string * Z) (s : State.t) :
  ACCS.takeBTSForBTC_body env c hBTC p2wsh l s
  = match Env.getLastBlock env (State.trace s) (BitcoinHTLC.network hBTC) with
    | Ok h =>
        let t1 := (State.trace s
                   ++ [bitcoinAPI_getLastBlock (BitcoinHTLC.network hBTC) (Ok h)])%list in
        let r := Env.getPreimageFromLastTransaction env t1 (BitcoinHTLC.network hBTC)
                   (Payment.address p2wsh) in
        match r with
        | Ok preimage =>
            (Return (preimage, h),
             {| State.config := State.config s;
                State.trace :=
                  (t1 ++ [ bitcoinAPI_getPreimageFromLastTransaction
                             (BitcoinHTLC.network hBTC) (Payment.address p2wsh) r;
                           setTimeout (checkAPIInterval c * 1000) ])%list |})
        | Err e =>
            (Throw e,
             {| State.config := State.config s;
                State.trace :=
                  (t1 ++ [ bitcoinAPI_getPreimageFromLastTransaction
                             (BitcoinHTLC.network hBTC) (Payment.address p2wsh) r ])%list |})
        end
    | Err e =>
        (Throw e,
         {| State.config := State.config s;
            State.trace :=
              (State.trace s
               ++ [bitcoinAPI_getLastBlock (BitcoinHTLC.network hBTC) (Err e)])%list |})
    end.
Proof.
  unfold ACCS.takeBTSForBTC_body, bind, getLastBlock_height,
    getPreimageFromLastTransaction, await, sleep, ret.
  cbn [get_trace log_event Traced_State State.trace State.config]. cbv zeta.
  destruct (Env.getLastBlock env (State.trace s) (BitcoinHTLC.network hBTC)) as [h | e];
    cbn [State.trace State.config]; [| reflexivity].
  match goal with
  | |- context [Env.getPreimageFromLastTransaction env ?t ?n ?a] =>
      destruct (Env.getPreimageFromLastTransaction env t n a)
  end; cbn [State.trace State.config]; rewrite <- ?app_assoc; reflexivity.
Qed.

Hypothesis Hstalled : stalled env hBTC horizon.

Lemma proposeBTSForBTC_poll_stalled (hBTS : BitsharesHTLC.t) :
  (forall t, Env.btsRedeem env t hBTS (amountBTSMini c) (bitsharesPrivateKey c) (secret c)
             <> Ok true) ->
  forall fuel cur s,
    cur < horizon ->
    let run := while fuel (ACCS.proposeBTSForBTC_cond (Some horizon))
                 (ACCS.proposeBTSForBTC_body env c hBTC hBTS) (false, cur) s in
    fst run = OutOfFuel
    /\ exists new, State.trace (snd run) = (State.trace s ++ new)%list
                   /\ slept_ms new = Z.of_nat fuel * (checkAPIInterval c * 1000).
Proof.
  intros Hredeem. induction fuel as [| fuel IH]; intros cur s Hcur; cbv zeta.
  - cbn [while]. unfold ACCS.proposeBTSForBTC_cond, JS.lt_nan.
    apply Z.ltb_lt in Hcur. rewrite Hcur. cbn. split; [reflexivity |].
    exists []. now rewrite app_nil_r.
  - cbn [while].
    assert (Hc : ACCS.proposeBTSForBTC_cond (Some horizon) (false, cur) = true)
      by (unfold ACCS.proposeBTSForBTC_cond, JS.lt_nan; cbn; now apply Z.ltb_lt).
    rewrite Hc, proposeBTSForBTC_body_eq. cbv zeta.
    set (r := Env.btsRedeem env (State.trace s) hBTS (amountBTSMini c)
                (bitsharesPrivateKey c) (secret c)).
    assert (Hr : match r with Ok s => s | Err _ => false end = false).
    { pose proof (Hredeem (State.trace s)) as Hne. fold r in Hne.
      destruct r as [[|] | err]; congruence. }
    destruct (Hstalled (State.trace s
                ++ [BitsharesHTLC_redeem hBTS (amountBTSMini c) (bitsharesPrivateKey c)
                      (secret c) r])%list) as (h & Hh & Hhlt).
    rewrite Hh, Hr. cbv beta iota.
    match goal with
    | |- context [while fuel _ _ (false, h) ?st] =>
        destruct (IH h st Hhlt) as (Ho & new & Ht & Hs)
    end.
    split; [exact Ho |].
    rewrite Ht; cbn [State.trace]; rewrite <- !app_assoc; cbn [app].
    eexists; (split; [reflexivity |]).
    cbn [slept_ms fold_right]; fold (slept_ms new); rewrite Hs; lia.
Qed.

Lemma takeBTSForBTC_poll_stalled (p2wsh : Payment.t) :
  (forall t, Env.getPreimageFromLastTransaction env t (BitcoinHTLC.network hBTC)
               (Payment.address p2wsh) = Ok None) ->
  0 < horizon ->
  forall fuel l s,
    ACCS.takeBTSForBTC_cond (Some horizon) l = true ->
    let run := while fuel (ACCS.takeBTSForBTC_cond (Some horizon))
                 (ACCS.takeBTSForBTC_body env c hBTC p2wsh) l s in
    fst run = OutOfFuel
    /\ exists new, State.trace (snd run) = (State.trace s ++ new)%list
                   /\ slept_ms new = Z.of_nat fuel * (checkAPIInterval c * 1000).
Proof.
  intros Hunspent Hpos. induction fuel as [| fuel IH]; intros l s Hcond; cbv zeta.
  - cbn [while]. rewrite Hcond. cbn. split; [reflexivity |].
    exists []. now rewrite app_nil_r.
  - cbn [while]. rewrite Hcond. rewrite takeBTSForBTC_body_eq.
    destruct (Hstalled (State.trace s)) as (h & Hh & Hhlt). rewrite Hh. cbv zeta.
    rewrite Hunspent. cbv beta iota.
    match goal with
    | |- context [while fuel _ _ ?l' ?st] =>
        destruct (IH l' st) as (Ho & new & Ht & Hs)
    end.
    { unfold ACCS.takeBTSForBTC_cond, JS.lt_nan. cbn. now apply Z.ltb_lt. }
    split; [exact Ho |].
    rewrite Ht; cbn [State.trace]; rewrite <- !app_assoc; cbn [app].
    eexists; (split; [reflexivity |]).
    cbn [slept_ms fold_right]; fold (slept_ms new); rewrite Hs; lia.
Qed.
End Stalled.



Lemma since_waited b B {A : Type} (o : Outcome A) t0 t1 t2 :
  since t0 t1 (within b) -> since t1 t2 (waited B o) ->
  (exists l, o = Return l) /\ since t0 t2 (within (b + B)).
Proof.
  intros (new & -> & Hs & Ho) (ext & -> & Hret & Hs' & Ho').
  split; [exact Hret |]. exists (new ++ ext)%list. split; [now rewrite app_assoc |].
  split.
  - rewrite slept_ms_app. lia.
  - now rewrite observed_heights_app, Ho, Ho'.
Qed.

Ltac stays_within H :=
  simpl_trace;
  first [ apply since_app with (1 := H) | apply since_same with (1 := H) ];
  let new := fresh "new" in let Hs := fresh "Hs" in let Ho := fresh "Ho" in
  intros new [Hs Ho]; unfold ended_within, within;
  repeat split; try reflexivity; count_sleep; rewrite ?Ho; try reflexivity; try lia.

Section Countdown.
Context (env : Env.t) (fuel : nat).

Lemma proposeBTCForBTS_ends s :
  checkAPIInterval (State.config s) = 4 ->
  let polls := JS.Math_round (JS.div (timelockBTS (State.config s)) 4) in
  (Z.to_nat polls <= fuel)%nat ->
  wp (ACCS.proposeBTCForBTS env fuel)
     (fun o s' => since (State.trace s) (State.trace s')
                    (ended_within (Z.max 0 polls * 4000) o)) s.
Proof.
  intros Hinterval polls Hfuel.
  set (c0 := set_timelockBTC (State.config s) (half (timelockBTC (State.config s)))).
  assert (H0 : since (State.trace s) (State.trace s) (within 0))
    by (apply since_refl; split; [reflexivity | reflexivity]).
  unfold ACCS.proposeBTCForBTS, btsCreate, btcRedeem.
  repeat wp_step; subst c.
  2:{ stays_within H0. }
  match goal with |- wp _ _ ?st => set (s1 := st) end.
  assert (H1 : since (State.trace s) (State.trace s1) (within 0)).
  { subst s1. stays_within H0. }
  clearbody s1.
  eapply wp_conseq.
  { apply proposeBTCForBTS_poll_bound with (c := c0) (s := s1);
      [exact Hinterval |].
    cbn [checkAPIInterval timelockBTS set_timelockBTC].
    rewrite Hinterval. exact Hfuel. }
  intros o2 s' HT.
  cbn [checkAPIInterval timelockBTS set_timelockBTC] in HT.
  rewrite Hinterval in HT. fold polls in HT.
  destruct (since_waited _ _ _ _ _ _ H1 HT) as [[l ->] H2].
  destruct l as [txID ttw]. cbn [lift_post]. repeat wp_step; stays_within H2.
Qed.

Lemma takeBTCForBTS_ends s :
  checkAPIInterval (State.config s) = 4 ->
  let wait := half (timelockBTS (State.config s)) in
  (450 <= fuel)%nat -> (Z.to_nat wait <= fuel)%nat ->
  wp (ACCS.takeBTCForBTS env fuel)
     (fun o s' => since (State.trace s) (State.trace s')
                    (ended_within (1800 * 1000 + Z.max 0 wait * 1000) o)) s.
Proof.
  intros Hinterval wait Hfuel1 Hfuel2.
  set (c0 := set_timelockBTS (State.config s) (half (timelockBTS (State.config s)))).
  assert (H0 : since (State.trace s) (State.trace s) (within 0))
    by (apply since_refl; split; [reflexivity | reflexivity]).
  pose proof (Z.le_max_l 0 wait) as Hmax.
  unfold ACCS.takeBTCForBTS, getInstance, calculateFee, btsCreate, btcRedeem.
  repeat wp_step.
  2:{ stays_within H0. }
  change (c1 = c0) in Hc0. subst c c1.
  match goal with |- wp _ _ ?st => set (s1 := st) end.
  assert (H1 : since (State.trace s) (State.trace s1) (within 0)).
  { subst s1. stays_within H0. }
  clearbody s1.
  eapply wp_conseq.
  { apply takeBTCForBTS_wait_bound with (c := c0) (s := s1);
      [exact Hinterval | exact Hfuel1]. }
  intros o2 s' HT.
  destruct (since_waited _ _ _ _ _ _ H1 HT) as [[l ->] H2]. clear H1 HT.
  destruct l as [[txID value] ttw]. cbn [lift_post]. repeat wp_step;
    try (stays_within H2; fail).
  match goal with |- wp _ _ ?st => set (s2 := st) end.
  assert (H3 : since (State.trace s) (State.trace s2) (within (0 + 1800 * 1000))).
  { subst s2. stays_within H2. }
  clearbody s2. clear H2.
  eapply wp_conseq.
  { apply takeBTCForBTS_poll_bound with (c := c0) (s := s2). exact Hfuel2. }
  intros o3 s'' HT.
  destruct (since_waited _ _ _ _ _ _ H3 HT) as [[l ->] H4]. clear H3 HT.
  change (timelockBTS c0) with wait in H4.
  destruct l as [pre ttw']. cbn [lift_post]. repeat wp_step; stays_within H4.
Qed.
End Countdown.

(** X11. With the polling interval of a parsed config, the two flows that
    give BTS always come to an end, by returning or by throwing, whatever the
    chains answer: [proposeBTCForBTS] within [Math.round(timelockBTS / 4)]
    polls of 4 s, [takeBTCForBTS] within 1800 s of waiting for the funding
    plus [Math.round(timelockBTS / 2)] polls of 1 s. Neither reads a block
    height. *)
Theorem flows_that_give_BTS_end_in_bounded_time (env : Env.t) (fuel : nat) (s : State.t)
    (Hinterval : checkAPIInterval (State.config s) = 4) :
  let polls := JS.Math_round (JS.div (timelockBTS (State.config s)) 4) in
  let wait := half (timelockBTS (State.config s)) in
  ((Z.to_nat polls <= fuel)%nat ->
   let '(o, s') := ACCS.proposeBTCForBTS env fuel s in
   ended_within (Z.max 0 polls * 4000) o (added (State.trace s) (State.trace s')))
  /\ ((450 <= fuel)%nat -> (Z.to_nat wait <= fuel)%nat ->
      let '(o, s') := ACCS.takeBTCForBTS env fuel s in
      ended_within (1800 * 1000 + Z.max 0 wait * 1000) o
        (added (State.trace s) (State.trace s'))).
Proof.
  intros polls wait. split.
  - intros Hfuel.
    pose proof (wp_elim _ _ _ (proposeBTCForBTS_ends env fuel s Hinterval Hfuel)) as H.
    destruct (ACCS.proposeBTCForBTS env fuel s) as [o s'].
    now apply since_added in H as [_ H].
  - intros Hfuel1 Hfuel2.
    pose proof (wp_elim _ _ _ (takeBTCForBTS_ends env fuel s Hinterval Hfuel1 Hfuel2)) as H.
    destruct (ACCS.takeBTCForBTS env fuel s) as [o s'].
    now apply since_added in H as [_ H].
Qed.

(** X11 for the sample accepter, whose [timelockBTS] is 3600 s, against a
    silent counterparty: 1800 passes are enough for the run to end, within
    3600 s. *)
Lemma flows_that_give_BTS_end_in_bounded_time_witness :
  let '(o, s') := ACCS.takeBTCForBTS Sample.env_silent 1800
                    (State.start Sample.accepter_BTS) in
  ended_within 3600000 o (State.trace s').
Proof.
  refine (proj2 (flows_that_give_BTS_end_in_bounded_time Sample.env_silent 1800
                   (State.start Sample.accepter_BTS) eq_refl) _ _).
  - apply Nat.leb_le. reflexivity.
  - apply Nat.leb_le. vm_compute. reflexivity.
Defined.

Lemma refund_reported_none report o new : Forall not_pushTX new -> refund_reported report o new.
Proof.
  intros Hall before n hex r ->. apply Forall_app in Hall as [_ Hall].
  apply Forall_inv in Hall. contradiction.
Qed.

Lemma refund_reported_last report new n hex r :
  refund_reported report (Throw (report hex r)) (new ++ [bitcoinAPI_pushTX n hex r])%list.
Proof.
  intros before n' hex' r' Heq. apply app_inj_tail in Heq as [_ [= _ <- <-]]. reflexivity.
Qed.

Ltac reported H :=
  simpl_trace;
  first [ apply since_app with (1 := H) | apply since_same with (1 := H) ];
  let new := fresh "new" in let Hnew := fresh "Hnew" in
  intros new Hnew; apply refund_reported_none;
  try (destruct Hnew as [Hnew _]); all_in_alphabet.

Section Reports.
Context (env : Env.t) (fuel : nat).

Lemma proposeBTSForBTC_reports s :
  wp (ACCS.proposeBTSForBTC env fuel)
     (fun o s' =>
        since (State.trace s) (State.trace s')
          (refund_reported (proposer_refund_error (networkName (State.config s))) o)) s.
Proof.
  pose proof (since_refl (Forall not_pushTX) (State.trace s) (Forall_nil _)) as H0.
  unfold ACCS.proposeBTSForBTC, btcCreate, pushTX.
  repeat wp_step; subst c.
  2:{ reported H0. }
  match goal with |- wp _ _ ?st => set (s1 := st) end.
  eapply wp_conseq.
  { apply proposeBTSForBTC_poll_emits with (P := not_pushTX) (t0 := State.trace s);
      try (intros; exact I).
    subst s1. extend H0. all_in_alphabet. }
  clearbody s1.
  intros [[success cur] | err |] s' [_ HT]; cbn [lift_post]; repeat wp_step;
    try (reported HT; fail); simpl_trace;
    apply since_app with (1 := HT); intros new _.
  - apply (refund_reported_last
             (proposer_refund_error (networkName (State.config s))) new _ _ (Ok _)).
  - apply (refund_reported_last
             (proposer_refund_error (networkName (State.config s))) new _ _ (Err _)).
Qed.

Lemma takeBTSForBTC_reports s :
  wp (ACCS.takeBTSForBTC env fuel)
     (fun o s' =>
        since (State.trace s) (State.trace s')
          (refund_reported accepter_refund_error o)) s.
Proof.
  pose proof (since_refl (Forall not_pushTX) (State.trace s) (Forall_nil _)) as H0.
  unfold ACCS.takeBTSForBTC, getInstance, btcCreate, pushTX, btsRedeem.
  repeat wp_step.
  2:{ reported H0. }
  match goal with |- wp _ _ ?st => set (s1 := st) end.
  eapply wp_conseq.
  { apply takeBTSForBTC_wait_emits with (P := not_pushTX) (t0 := State.trace s);
      try (intros; exact I).
    subst s1. extend H0. all_in_alphabet. }
  clearbody s1.
  intros [[id ttw] | err |] s' [_ HT]; cbn [lift_post]; repeat wp_step;
    try (reported HT; fail).
  match goal with |- wp _ _ ?st => set (s2 := st) end.
  eapply wp_conseq.
  { apply takeBTSForBTC_poll_emits with (P := not_pushTX) (t0 := State.trace s);
      try (intros; exact I).
    subst s2. extend HT. all_in_alphabet. }
  clearbody s2.
  intros [[pre cur] | err |] s'' [_ HT2]; cbn [lift_post]; repeat wp_step;
    try (reported HT2; fail); simpl_trace;
    apply since_app with (1 := HT2); intros new _.
  - match goal with
    | Hf : JS.falsy ?id = _ |- context [bitcoinAPI_pushTX ?n ?hex (Ok ?id)] =>
        pose proof (refund_reported_last accepter_refund_error new n hex (Ok id)) as H;
        cbn [accepter_refund_error] in H; rewrite Hf in H; exact H
    end.
  - match goal with
    | Hf : JS.falsy ?id = _ |- context [bitcoinAPI_pushTX ?n ?hex (Ok ?id)] =>
        pose proof (refund_reported_last accepter_refund_error new n hex (Ok id)) as H;
        cbn [accepter_refund_error] in H; rewrite Hf in H; exact H
    end.
  - apply (refund_reported_last accepter_refund_error new _ _ (Err _)).
Qed.
End Reports.

(** X12. What a Bitcoin-funding flow reports after broadcasting its refund.
    A run that ends with [pushTX] throws: the rejection of [pushTX] if it was
    rejected; otherwise [proposeBTSForBTC] says that the HTLC was refunded
    with the transaction id returned, also when that id is empty, while
    [takeBTSForBTC] takes an empty id for a failure and hands the refund hex
    to the user in its error. *)
Theorem refund_is_reported (env : Env.t) (fuel : nat) (s : State.t) :
  (let '(o, s') := ACCS.proposeBTSForBTC env fuel s in
   refund_reported (proposer_refund_error (networkName (State.config s))) o
     (added (State.trace s) (State.trace s')))
  /\ (let '(o, s') := ACCS.takeBTSForBTC env fuel s in
      refund_reported accepter_refund_error o (added (State.trace s) (State.trace s'))).
Proof.
  split.
  - pose proof (wp_elim _ _ _ (proposeBTSForBTC_reports env fuel s)) as H.
    destruct (ACCS.proposeBTSForBTC env fuel s) as [o s'].
    now apply since_added in H as [_ H].
  - pose proof (wp_elim _ _ _ (takeBTSForBTC_reports env fuel s)) as H.
    destruct (ACCS.takeBTSForBTC env fuel s) as [o s'].
    now apply since_added in H as [_ H].
Qed.

(** X12 where the endpoint answers the refund with an empty transaction id:
    the proposer reports a refund with no id, the accepter reports a failure
    and the refund hex. *)
Lemma refund_is_reported_witness :
  fst (ACCS.proposeBTSForBTC Scene.env_unpushed 10 (State.start Sample.proposer_BTC))
  = Throw (JsError ("No HTLC found on Bitshares testnet. "
                    ++ "Your HTLC was refunded with transaction ID ."))
  /\ fst (ACCS.takeBTSForBTC Scene.env_unpushed 10 (State.start Sample.accepter_BTC))
     = Throw (JsError ("Could not push refundHex to endpoint. "
                       ++ "Hex for refund transaction: refund")).
Proof.
  destruct (refund_is_reported Scene.env_unpushed 10 (State.start Sample.proposer_BTC))
    as [H1 _].
  destruct (refund_is_reported Scene.env_unpushed 10 (State.start Sample.accepter_BTC))
    as [_ H2].
  destruct (ACCS.proposeBTSForBTC Scene.env_unpushed 10 (State.start Sample.proposer_BTC))
    as [o1 s1] eqn:E1.
  destruct (ACCS.takeBTSForBTC Scene.env_unpushed 10 (State.start Sample.accepter_BTC))
    as [o2 s2] eqn:E2.
  vm_compute in E1. vm_compute in E2. injection E1 as <- <-. injection E2 as <- <-.
  split.
  - exact (H1 [_] _ _ (Ok "") eq_refl).
  - exact (H2 [_; _; _; _] _ _ (Ok "") eq_refl).
Defined.

Lemma dispatch_unknown_type (env : Env.t) (fuel : nat) (s : State.t) :
  type (State.config s) <> "BTC" ->
  type (State.config s) <> "BTS" ->
  ACCS.dispatch env fuel s = (Return tt, s).
Proof.
  intros Hp Ha. apply String.eqb_neq in Hp, Ha.
  unfold ACCS.dispatch, bind, get_config. rewrite Hp, Ha. reflexivity.
Qed.

Lemma dispatch_creates (env : Env.t) (fuel : nat) (s : State.t) :
  wp (ACCS.dispatch env fuel)
     (fun _ s' => since (State.trace s) (State.trace s')
                    (Forall (created_for (State.config s)))) s.
Proof.
  unfold ACCS.dispatch. repeat wp_step; subst c;
    match goal with
    | H : (_ && _)%bool = true |- _ =>
        apply andb_prop in H as [Htype Hmode];
        apply String.eqb_eq in Htype; pose proof Hmode as Hmode'; apply String.eqb_eq in Hmode'
    | _ => idtac
    end.
  - eapply wp_conseq; [apply proposeBTSForBTC_summary |].
    intros o s' [_ H]. apply since_same with (1 := H). intros new Hall.
    eapply Forall_impl; [| exact Hall].
    intros ev Hev. destruct ev; cbn in Hev |- *; try contradiction; auto.
    destruct Hev as [-> ->]. rewrite Hmode. repeat split; auto.
  - eapply wp_conseq; [apply proposeBTCForBTS_summary |].
    intros o s' [_ H]. apply since_same with (1 := H). intros new Hall.
    eapply Forall_impl; [| exact Hall].
    intros ev Hev. destruct ev; cbn in Hev |- *; try contradiction; auto.
    destruct Hev as [-> ->]. rewrite Hmode. repeat split; auto.
  - eapply wp_conseq; [apply takeBTSForBTC_summary |].
    intros o s' H. apply since_same with (1 := H). intros new [Hall _].
    eapply Forall_impl; [| exact Hall].
    intros ev Hev. destruct ev; cbn in Hev |- *; try contradiction; auto.
    destruct Hev as [-> ->]. rewrite Hmode'. repeat split; auto.
  - eapply wp_conseq; [apply takeBTCForBTS_summary |].
    intros o s' H. apply since_same with (1 := H). intros new [Hall _].
    eapply Forall_impl; [| exact Hall].
    intros ev Hev. destruct ev; cbn in Hev |- *; try contradiction; auto.
    destruct Hev as [-> ->]. rewrite Hmode'. repeat split; auto.
  - apply since_refl. constructor.
Qed.


(** Whatever the currency that is not ["BTC"], parsing goes as it does for
    ["BTS"]. *)
Lemma parseUserInput_currency (env : Env.t) (fields : ACCSFields.t) (t : Trace) :
  ACCSFields.currencyToGive fields <> "BTC" ->
  ACCS.parseUserInput env fields t
  = (let '(parsed, tp) := ACCS.parseUserInput env (with_currency fields "BTS") t in
     (retyped (ACCSFields.currencyToGive fields) parsed, tp)).
Proof.
  intros HBTC. apply String.eqb_neq in HBTC.
  unfold ACCS.parseUserInput, with_currency, retyped, with_type, bind, ret, lift,
    getInstance, toAccountID, getAccountID, Timer.toBTS, await.
  cbn [ACCSFields.mode ACCSFields.networkToTrade ACCSFields.currencyToGive
       ACCSFields.amountToSend ACCSFields.rate ACCSFields.amountToReceive
       ACCSFields.bitcoinPrivateKey ACCSFields.bitsharesPrivateKey
       ACCSFields.counterpartyBitcoinPublicKey
       ACCSFields.counterpartyBitsharesAccountName ACCSFields.bitcoinTxID
       ACCSFields.priority ACCSFields.secret].
  rewrite HBTC. change (String.eqb "BTS" "BTC") with false.
  repeat match goal with
         | |- context [match ?x with _ => _ end] =>
             lazymatch x with
             | context [match _ with _ => _ end] => fail
             | _ => destruct x; cbn
             end
         end; reflexivity.
Qed.

(** X13. A currency that is neither ["BTC"] nor ["BTS"] is not refused.
    [parseUserInput] treats it as it treats ["BTS"]: the same requests with
    the same answers, and the same config but for its [type], so that the
    amount to send is read in 1/100000 BTS and the amount to receive in
    satoshi. [run] then returns normally without starting a flow or calling
    an adapter again. *)
Theorem run_with_unknown_currency (env : Env.t) (fuel : nat) (fields : ACCSFields.t)
    (t : Trace)
    (HBTC : ACCSFields.currencyToGive fields <> "BTC")
    (HBTS : ACCSFields.currencyToGive fields <> "BTS") :
  let '(o, t', final) := ACCS.run env fuel fields t in
  let '(parsed_BTS, tp) := ACCS.parseUserInput env (with_currency fields "BTS") t in
  ACCS.parseUserInput env fields t
  = (retyped (ACCSFields.currencyToGive fields) parsed_BTS, tp)
  /\ t' = tp
  /\ match parsed_BTS with
     | Return config =>
         o = Return tt
         /\ final = Some (with_type config (ACCSFields.currencyToGive fields))
     | Throw e => o = Throw e /\ final = None
     | OutOfFuel => False
     end.
Proof.
  unfold ACCS.run. rewrite (parseUserInput_currency env fields t HBTC).
  pose proof (wp_elim _ _ _ (parseUserInput_spec env (with_currency fields "BTS") t)) as H.
  destruct (ACCS.parseUserInput env (with_currency fields "BTS") t)
    as [[config | e |] tp]; destruct H as [_ H]; cbn [retyped];
    [| auto | contradiction].
  rewrite dispatch_unknown_type by (cbn [State.config with_type type]; congruence).
  cbn [State.trace State.config]. auto.
Qed.

(** X13 for an input that names the currency in lower case. *)
Lemma run_with_unknown_currency_witness :
  let fields := with_currency Scene.fields_proposer_BTC "btc" in
  let '(o, t', final) := ACCS.run Sample.env_prompt 10 fields [] in
  o = Return tt /\ length t' = 4%nat /\ option_map amountBTSMini final = Some 50000
  /\ option_map type final = Some "btc".
Proof.
  intros fields.
  assert (HBTC : ACCSFields.currencyToGive fields <> "BTC") by discriminate.
  assert (HBTS : ACCSFields.currencyToGive fields <> "BTS") by discriminate.
  pose proof (run_with_unknown_currency Sample.env_prompt 10 fields [] HBTC HBTS) as H.
  destruct (ACCS.run Sample.env_prompt 10 fields []) as [[o t'] final].
  destruct (ACCS.parseUserInput Sample.env_prompt (with_currency fields "BTS") [])
    as [parsed tp] eqn:E.
  vm_compute in E. injection E as <- <-.
  destruct H as (_ & -> & -> & ->). repeat split.
Defined.

Lemma parseUserInput_emits (env : Env.t) (fields : ACCSFields.t) (t : Trace) :
  wp (ACCS.parseUserInput env fields)
     (fun _ t' => since t t' (Forall parse_request)) t.
Proof.
  pose proof (since_refl (Forall parse_request) t (Forall_nil _)) as H0.
  unfold ACCS.parseUserInput, getInstance, toAccountID, getAccountID, Timer.toBTS.
  destruct (String.eqb (ACCSFields.networkToTrade fields) "mainnet");
    destruct (String.eqb (ACCSFields.currencyToGive fields) "BTC");
    repeat wp_step; extend H0; all_in_alphabet.
Qed.

Lemma locked_for_parse fields new ev : parse_request ev -> locked_for fields new ev.
Proof. destruct ev; cbn; auto; contradiction. Qed.

(** X14. Whatever [run] locks is what the user typed, for an amount to send
    whose products with the units are finite. Every Bitcoin HTLC that a run
    creates is in a run that gives BTC; it is on the network named in the
    input, with the priority, the transaction id and the secret hash of the
    input, funds [Math.round(amountToSend * 10^8)] satoshi, the product being
    the binary64 one and so within [1/2 + |p| * 2^-53] of the exact product
    [p], and has the sequence 6 for the proposer and 3 for anyone else. Every
    Bitshares HTLC is in a run that gives BTS; it is on the node and in the
    asset of the network, locks [Math.round(amountToSend * 10^5)], as near
    to the exact product, under the secret hash and the Bitshares key of the
    input, for the time the timer answered in this run, halved for the
    accepter. *)
Theorem run_locks_what_the_user_typed (env : Env.t) (fuel : nat) (fields : ACCSFields.t)
    (t : Trace)
    (Hsat : product_is_finite (ACCSFields.amountToSend fields) (10 ^ 8))
    (Hmini : product_is_finite (ACCSFields.amountToSend fields) (10 ^ 5)) :
  let '(_, t', _) := ACCS.run env fuel fields t in
  let new := added t t' in
  Forall (locked_for fields new) new.
Proof.
  unfold ACCS.run.
  pose proof (wp_elim _ _ _ (parseUserInput_spec env fields t)) as Hspec.
  pose proof (wp_elim _ _ _ (parseUserInput_trace env fields t)) as Htrace.
  pose proof (wp_elim _ _ _ (parseUserInput_emits env fields t)) as Hemits.
  destruct (ACCS.parseUserInput env fields t) as [[config | e |] tp];
    destruct Hspec as [_ Hspec]; destruct Htrace as (parsed & -> & Htrace);
    apply since_added in Hemits as [_ Hemits]; rewrite added_app in Hemits;
    [| | contradiction].
  2:{ cbv zeta. rewrite added_app. eapply Forall_impl; [| exact Hemits].
      intros ev. apply locked_for_parse. }
  pose proof (wp_elim _ _ _ (dispatch_creates env fuel
                               {| State.config := config; State.trace := (t ++ parsed)%list |}))
    as Hd.
  destruct (ACCS.dispatch env fuel _) as [o s']. cbn [State.trace State.config] in Hd.
  destruct Hd as (new & -> & Hcreated). cbv zeta.
  rewrite <- app_assoc, added_app. apply Forall_app. split.
  { eapply Forall_impl; [| exact Hemits]. intros ev. apply locked_for_parse. }
  destruct Hspec as (Hamounts & Hmode & Htype & Hprio & Hname & _ & Hendpoint & HBTC & _
                     & Hsecret).
  destruct Htrace as (Hparsed & _ & Hkey & Htx & Hasset).
  eapply Forall_impl; [| exact Hcreated].
  intros ev Hev. destruct ev; cbn in Hev |- *; auto.
  - destruct Hev as (Hgive & -> & ->). rewrite Htype in Hgive.
    apply String.eqb_eq in Hgive. rewrite Hgive in Hamounts. destruct Hamounts as [Hamount _].
    apply String.eqb_eq in Hgive.
    rewrite Hmode, Htx, Hamount, HBTC, Hsecret. cbn. repeat split; auto.
    apply (rounded_product_within _ _ unit_satoshi Hsat).
  - destruct Hev as (Hgive & -> & ->). rewrite Htype in Hgive.
    assert (Hne : String.eqb (ACCSFields.currencyToGive fields) "BTC" = false)
      by (rewrite Hgive; reflexivity).
    rewrite Hne in Hamounts. destruct Hamounts as [_ Hamount].
    cbn. repeat split; auto.
    { rewrite Hamount. apply (rounded_product_within _ _ unit_BTSMini Hmini). }
    exists (timelockBTS config). split.
    + apply in_or_app. left. rewrite Hparsed. cbn. auto.
    + rewrite Hmode, Hamount, Hasset, Hsecret, Hkey. reflexivity.
Qed.

(** X14 on the sample input: the run creates a Bitcoin HTLC, and whatever it
    creates is for 50000000 satoshi with the sequence 6. *)
Lemma run_locks_what_the_user_typed_witness :
  let '(_, t', _) := ACCS.run Sample.env_prompt 10 Scene.fields_proposer_BTC [] in
  btcCreate_sequences t' = [6]
  /\ forall h config r,
       In (BitcoinHTLC_create h config r) t' ->
       HTLCConfigBTC.amount config = 50000000 /\ HTLCConfigBTC.sequence config = 6.
Proof.
  pose proof (run_locks_what_the_user_typed Sample.env_prompt 10 Scene.fields_proposer_BTC []
                eq_refl eq_refl) as H.
  destruct (ACCS.run Sample.env_prompt 10 Scene.fields_proposer_BTC []) as [[o t'] final] eqn:E.
  vm_compute in E. injection E as <- <- <-. cbv zeta in H.
  split; [reflexivity |]. intros h config r Hin.
  rewrite Forall_forall in H. destruct (H _ Hin) as (_ & _ & _ & _ & ->).
  split; reflexivity.
Defined.

(** X15. The two parties mean the same Bitshares HTLC. Let their configs
    agree on the secret hash and on [amountBTSMini], and name each other's
    Bitshares account. Then the HTLC that [takeBTSForBTC] looks up is the one
    [proposeBTCForBTS] creates, by sender, receiver, amount and hash, and by
    time as well once both parties were given the same [timelockBTS]; and the
    HTLC that [proposeBTSForBTC] tries to redeem is the one [takeBTCForBTS]
    creates, by sender, receiver, amount and hash. *)
Theorem parties_mean_the_same_Bitshares_HTLC (cP cA : ACCSConfig.t)
    (Hhash : Secret.hash (secret cP) = Secret.hash (secret cA))
    (Hamount : amountBTSMini cP = amountBTSMini cA)
    (Hproposer : bitsharesAccountID cP = counterpartyBitsharesAccountID cA)
    (Haccepter : counterpartyBitsharesAccountID cP = bitsharesAccountID cA)
    (envP envA : Env.t) (fuelP fuelA : nat) (tP tA : Trace) :
  let sP := {| State.config := cP; State.trace := tP |} in
  let sA := {| State.config := cA; State.trace := tA |} in
  (forall sender receiver amount hash time sender' receiver' amount' hash' time',
     In (sender, receiver, amount, hash, time)
        (created_BitsharesHTLC
           (added tP (State.trace (snd (ACCS.proposeBTCForBTS envP fuelP sP))))) ->
     In (sender', receiver', amount', hash', time')
        (sought_BitsharesHTLC
           (added tA (State.trace (snd (ACCS.takeBTSForBTC envA fuelA sA))))) ->
     (sender', receiver', amount', hash') = (sender, receiver, amount, hash)
     /\ (timelockBTS cP = timelockBTS cA -> time' = time))
  /\ (forall sender receiver amount hash time sender' receiver' amount' hash',
        In (sender, receiver, amount, hash, time)
           (created_BitsharesHTLC
              (added tA (State.trace (snd (ACCS.takeBTCForBTS envA fuelA sA))))) ->
        In (sender', receiver', amount', hash')
           (redeemed_BitsharesHTLC
              (added tP (State.trace (snd (ACCS.proposeBTSForBTC envP fuelP sP))))) ->
        (sender', receiver', amount', hash') = (sender, receiver, amount, hash)
        /\ time = half (timelockBTS cA)).
Proof.
  intros sP sA. split.
  - intros sender receiver amount hash time sender' receiver' amount' hash' time' Hc Hs.
    pose proof (proposeBTCForBTS_summary envP fuelP sP) as HP. unfold wp in HP.
    destruct HP as [_ HP]. apply since_added in HP as [_ HallP].
    pose proof (takeBTSForBTC_summary envA fuelA sA) as HA. unfold wp in HA.
    apply since_added in HA as [_ [HallA _]].
    cbv zeta in HallA, HallP. cbn [State.config State.trace sP sA] in *.
    destruct (In_flat_map_Forall _ _ _ _ Hc HallP) as (ev & Hev & Hin).
    destruct ev; cbn in Hin; try contradiction. destruct Hin as [[=] | []].
    destruct Hev as [-> ->]. cbn in *. subst.
    destruct (In_flat_map_Forall _ _ _ _ Hs HallA) as (ev & Hev & Hin).
    destruct ev; cbn in Hin; try contradiction. destruct Hin as [[=] | []].
    destruct Hev as (-> & -> & -> & -> & ->). cbn in *. subst.
    split; [| auto]. congruence.
  - intros sender receiver amount hash time sender' receiver' amount' hash' Hc Hr.
    pose proof (takeBTCForBTS_summary envA fuelA sA) as HA. unfold wp in HA.
    apply since_added in HA as [_ [HallA _]].
    pose proof (proposeBTSForBTC_summary envP fuelP sP) as HP. unfold wp in HP.
    destruct HP as [_ HP]. apply since_added in HP as [_ HallP].
    cbv zeta in HallA, HallP. cbn [State.config State.trace sP sA] in *.
    destruct (In_flat_map_Forall _ _ _ _ Hc HallA) as (ev & Hev & Hin).
    destruct ev; cbn in Hin; try contradiction. destruct Hin as [[=] | []].
    destruct Hev as [-> ->]. cbn in *. subst.
    destruct (In_flat_map_Forall _ _ _ _ Hr HallP) as (ev & Hev & Hin).
    destruct ev; cbn in Hin; try contradiction. destruct Hin as [[=] | []].
    destruct Hev as (-> & -> & -> & ->). cbn in *. subst.
    split; [| reflexivity]. congruence.
Qed.

(** X15 for the sample accepter who gives BTC and its proposer. *)
Lemma parties_mean_the_same_Bitshares_HTLC_witness :
  let created :=
    created_BitsharesHTLC
      (State.trace (snd (ACCS.proposeBTCForBTS Sample.env_prompt 10
                           (State.start Scene.proposer_BTS)))) in
  let sought :=
    sought_BitsharesHTLC
      (State.trace (snd (ACCS.takeBTSForBTC Sample.env_prompt 10
                           (State.start Sample.accepter_BTC)))) in
  In ("1.2.2", "1.2.1", 5000000, "h", 3600) created
  /\ In ("1.2.2", "1.2.1", 5000000, "h", 3600) sought.
Proof.
  intros created sought.
  assert (Hc : In ("1.2.2", "1.2.1", 5000000, "h", 3600) created) by (vm_compute; auto).
  split; [exact Hc |].
  assert (Hs : exists x, In x sought) by (eexists; vm_compute; left; reflexivity).
  destruct Hs as [[[[[sender receiver] amount] hash] time] Hs].
  destruct (parties_mean_the_same_Bitshares_HTLC Scene.proposer_BTS Sample.accepter_BTC
              eq_refl eq_refl eq_refl eq_refl Sample.env_prompt Sample.env_prompt
              10%nat 10%nat [] []) as [H _].
  destruct (H _ _ _ _ _ _ _ _ _ _ Hc Hs) as [[= -> -> -> ->] Htime].
  rewrite (Htime eq_refl) in Hs. exact Hs.
Defined.

Lemma app_cons_unique {A : Type} (Q : A -> Prop) (before after b a : list A) (x y : A) :
  Forall (fun e => ~ Q e) before -> Forall (fun e => ~ Q e) after -> Q y ->
  (before ++ x :: after)%list = (b ++ y :: a)%list ->
  b = before /\ x = y /\ a = after.
Proof.
  intros Hb Ha Hy. revert b. induction Hb as [| e before He _ IH]; intros b Heq.
  - destruct b as [| z b]; cbn in Heq; injection Heq as -> Heq; [auto |].
    exfalso. rewrite Forall_forall in Ha. apply (Ha y); [| exact Hy].
    rewrite Heq. apply in_or_app. right. left. reflexivity.
  - destruct b as [| z b]; cbn in Heq; injection Heq as -> Heq.
    + contradiction.
    + destruct (IH b Heq) as (-> & -> & ->). auto.
Qed.

Lemma followed_by_none (Q : Event -> Prop) (P : Trace -> Prop) new :
  Forall (fun ev => ~ Q ev) new -> followed_by Q P new.
Proof.
  intros Hall before ev after -> Hq. apply Forall_app in Hall as [_ Hall].
  apply Forall_inv in Hall. contradiction.
Qed.

Lemma followed_by_once (Q : Event -> Prop) (P : Trace -> Prop) before x after :
  Forall (fun ev => ~ Q ev) before -> Forall (fun ev => ~ Q ev) after -> P after ->
  followed_by Q P (before ++ x :: after)%list.
Proof.
  intros Hb Ha HP b y a Heq Hq.
  destruct (app_cons_unique Q before after b a x y Hb Ha Hq Heq) as (_ & _ & ->).
  exact HP.
Qed.

Lemma proposeBTCForBTS_redeems_next (env : Env.t) (fuel : nat) (s : State.t) :
  wp (ACCS.proposeBTCForBTS env fuel)
     (fun _ s' =>
        let c := State.config s' in
        since (State.trace s) (State.trace s')
          (followed_by funding_seen (redeems_next c))) s.
Proof.
  set (c0 := set_timelockBTC (State.config s) (half (timelockBTC (State.config s)))).
  unfold ACCS.proposeBTCForBTS, btsCreate, btcRedeem.
  repeat wp_step; subst c.
  2:{ simpl_trace. eexists. split; [reflexivity |]. apply followed_by_none.
      repeat constructor. auto. }
  match goal with |- wp _ _ ?st => set (s1 := st) end.
  unfold ACCS.proposeBTCForBTS_poll.
  apply wp_while with
    (I := fun l s' =>
       State.config s' = c0
       /\ since (State.trace s) (State.trace s')
            (fun new =>
               match fst l with
               | None => Forall (fun ev => ~ funding_seen ev) new
               | Some _ =>
                   exists before n a res,
                     new = (before
                            ++ [ bitcoinAPI_getValueFromLastTransaction n a (Ok res);
                                 setTimeout (checkAPIInterval c0 * 1000) ])%list
                     /\ Forall (fun ev => ~ funding_seen ev) before
               end)).
  - intros [txID ttw] s' [HC HT] _. cbn [lift_post fst] in *.
    repeat wp_step; simpl_trace; rewrite HC.
    + destruct txID; [discriminate |].
      apply since_same with (1 := HT). intros new Hall. now apply followed_by_none.
    + destruct txID as [tx |]; [| discriminate].
      apply since_app with (1 := HT). intros new (before & n & addr & res & -> & Hall).
      rewrite <- app_assoc. cbn [app]. apply followed_by_once.
      * exact Hall.
      * repeat constructor; cbn; auto.
      * eexists. reflexivity.
    + destruct txID as [tx |]; [| discriminate].
      apply since_app with (1 := HT). intros new (before & n & addr & res & -> & Hall).
      rewrite <- app_assoc. cbn [app]. apply followed_by_once.
      * exact Hall.
      * repeat constructor; cbn; auto.
      * eexists. reflexivity.
  - intros [txID ttw] s' [HC HT] Hcond. simpl_trace. rewrite ?HC.
    unfold ACCS.proposeBTCForBTS_cond in Hcond. apply andb_prop in Hcond as [Hnull _].
    destruct txID; [discriminate |]. cbn [fst] in HT.
    apply since_same with (1 := HT). intros new Hall. now apply followed_by_none.
  - intros [txID ttw] s' [HC HT] Hcond.
    unfold ACCS.proposeBTCForBTS_cond in Hcond. apply andb_prop in Hcond as [Hnull _].
    destruct txID; [discriminate |]. cbn [fst] in HT.
    unfold ACCS.proposeBTCForBTS_body, getValueFromLastTransaction.
    repeat wp_step; simpl_trace.
    split; [exact HC |]. apply since_app with (1 := HT). intros new Hall. cbn [fst].
    destruct r as [res | err].
    + exists new. do 3 eexists. split; [reflexivity | exact Hall].
    + apply Forall_app. split; [exact Hall |]. repeat constructor; cbn; auto.
  - subst s1. split; [reflexivity |]. simpl_trace. eexists. split; [reflexivity |].
    cbn [fst]. repeat constructor. cbn. auto.
Qed.

(** X16. The proposer who gives BTS does not look at what was funded. As
    soon as a poll of the watched P2WSH address is answered with a funding
    transaction, whatever its value, [proposeBTCForBTS] sleeps for the
    polling interval and then calls [redeem] for the full [amountSatoshi]
    with its secret, and does nothing else. *)
Theorem proposeBTCForBTS_redeems_whatever_was_funded (env : Env.t) (fuel : nat)
    (s : State.t) (before after : Trace) (n : string) (address : Payment.Address)
    (txID : string) (value : Z) :
  let '(_, s') := ACCS.proposeBTCForBTS env fuel s in
  added (State.trace s) (State.trace s')
  = (before ++ bitcoinAPI_getValueFromLastTransaction n address (Ok (txID, value))
            :: after)%list ->
  redeems_next (State.config s') after.
Proof.
  pose proof (wp_elim _ _ _ (proposeBTCForBTS_redeems_next env fuel s)) as H.
  destruct (ACCS.proposeBTCForBTS env fuel s) as [o s']. cbv zeta in H.
  apply since_added in H as [_ H]. intros Hnew. exact (H _ _ _ Hnew I).
Qed.

(** X16 where the accepter funds a single satoshi against 100000: the
    proposer redeems all the same. *)
Lemma proposeBTCForBTS_redeems_whatever_was_funded_witness :
  let c := set_timelockBTC Scene.proposer_BTS 3 in
  redeems_next c
    [ setTimeout 4000;
      BitcoinHTLC_redeem (htlcBTC_counterparty c) (p2wsh_watched c) 100000 Sample.secret
        (Ok tt) ].
Proof.
  intros c.
  pose proof (proposeBTCForBTS_redeems_whatever_was_funded Scene.env_dust 10
                (State.start Scene.proposer_BTS)
                [BitsharesHTLC_create (htlcBTS_own c) (configBTS c) (Ok tt)]
                [ setTimeout 4000;
                  BitcoinHTLC_redeem (htlcBTC_counterparty c) (p2wsh_watched c) 100000
                    Sample.secret (Ok tt) ]
                "testnet" (Payment.address (p2wsh_watched c)) "funding" 1) as H.
  destruct (ACCS.proposeBTCForBTS Scene.env_dust 10 (State.start Scene.proposer_BTS))
    as [o s'] eqn:E.
  vm_compute in E. injection E as <- <-. apply H. reflexivity.
Defined.

(** X17. A flow changes nothing of the config object it is given but one of
    the timelocks and the preimage of the secret: mode, type, priority, both
    account ids, the Bitshares key, both amounts, both key pairs, the secret
    hash, the transaction id, the network settings and the polling interval
    are after the run what they were before, however the run ends. *)
Theorem flows_keep_the_settings (env : Env.t) (fuel : nat) (s : State.t) :
  same_settings (State.config s) (State.config (snd (ACCS.proposeBTSForBTC env fuel s)))
  /\ same_settings (State.config s) (State.config (snd (ACCS.proposeBTCForBTS env fuel s)))
  /\ same_settings (State.config s) (State.config (snd (ACCS.takeBTSForBTC env fuel s)))
  /\ same_settings (State.config s) (State.config (snd (ACCS.takeBTCForBTS env fuel s))).
Proof.
  split; [| split; [| split]].
  - pose proof (proposeBTSForBTC_summary env fuel s) as H. unfold wp in H.
    destruct H as [-> _]. repeat split.
  - pose proof (proposeBTCForBTS_summary env fuel s) as H. unfold wp in H.
    destruct H as [-> _]. repeat split.
  - pose proof (takeBTSForBTC_summary env fuel s) as H. unfold wp in H.
    cbv zeta in H. apply since_added in H as [_ [_ HC]].
    destruct HC as [[-> _] | [-> | [p [-> _]]]]; repeat split.
  - pose proof (takeBTCForBTS_summary env fuel s) as H. unfold wp in H.
    cbv zeta in H. apply since_added in H as [_ [_ HC]].
    destruct HC as [[-> _] | [-> | [p [-> _]]]]; repeat split.
Qed.

Lemma pace_app (t ext : Trace) : pace (t ++ ext)%list = fold_left pace_step ext (pace t).
Proof. unfold pace. apply fold_left_app. Qed.

Lemma pace_step_keeps (between : Trace) :
  forallb (fun ev => negb (is_sleep ev)) between = true ->
  forall called op called',
    In op called ->
    fold_left pace_step between (Some called) = Some called' -> In op called'.
Proof.
  induction between as [| ev between IH]; intros Hno called op called' Hin Hfold.
  - cbn in Hfold. now injection Hfold as <-.
  - cbn [forallb] in Hno. apply andb_prop in Hno as [Hev Hno].
    apply negb_true_iff in Hev. cbn [fold_left pace_step] in Hfold. rewrite Hev in Hfold.
    destruct (existsb (Nat.eqb (operation ev)) called).
    + clear - Hfold. exfalso. induction between; cbn in Hfold; [discriminate | auto].
    + apply (IH Hno (operation ev :: called) op called'); [now right | exact Hfold].
Qed.

Lemma pace_None (t : Trace) : fold_left pace_step t None = None.
Proof. induction t; cbn; auto. Qed.

Lemma pace_prefix (t ext : Trace) called :
  pace (t ++ ext)%list = Some called -> exists called0, pace t = Some called0.
Proof.
  rewrite pace_app. destruct (pace t) as [called0 |]; [eauto |].
  now rewrite pace_None.
Qed.

Lemma sleep_between (between : Trace) :
  forallb (fun ev => negb (is_sleep ev)) between = false ->
  exists ms, In (setTimeout ms) between.
Proof.
  induction between as [| ev between IH]; [discriminate |].
  cbn [forallb]. intros H. apply andb_false_iff in H as [H | H].
  - apply negb_false_iff in H. destruct ev; try discriminate. eexists. left. reflexivity.
  - destruct (IH H) as [ms Hin]. exists ms. now right.
Qed.

Lemma pace_sound (new : Trace) called :
  pace new = Some called -> paced (fun _ => True) new.
Proof.
  revert called. induction new as [| ev new IH] using rev_ind; intros called Hpace.
  - intros [| ? ?] ? ? ? ? [=].
  - intros before ev1 between ev2 after Heq Hs Hop.
    destruct (pace_prefix _ _ _ Hpace) as [called0 Hpace0].
    change (before ++ ev1 :: between ++ ev2 :: after)%list
      with (before ++ (ev1 :: between) ++ ev2 :: after)%list in Heq.
    rewrite app_assoc in Heq.
    apply app_snoc_inv in Heq as [(_ & -> & Hnew) | (after' & _ & Hnew)].
    + destruct (forallb (fun ev => negb (is_sleep ev)) between) eqn:Hno.
      2:{ destruct (sleep_between _ Hno) as [ms Hin]. eauto. }
      exfalso. rewrite pace_app, Hpace0 in Hpace. cbn [fold_left pace_step] in Hpace.
      assert (Hs2 : is_sleep ev2 = false).
      { destruct ev1; destruct ev2; cbn in Hop, Hs |- *; congruence. }
      rewrite Hs2 in Hpace.
      assert (Hin : In (operation ev1) called0).
      { rewrite Hnew, pace_app in Hpace0.
        destruct (pace before) as [c0 |]; [| now rewrite pace_None in Hpace0].
        cbn [fold_left app] in Hpace0. unfold pace_step at 2 in Hpace0.
        rewrite Hs in Hpace0.
        destruct (existsb (Nat.eqb (operation ev1)) c0).
        - now rewrite pace_None in Hpace0.
        - eapply pace_step_keeps; [exact Hno | | exact Hpace0]. now left. }
      assert (Hex : existsb (Nat.eqb (operation ev2)) called0 = true).
      { apply existsb_exists. exists (operation ev1). split; [exact Hin |].
        apply Nat.eqb_eq. now symmetry. }
      rewrite Hex in Hpace. discriminate.
    + rewrite <- app_assoc in Hnew. cbn [app] in Hnew.
      exact (IH called0 Hpace0 before ev1 between ev2 after' Hnew Hs Hop).
Qed.

Lemma paced_durations (D : Z -> Prop) (new : Trace) :
  paced (fun _ => True) new ->
  Forall (fun ev => match ev with setTimeout ms => D ms | _ => True end) new ->
  paced D new.
Proof.
  intros Hp Hall before ev1 between ev2 after Heq Hs Hop.
  destruct (Hp _ _ _ _ _ Heq Hs Hop) as (ms & _ & Hin). exists ms. split; [| exact Hin].
  rewrite Forall_forall in Hall. apply (Hall (setTimeout ms)).
  rewrite Heq. apply in_or_app. right. right. apply in_or_app. now left.
Qed.

Lemma pace_in_weaken options new : pace_in options new -> pace_in ([] :: options) new.
Proof. intros (called & Hm & Hin). exists called. split; [exact Hm | now right]. Qed.

(** The goal's trace is the one of [H] with some events appended, and the
    monitor is run over them from each state [H] allows. *)
Ltac keeps_pace H :=
  simpl_trace;
  first [ apply since_app with (1 := H) | apply since_same with (1 := H) ];
  let new := fresh "new" in let called := fresh "called" in
  let Hm := fresh "Hm" in let Hin := fresh "Hin" in
  intros new (called & Hm & Hin); unfold pace_after, pace_in, keeps_its_pace;
  rewrite ?pace_app, Hm; cbn [In] in Hin;
  repeat (destruct Hin as [<- | Hin]; [| try contradiction]);
  cbn; eexists; try split; try reflexivity; auto 10.

Section Pacing.
Context (env : Env.t) (fuel : nat) (c : ACCSConfig.t) (t0 : Trace).

Lemma proposeBTSForBTC_poll_paced hBTC hBTS maxBlockHeight s :
  since t0 (State.trace s) (pace_in [[6%nat]]) ->
  wp (ACCS.proposeBTSForBTC_poll env fuel c hBTC hBTS maxBlockHeight)
     (fun o s' => since t0 (State.trace s') (pace_after [[6%nat]] o)) s.
Proof.
  intros Hs. unfold ACCS.proposeBTSForBTC_poll.
  apply wp_while with
    (I := fun _ s' => since t0 (State.trace s') (pace_in [[]; [6%nat]])).
  - intros l s' HT _. exact HT.
  - intros l s' HT _. keeps_pace HT.
  - intros [success cur] s' HT _.
    unfold ACCS.proposeBTSForBTC_body, btsRedeem, getLastBlock_height.
    repeat wp_step; keeps_pace HT.
  - apply since_same with (1 := Hs). apply pace_in_weaken.
Qed.

Lemma proposeBTCForBTS_poll_paced hBTC p2wsh timeToWait s :
  since t0 (State.trace s) (pace_in [[13%nat]]) ->
  wp (ACCS.proposeBTCForBTS_poll env fuel c hBTC p2wsh timeToWait)
     (fun o s' => since t0 (State.trace s') (pace_after [[13%nat]] o)) s.
Proof.
  intros Hs. unfold ACCS.proposeBTCForBTS_poll.
  apply wp_while with
    (I := fun _ s' => since t0 (State.trace s') (pace_in [[]; [13%nat]])).
  - intros l s' HT _. exact HT.
  - intros l s' HT _. keeps_pace HT.
  - intros [txID ttw] s' HT _.
    unfold ACCS.proposeBTCForBTS_body, getValueFromLastTransaction.
    repeat wp_step; keeps_pace HT.
  - apply since_same with (1 := Hs). apply pace_in_weaken.
Qed.

Lemma takeBTSForBTC_wait_paced s :
  since t0 (State.trace s) (pace_in [[0%nat]]) ->
  wp (ACCS.takeBTSForBTC_wait env fuel c)
     (fun o s' => since t0 (State.trace s') (pace_after [[0%nat]] o)) s.
Proof.
  intros Hs. unfold ACCS.takeBTSForBTC_wait.
  apply wp_while with
    (I := fun _ s' => since t0 (State.trace s') (pace_in [[]; [0%nat]])).
  - intros l s' HT _. exact HT.
  - intros l s' HT _. keeps_pace HT.
  - intros [id ttw] s' HT _.
    unfold ACCS.takeBTSForBTC_wait_body, getID.
    repeat wp_step; keeps_pace HT.
  - apply since_same with (1 := Hs). apply pace_in_weaken.
Qed.

Lemma takeBTSForBTC_poll_paced hBTC p2wsh maxBlockHeight s :
  since t0 (State.trace s) (pace_in [[6%nat]; [6; 0]%nat]) ->
  wp (ACCS.takeBTSForBTC_poll env fuel c hBTC p2wsh maxBlockHeight)
     (fun o s' => since t0 (State.trace s') (pace_after [[6%nat]; [6; 0]%nat] o)) s.
Proof.
  intros Hs. unfold ACCS.takeBTSForBTC_poll.
  apply wp_while with
    (I := fun _ s' => since t0 (State.trace s') (pace_in [[]; [6%nat]; [6; 0]%nat])).
  - intros l s' HT _. exact HT.
  - intros l s' HT _. keeps_pace HT.
  - intros [pre cur] s' HT _.
    unfold ACCS.takeBTSForBTC_body, getLastBlock_height, getPreimageFromLastTransaction.
    repeat wp_step; keeps_pace HT.
  - apply since_same with (1 := Hs). apply pace_in_weaken.
Qed.

Lemma takeBTCForBTS_wait_paced hBTC p2wsh s :
  since t0 (State.trace s) (pace_in [[0%nat]]) ->
  wp (ACCS.takeBTCForBTS_wait env fuel c hBTC p2wsh)
     (fun o s' => since t0 (State.trace s') (pace_after [[0%nat]] o)) s.
Proof.
  intros Hs. unfold ACCS.takeBTCForBTS_wait.
  apply wp_while with
    (I := fun _ s' => since t0 (State.trace s') (pace_in [[]; [0%nat]])).
  - intros l s' HT _. exact HT.
  - intros l s' HT _. keeps_pace HT.
  - intros [[txID value] ttw] s' HT _.
    unfold ACCS.takeBTCForBTS_wait_body, getValueFromLastTransaction.
    repeat wp_step; keeps_pace HT.
  - apply since_same with (1 := Hs). apply pace_in_weaken.
Qed.

Lemma takeBTCForBTS_poll_paced timeToWait s :
  since t0 (State.trace s) (pace_in [[13; 8]%nat; [13; 8; 0]%nat]) ->
  wp (ACCS.takeBTCForBTS_poll env fuel c timeToWait)
     (fun o s' =>
        since t0 (State.trace s') (pace_after [[13; 8]%nat; [13; 8; 0]%nat] o)) s.
Proof.
  intros Hs. unfold ACCS.takeBTCForBTS_poll.
  apply wp_while with
    (I := fun _ s' =>
            since t0 (State.trace s') (pace_in [[]; [13; 8]%nat; [13; 8; 0]%nat])).
  - intros l s' HT _. exact HT.
  - intros l s' HT _. keeps_pace HT.
  - intros [pre ttw] s' HT _.
    unfold ACCS.takeBTCForBTS_body, getPreimageFromHTLC.
    repeat wp_step; keeps_pace HT.
  - apply since_same with (1 := Hs). apply pace_in_weaken.
Qed.
End Pacing.

Section PacedFlows.
Context (env : Env.t) (fuel : nat).

Lemma proposeBTSForBTC_paced s :
  wp (ACCS.proposeBTSForBTC env fuel)
     (fun _ s' => since (State.trace s) (State.trace s') keeps_its_pace) s.
Proof.
  assert (H0 : since (State.trace s) (State.trace s) (pace_in [[]])).
  { apply since_refl. exists []. split; [reflexivity | now left]. }
  unfold ACCS.proposeBTSForBTC, btcCreate, pushTX, keeps_its_pace.
  repeat wp_step.
  2:{ keeps_pace H0. }
  match goal with |- wp _ _ ?st => set (s1 := st) end.
  assert (H1 : since (State.trace s) (State.trace s1) (pace_in [[6%nat]])).
  { subst s1. keeps_pace H0. }
  clearbody s1.
  eapply wp_conseq.
  { apply proposeBTSForBTC_poll_paced with (t0 := State.trace s). exact H1. }
  intros o2 s' HT.
  destruct o2 as [[success cur] | err |]; cbn [lift_post pace_after] in HT |- *;
    repeat wp_step; try exact HT; keeps_pace HT.
Qed.

Lemma proposeBTCForBTS_paced s :
  wp (ACCS.proposeBTCForBTS env fuel)
     (fun _ s' => since (State.trace s) (State.trace s') keeps_its_pace) s.
Proof.
  assert (H0 : since (State.trace s) (State.trace s) (pace_in [[]])).
  { apply since_refl. exists []. split; [reflexivity | now left]. }
  unfold ACCS.proposeBTCForBTS, btsCreate, btcRedeem.
  repeat wp_step.
  2:{ keeps_pace H0. }
  match goal with |- wp _ _ ?st => set (s1 := st) end.
  assert (H1 : since (State.trace s) (State.trace s1) (pace_in [[13%nat]])).
  { subst s1. keeps_pace H0. }
  clearbody s1.
  eapply wp_conseq.
  { apply proposeBTCForBTS_poll_paced with (t0 := State.trace s). exact H1. }
  intros o2 s' HT.
  destruct o2 as [[txID ttw] | err |]; cbn [lift_post pace_after] in HT |- *;
    repeat wp_step; try exact HT; keeps_pace HT.
Qed.

Lemma takeBTSForBTC_paced s :
  wp (ACCS.takeBTSForBTC env fuel)
     (fun _ s' => since (State.trace s) (State.trace s') keeps_its_pace) s.
Proof.
  assert (H0 : since (State.trace s) (State.trace s) (pace_in [[]])).
  { apply since_refl. exists []. split; [reflexivity | now left]. }
  unfold ACCS.takeBTSForBTC, getInstance, btcCreate, pushTX, btsRedeem.
  repeat wp_step.
  2:{ keeps_pace H0. }
  match goal with |- wp _ _ ?st => set (s1 := st) end.
  assert (H1 : since (State.trace s) (State.trace s1) (pace_in [[0%nat]])).
  { subst s1. keeps_pace H0. }
  clearbody s1.
  eapply wp_conseq.
  { apply takeBTSForBTC_wait_paced with (t0 := State.trace s). exact H1. }
  intros o2 s' H2. clear H1.
  destruct o2 as [[id ttw] | err |]; cbn [lift_post pace_after] in H2 |- *;
    repeat wp_step; try exact H2; try (keeps_pace H2; fail).
  match goal with |- wp _ _ ?st => set (s2 := st) end.
  assert (H3 : since (State.trace s) (State.trace s2) (pace_in [[6%nat]; [6; 0]%nat])).
  { subst s2. keeps_pace H2. }
  clearbody s2.
  eapply wp_conseq.
  { apply takeBTSForBTC_poll_paced with (t0 := State.trace s). exact H3. }
  intros o3 s'' H4. clear H3.
  destruct o3 as [[pre cur] | err |]; cbn [lift_post pace_after] in H4 |- *;
    repeat wp_step; try exact H4; keeps_pace H4.
Qed.

Lemma takeBTCForBTS_paced s :
  wp (ACCS.takeBTCForBTS env fuel)
     (fun _ s' => since (State.trace s) (State.trace s') keeps_its_pace) s.
Proof.
  assert (H0 : since (State.trace s) (State.trace s) (pace_in [[]])).
  { apply since_refl. exists []. split; [reflexivity | now left]. }
  unfold ACCS.takeBTCForBTS, getInstance, calculateFee, btsCreate, btcRedeem.
  repeat wp_step.
  2:{ keeps_pace H0. }
  match goal with |- wp _ _ ?st => set (s1 := st) end.
  assert (H1 : since (State.trace s) (State.trace s1) (pace_in [[0%nat]])).
  { subst s1. keeps_pace H0. }
  clearbody s1.
  eapply wp_conseq.
  { apply takeBTCForBTS_wait_paced with (t0 := State.trace s). exact H1. }
  intros o2 s' H2. clear H1.
  destruct o2 as [[[txID value] ttw] | err |]; cbn [lift_post pace_after] in H2 |- *;
    repeat wp_step; try exact H2; try (keeps_pace H2; fail).
  match goal with |- wp _ _ ?st => set (s2 := st) end.
  assert (H3 : since (State.trace s) (State.trace s2)
                 (pace_in [[13; 8]%nat; [13; 8; 0]%nat])).
  { subst s2. keeps_pace H2. }
  clearbody s2.
  eapply wp_conseq.
  { apply takeBTCForBTS_poll_paced with (t0 := State.trace s). exact H3. }
  intros o3 s'' H4. clear H3.
  destruct o3 as [[pre ttw'] | err |]; cbn [lift_post pace_after] in H4 |- *;
    repeat wp_step; try exact H4; keeps_pace H4.
Qed.
End PacedFlows.

Lemma paced_flow (D : Z -> Prop) (A : Event -> Prop) (new : Trace) :
  keeps_its_pace new -> Forall A new -> (forall ms, A (setTimeout ms) -> D ms) ->
  paced D new.
Proof.
  intros [called Hpace] Hall HD. apply paced_durations.
  - exact (pace_sound _ _ Hpace).
  - apply Forall_impl with (2 := Hall). intros [] Hev; try exact I. now apply HD.
Qed.

(** The notion has content: two calls in a row are not paced. *)
Lemma paced_rejects_a_burst (D : Z -> Prop) n r1 r2 :
  ~ paced D [bitcoinAPI_getLastBlock n r1; bitcoinAPI_getLastBlock n r2].
Proof.
  intros Hp.
  destruct (Hp [] (bitcoinAPI_getLastBlock n r1) [] (bitcoinAPI_getLastBlock n r2) []
               eq_refl eq_refl eq_refl) as (ms & _ & []).
Qed.

(** X18. A flow never calls the same operation of an adapter twice in a row:
    between two calls of one operation it sleeps, however the calls end and
    whenever the flow stops. The sleep lasts the polling interval of the
    config in milliseconds, or one second in the flow of the accepter who
    gives BTS. *)
Theorem flows_sleep_between_repeated_calls (env : Env.t) (fuel : nat) (s : State.t) :
  let new (flow : Env.t -> nat -> M State.t unit) :=
    added (State.trace s) (State.trace (snd (flow env fuel s))) in
  let interval := checkAPIInterval (State.config s) * 1000 in
  paced (fun ms => ms = interval) (new ACCS.proposeBTSForBTC)
  /\ paced (fun ms => ms = interval) (new ACCS.proposeBTCForBTS)
  /\ paced (fun ms => ms = interval) (new ACCS.takeBTSForBTC)
  /\ paced (fun ms => ms = interval \/ ms = 1000) (new ACCS.takeBTCForBTS).
Proof.
  intros new interval. subst new interval. cbv beta.
  split; [| split; [| split]].
  - pose proof (proposeBTSForBTC_paced env fuel s) as Hp. unfold wp in Hp.
    apply since_added in Hp as [_ Hp].
    pose proof (proposeBTSForBTC_summary env fuel s) as Ha. unfold wp in Ha.
    cbv zeta in Ha. destruct Ha as [_ Ha]. apply since_added in Ha as [_ Ha].
    apply paced_flow with (1 := Hp) (2 := Ha). intros ms Hms. exact Hms.
  - pose proof (proposeBTCForBTS_paced env fuel s) as Hp. unfold wp in Hp.
    apply since_added in Hp as [_ Hp].
    pose proof (proposeBTCForBTS_summary env fuel s) as Ha. unfold wp in Ha.
    cbv zeta in Ha. destruct Ha as [_ Ha]. apply since_added in Ha as [_ Ha].
    apply paced_flow with (1 := Hp) (2 := Ha). intros ms Hms. exact Hms.
  - pose proof (takeBTSForBTC_paced env fuel s) as Hp. unfold wp in Hp.
    apply since_added in Hp as [_ Hp].
    pose proof (takeBTSForBTC_summary env fuel s) as Ha. unfold wp in Ha.
    cbv zeta in Ha. apply since_added in Ha as [_ [Ha _]].
    apply paced_flow with (1 := Hp) (2 := Ha). intros ms Hms. exact Hms.
  - pose proof (takeBTCForBTS_paced env fuel s) as Hp. unfold wp in Hp.
    apply since_added in Hp as [_ Hp].
    pose proof (takeBTCForBTS_summary env fuel s) as Ha. unfold wp in Ha.
    cbv zeta in Ha. apply since_added in Ha as [_ [Ha _]].
    apply paced_flow with (1 := Hp) (2 := Ha). intros ms Hms. exact Hms.
Qed.
